(** * Calculadora MeLi de Stock: pricing and reconciliation engine

    A shallow embedding of [utils.py] and [data_processor.py] and the
    properties of the specification that concern them.

    Modelling choices, fixed once for the whole development:
    - a Python [str] is the list of its Unicode code points ([pystr]);
      literals are written as UTF-8 text and decoded by [ustr];
    - a Python / numpy float is an exact rational, or one of the IEEE
      special values ([pyfloat]); rounding to the nearest double and
      overflow are not modelled, signed zeros are identified; what is
      proved of an amount is the formula that is evaluated and the branch
      that is taken, and the solver is given once more on doubles
      ([Binary64]) where the rounding decides;
    - a pandas [Series] is the list of its cells, a [DataFrame] a finite
      map from column labels to series, with the length of its index;
    - an exception is a result [None]. *)

From Stdlib Require Import ZArith NArith QArith Qround Qpower Lia Lqa String Ascii List.
From Stdlib Require PrimFloat FloatOps SpecFloat.
From stdpp Require Import base option list gmap strings fin_maps.

Local Open Scope Z_scope.

(** ** Python strings *)

Module PyStr.

Abbreviation pystr := (list N).

(** Decoding of a UTF-8 literal into code points. *)
Fixpoint utf8_decode (bs : list N) : pystr :=
  match bs with
  | [] => []
  | b :: r =>
    if (b <? 128)%N then b :: utf8_decode r
    else if (b <? 224)%N then
      match r with
      | b1 :: r1 => ((b - 192) * 64 + (b1 - 128))%N :: utf8_decode r1
      | _ => [b]
      end
    else if (b <? 240)%N then
      match r with
      | b1 :: b2 :: r2 =>
        ((b - 224) * 4096 + (b1 - 128) * 64 + (b2 - 128))%N :: utf8_decode r2
      | _ => [b]
      end
    else
      match r with
      | b1 :: b2 :: b3 :: r3 =>
        ((b - 240) * 262144 + (b1 - 128) * 4096 + (b2 - 128) * 64 + (b3 - 128))%N
          :: utf8_decode r3
      | _ => [b]
      end
  end.

Definition ustr (s : string) : pystr :=
  utf8_decode (map N_of_ascii (list_ascii_of_string s)).

(** [Py_UNICODE_ISSPACE]: what [str.strip()], [str.isspace()] and the
    regular expression class [\s] use. *)
Definition isspace (c : N) : bool :=
  ((9 <=? c) && (c <=? 13) || (28 <=? c) && (c <=? 32)
   || (c =? 133) || (c =? 160) || (c =? 5760)
   || (8192 <=? c) && (c <=? 8202)
   || (c =? 8232) || (c =? 8233) || (c =? 8239) || (c =? 8287)
   || (c =? 12288))%N.

(** [Py_ISSPACE]: the ASCII white space of the C library. *)
Definition ascii_isspace (c : N) : bool :=
  ((9 <=? c) && (c <=? 13) || (c =? 32))%N.

Fixpoint lstrip_by (p : N → bool) (s : pystr) : pystr :=
  match s with
  | c :: r => if p c then lstrip_by p r else s
  | [] => []
  end.

Definition rstrip_by (p : N → bool) (s : pystr) : pystr :=
  reverse (lstrip_by p (reverse s)).

Definition strip_by (p : N → bool) (s : pystr) : pystr :=
  rstrip_by p (lstrip_by p s).

(** [s.strip()] *)
Definition strip (s : pystr) : pystr := strip_by isspace s.

Definition mem_char (c : N) (s : pystr) : bool := existsb (N.eqb c) s.

(** [s.strip(chars)] *)
Definition strip_chars (chars s : pystr) : pystr :=
  strip_by (λ c, mem_char c chars) s.

(** [c in s], for a one-character [c] *)
Definition contains (c : N) (s : pystr) : bool := mem_char c s.

(** [s.replace(c, by)], for a one-character [c] *)
Definition replace (c : N) (by_ : pystr) (s : pystr) : pystr :=
  flat_map (λ x, if (x =? c)%N then by_ else [x]) s.

(** [s.rfind(c)], for a one-character [c]: the highest index, or -1. *)
Fixpoint rfind_from (c : N) (s : pystr) (i : Z) (found : Z) : Z :=
  match s with
  | [] => found
  | x :: r => rfind_from c r (i + 1) (if (x =? c)%N then i else found)
  end.

Definition rfind (c : N) (s : pystr) : Z := rfind_from c s 0 (-1).

(** [s.split(c)], for a one-character [c]; the result is never empty. *)
Fixpoint split (c : N) (s : pystr) : list pystr :=
  match s with
  | [] => [[]]
  | x :: r =>
    if (x =? c)%N then [] :: split c r
    else match split c r with
         | p :: ps => (x :: p) :: ps
         | [] => [[x]]
         end
  end.

(** [s.startswith(p)] *)
Fixpoint startswith (p s : pystr) : bool :=
  match p, s with
  | [], _ => true
  | a :: p', b :: s' => (a =? b)%N && startswith p' s'
  | _ :: _, [] => false
  end.

(** The longest prefix whose characters satisfy [p], and the rest. *)
Fixpoint span (p : N → bool) (s : pystr) : pystr * pystr :=
  match s with
  | c :: r => if p c then let '(a, b) := span p r in (c :: a, b) else ([], s)
  | [] => ([], [])
  end.

Definition pystr_eqb (a b : pystr) : bool := bool_decide (a = b).

End PyStr.
Export PyStr.

(** ** Python floats *)

Module PyFloat.

Inductive pyfloat :=
| Finite (q : Q)
| Infinity (neg : bool)
| NaN.

#[export] Instance pyfloat_inhabited : Inhabited pyfloat := populate NaN.

Definition f0 : pyfloat := Finite 0.
Definition f1 : pyfloat := Finite 1.
Definition f100 : pyfloat := Finite 100.

Definition Qneg (q : Q) : bool := (Qnum q <? 0).
Definition Qzero (q : Q) : bool := (Qnum q =? 0).

Definition Qltb (x y : Q) : bool :=
  match (x ?= y)%Q with Lt => true | _ => false end.
Definition Qleb (x y : Q) : bool :=
  match (x ?= y)%Q with Gt => false | _ => true end.

Definition fneg (a : pyfloat) : pyfloat :=
  match a with
  | Finite q => Finite (- q)
  | Infinity s => Infinity (negb s)
  | NaN => NaN
  end.

Definition fadd (a b : pyfloat) : pyfloat :=
  match a, b with
  | NaN, _ | _, NaN => NaN
  | Finite x, Finite y => Finite (x + y)
  | Infinity s, Finite _ | Finite _, Infinity s => Infinity s
  | Infinity s, Infinity t => if Bool.eqb s t then Infinity s else NaN
  end.

Definition fsub (a b : pyfloat) : pyfloat := fadd a (fneg b).

Definition fmul (a b : pyfloat) : pyfloat :=
  match a, b with
  | NaN, _ | _, NaN => NaN
  | Finite x, Finite y => Finite (x * y)
  | Infinity s, Finite q | Finite q, Infinity s =>
    if Qzero q then NaN else Infinity (xorb s (Qneg q))
  | Infinity s, Infinity t => Infinity (xorb s t)
  end.

(** Division. A zero divisor follows numpy (an infinity or NaN); the
    divisions of this program that run on Python floats have the divisor
    [100.0], or a denominator that was tested positive. *)
Definition fdiv (a b : pyfloat) : pyfloat :=
  match a, b with
  | NaN, _ | _, NaN => NaN
  | Finite x, Finite y =>
    if Qzero y then (if Qzero x then NaN else Infinity (Qneg x))
    else Finite (x / y)
  | Finite _, Infinity _ => Finite 0
  | Infinity s, Finite q => Infinity (xorb s (Qneg q))
  | Infinity _, Infinity _ => NaN
  end.

(** [a < b] and [a <= b]; every comparison with NaN is false. *)
Definition fltb (a b : pyfloat) : bool :=
  match a, b with
  | NaN, _ | _, NaN => false
  | Finite x, Finite y => Qltb x y
  | Finite _, Infinity s => negb s
  | Infinity s, Finite _ => s
  | Infinity s, Infinity t => s && negb t
  end.

Definition fleb (a b : pyfloat) : bool :=
  match a, b with
  | NaN, _ | _, NaN => false
  | Finite x, Finite y => Qleb x y
  | Finite _, Infinity s => negb s
  | Infinity s, Finite _ => s
  | Infinity s, Infinity t => s || negb t
  end.

Definition fgtb (a b : pyfloat) : bool := fltb b a.

(** [a == b] on floats, and its negation [a != b]. *)
Definition feqb (a b : pyfloat) : bool :=
  match a, b with
  | Finite x, Finite y => Qeq_bool x y
  | Infinity s, Infinity t => Bool.eqb s t
  | _, _ => false
  end.

(** Truth value of a float: everything but zero. *)
Definition truthy (a : pyfloat) : bool := negb (feqb a f0).

(** [x or 0.0] *)
Definition or_zero (a : pyfloat) : pyfloat := if truthy a then a else f0.

Definition isnan (a : pyfloat) : bool :=
  match a with NaN => true | _ => false end.

(** Equality of float values: rationals are compared as numbers. *)
Definition feq (a b : pyfloat) : Prop :=
  match a, b with
  | Finite x, Finite y => (x == y)%Q
  | Infinity s, Infinity t => s = t
  | NaN, NaN => True
  | _, _ => False
  end.

(** [0 <= a], as a proposition. *)
Definition nonneg (a : pyfloat) : Prop := fleb f0 a = true.

(** Rounding of a rational to the nearest integer, ties to the even one. *)
Definition rint (q : Q) : Z :=
  let fl := Qfloor q in
  let r := (q - inject_Z fl)%Q in
  match (r ?= 1 # 2)%Q with
  | Lt => fl
  | Gt => fl + 1
  | Eq => if Z.even fl then fl else fl + 1
  end.

(** [numpy.round(x, 2)] *)
Definition round2 (a : pyfloat) : pyfloat :=
  match a with
  | Finite q => Finite (inject_Z (rint (q * 100)) / 100)
  | _ => a
  end.

End PyFloat.
Export PyFloat.

(** ** The parts of the runtime that are tables or library code

    The Unicode character database, the lower-casing of strings, the
    printing of floats by [str] and the numeric reading of strings by
    [pandas.to_numeric] are taken as given. *)

Class Runtime := {
  (** [Py_UNICODE_TODECIMAL]: the value of a decimal digit character;
      [str.isdecimal] and the class [\d] hold where it is defined. *)
  todecimal : N → option N;
  todecimal_ascii : ∀ c, (48 <= c <= 57)%N → todecimal c = Some (c - 48)%N;
  todecimal_only_ascii :
    ∀ c d, (c < 128)%N → todecimal c = Some d → (48 <= c <= 57)%N;
  todecimal_digit : ∀ c d, todecimal c = Some d → (d < 10)%N;
  (** [unicodedata.normalize('NFKD', s)] *)
  normalize_NFKD : pystr → pystr;
  (** [unicodedata.combining(c)] *)
  combining : N → N;
  (** [s.lower()] *)
  lower : pystr → pystr;
  (** [str(x)] for a float [x] *)
  float_repr : pyfloat → pystr;
  (** [pandas.to_numeric(s, errors='coerce')] for a string [s] *)
  to_numeric_str : pystr → pyfloat;
}.

(** ** [float(s)] for a string [s] *)

Module FloatLiteral.

Definition is_digit (c : N) : bool := ((48 <=? c) && (c <=? 57))%N.

(** [_PyUnicode_TransformDecimalAndSpaceToASCII]: ASCII characters stay,
    other white space becomes a blank, other decimal digits become ASCII
    digits and any other character becomes ['?'], which no literal has. *)
Definition to_ascii `{Runtime} (c : N) : N :=
  if (c <? 127)%N then c
  else if isspace c then 32%N
  else match todecimal c with
       | Some d => (48 + d)%N
       | None => 63%N
       end.

(** Underscores are allowed between two digits only. *)
Fixpoint underscores_ok (prev : N) (s : pystr) : bool :=
  match s with
  | [] => negb (prev =? 95)%N
  | c :: r =>
    (if (c =? 95)%N then is_digit prev
     else negb (prev =? 95)%N || is_digit c)
    && underscores_ok c r
  end.

Definition digits_val (ds : pystr) : Z :=
  fold_left (λ acc d, 10 * acc + (Z.of_N d - 48)) ds 0.

Definition ascii_lower (c : N) : N :=
  if ((65 <=? c) && (c <=? 90))%N then (c + 32)%N else c.

(** An optional sign: is it a minus, and what follows. *)
Definition take_sign (s : pystr) : bool * pystr :=
  match s with
  | 45%N :: r => (true, r)
  | 43%N :: r => (false, r)
  | _ => (false, s)
  end.

(** The exponent part, which may be absent: [e], a sign, digits. *)
Definition parse_exponent (s : pystr) : option Z :=
  match s with
  | [] => Some 0
  | c :: r =>
    if ((c =? 101) || (c =? 69))%N then
      let '(neg, r1) := take_sign r in
      let '(ds, r2) := span is_digit r1 in
      match ds, r2 with
      | _ :: _, [] => Some (if neg then - digits_val ds else digits_val ds)
      | _, _ => None
      end
    else None
  end.

(** Digits, a point, digits, an exponent; one digit at least. *)
Definition parse_decimal (s : pystr) : option Q :=
  let '(ip, r1) := span is_digit s in
  let '(fp, r2) :=
    match r1 with
    | 46%N :: r => span is_digit r
    | _ => ([], r1)
    end in
  match ip ++ fp with
  | [] => None
  | ds =>
    match parse_exponent r2 with
    | Some e =>
      Some (inject_Z (digits_val ds) * 10 ^ (e - Z.of_nat (length fp)))%Q
    | None => None
    end
  end.

Definition parse_special (s : pystr) : option pyfloat :=
  let l := map ascii_lower s in
  if pystr_eqb l (ustr "inf") || pystr_eqb l (ustr "infinity")
  then Some (Infinity false)
  else if pystr_eqb l (ustr "nan") then Some NaN
  else None.

(** [float(s)]; [None] stands for [ValueError]. *)
Definition py_float `{Runtime} (s : pystr) : option pyfloat :=
  let a := strip_by ascii_isspace (map to_ascii s) in
  if underscores_ok 0%N a then
    let '(neg, body) := take_sign (filter (λ c, c ≠ 95%N) a) in
    match parse_special body with
    | Some v => Some (if neg then fneg v else v)
    | None =>
      match parse_decimal body with
      | Some q => Some (Finite (if neg then - q else q))
      | None => None
      end
    end
  else None.

End FloatLiteral.
Export FloatLiteral.

(** A runtime that knows the ASCII digits, decomposes the accented Latin-1
    letters and lower-cases ASCII and Latin-1 letters; it serves to run
    the definitions on the examples of the specification. Floats are not
    printed and strings are not read as numbers by it. *)
Module Latin1.

Definition base_letter (c : N) : option (N * N) :=
  (* the letter and the combining mark of a precomposed Latin-1 letter *)
  let mk (b : N) (m : N) := Some (b, m) in
  match c with
  | 192 => mk 65 768 | 193 => mk 65 769 | 194 => mk 65 770 | 195 => mk 65 771
  | 196 => mk 65 776 | 197 => mk 65 778 | 199 => mk 67 807
  | 200 => mk 69 768 | 201 => mk 69 769 | 202 => mk 69 770 | 203 => mk 69 776
  | 204 => mk 73 768 | 205 => mk 73 769 | 206 => mk 73 770 | 207 => mk 73 776
  | 209 => mk 78 771
  | 210 => mk 79 768 | 211 => mk 79 769 | 212 => mk 79 770 | 213 => mk 79 771
  | 214 => mk 79 776
  | 217 => mk 85 768 | 218 => mk 85 769 | 219 => mk 85 770 | 220 => mk 85 776
  | 221 => mk 89 769
  | 224 => mk 97 768 | 225 => mk 97 769 | 226 => mk 97 770 | 227 => mk 97 771
  | 228 => mk 97 776 | 229 => mk 97 778 | 231 => mk 99 807
  | 232 => mk 101 768 | 233 => mk 101 769 | 234 => mk 101 770
  | 235 => mk 101 776
  | 236 => mk 105 768 | 237 => mk 105 769 | 238 => mk 105 770
  | 239 => mk 105 776
  | 241 => mk 110 771
  | 242 => mk 111 768 | 243 => mk 111 769 | 244 => mk 111 770
  | 245 => mk 111 771 | 246 => mk 111 776
  | 249 => mk 117 768 | 250 => mk 117 769 | 251 => mk 117 770
  | 252 => mk 117 776
  | 253 => mk 121 769 | 255 => mk 121 776
  | _ => None
  end%N.

Definition nfkd (s : pystr) : pystr :=
  flat_map (λ c, match base_letter c with
                 | Some (b, m) => [b; m]
                 | None => [c]
                 end) s.

(** Canonical combining class; non-zero on the combining diacritical marks. *)
Definition ccc (c : N) : N :=
  if ((768 <=? c) && (c <=? 879))%N then 230%N else 0%N.

Definition lower_char (c : N) : N :=
  if ((65 <=? c) && (c <=? 90))%N then (c + 32)%N
  else if ((192 <=? c) && (c <=? 222) && negb (c =? 215))%N then (c + 32)%N
  else c.

Definition decimal (c : N) : option N :=
  if is_digit c then Some (c - 48)%N else None.

#[export] Program Instance runtime : Runtime := {|
  todecimal := decimal;
  normalize_NFKD := nfkd;
  combining := ccc;
  lower := map lower_char;
  float_repr := λ _, [];
  to_numeric_str := λ _, NaN;
|}.
Next Obligation.
  intros c Hc. unfold decimal, is_digit.
  destruct (N.leb_spec 48 c), (N.leb_spec c 57); simpl; try lia; done.
Qed.
Next Obligation.
  intros c d _. unfold decimal, is_digit.
  destruct (N.leb_spec 48 c), (N.leb_spec c 57); simpl; try done; lia.
Qed.
Next Obligation.
  intros c d. unfold decimal, is_digit.
  destruct (N.leb_spec 48 c), (N.leb_spec c 57); simpl; try done.
  intros [= <-]. lia.
Qed.

End Latin1.

(** ** Cells of a spreadsheet or data frame

    A cell holds a string or a number; the missing value ([None], NaN) is
    the number NaN. *)

Module Cell.

Inductive cell :=
| Str (s : pystr)
| Num (x : pyfloat).

#[export] Instance cell_inhabited : Inhabited cell := populate (Num NaN).

(** [pd.isna(c)] *)
Definition isna (c : cell) : bool :=
  match c with
  | Num NaN => true
  | _ => false
  end.

(** [str(c)] *)
Definition py_str `{Runtime} (c : cell) : pystr :=
  match c with
  | Str s => s
  | Num x => float_repr x
  end.

End Cell.
Export Cell.

(** ** The operations of pandas that the program uses *)

Module Pandas.

Abbreviation Series := (list cell).

(** A frame: the length of its index and its columns by label. Labels are
    UTF-8 text. The index is positional, and a frame is well formed when
    every column has the length of the index. *)
Record DataFrame := {
  nrows : nat;
  columns : gmap string Series;
}.

Definition wf (df : DataFrame) : Prop :=
  ∀ c s, columns df !! c = Some s → length s = nrows df.

(** [c in df.columns] *)
Definition has_column (df : DataFrame) (c : string) : bool :=
  bool_decide (is_Some (columns df !! c)).

(** [df[c] = s] *)
Definition set_column (c : string) (s : Series) (df : DataFrame) : DataFrame :=
  {| nrows := nrows df; columns := <[c := s]> (columns df) |}.

(** The cell of column [c] in row [i]. *)
Definition celda (df : DataFrame) (c : string) (i : nat) : option cell :=
  s ← columns df !! c; s !! i.

Section WithRuntime.
Context `{RT : Runtime}.

(** [pd.to_numeric(s, errors='coerce')] *)
Definition to_numeric_cell (c : cell) : pyfloat :=
  match c with
  | Num x => x
  | Str t => to_numeric_str t
  end.

Definition to_numeric (s : Series) : list pyfloat := to_numeric_cell <$> s.

End WithRuntime.

(** [s.fillna(0.0)] on a numeric series *)
Definition fillna0_float (x : pyfloat) : pyfloat := if isnan x then f0 else x.
Definition fillna0 (xs : list pyfloat) : list pyfloat := fillna0_float <$> xs.

(** [s.fillna('')] *)
Definition fillna_empty (s : Series) : Series :=
  (λ c, if isna c then Str [] else c) <$> s.

(** [df.loc[mask, c] = v], for a scalar [v], on the series of column [c] *)
Definition loc_set {A} (mask : list bool) (v : A) (s : list A) : list A :=
  zip_with (λ (m : bool) old, if m then v else old) mask s.

(** [df.loc[mask, c] = t[mask]], for a series [t] *)
Definition loc_set_series {A} (mask : list bool) (t s : list A) : list A :=
  zip_with (λ (m : bool) '(new, old), if m then new else old) mask (zip t s).

(** [df[mask]]: the rows where the mask holds. *)
Definition select {A} (mask : list bool) (s : list A) : list A :=
  snd <$> filter (λ p : bool * A, fst p = true) (zip mask s).

Definition filter_rows (mask : list bool) (df : DataFrame) : DataFrame :=
  {| nrows := length (filter (λ b : bool, b = true) (take (nrows df) mask));
     columns := select mask <$> columns df |}.

(** *** [left.merge(right, left_on=.., right_on=.., how='left', suffixes=..)] *)

(** Two keys match when they are equal; missing keys match each other. *)
Definition key_eqb (a b : cell) : bool :=
  match a, b with
  | Str s, Str t => pystr_eqb s t
  | Num x, Num y => feqb x y || isnan x && isnan y
  | _, _ => false
  end.

(** The positions of the keys of the right frame that match [k]. *)
Definition matches (k : cell) (rk : Series) : list nat :=
  fst <$> filter (λ p : nat * cell, key_eqb k (snd p) = true) (imap pair rk).

(** The rows of the result, in order: a row of the left frame with each
    matching row of the right frame, or with none. *)
Definition merge_pairs (lk rk : Series) : list (nat * option nat) :=
  mjoin (imap (λ i k, match matches k rk with
                      | [] => [(i, None)]
                      | js => (λ j, (i, Some j)) <$> js
                      end) lk).

Definition na : cell := Num NaN.

Definition take_left (pairs : list (nat * option nat)) (s : Series) : Series :=
  (λ p : nat * option nat, default na (s !! fst p)) <$> pairs.

Definition take_right (pairs : list (nat * option nat)) (s : Series) : Series :=
  (λ p : nat * option nat,
     match snd p with
     | Some j => default na (s !! j)
     | None => na
     end) <$> pairs.

Definition add_suffix (suffix : string) (c : string) : string :=
  (c ++ suffix)%string.

(** No label of [a] is a label of [b]. *)
Definition labels_disjoint (a b : gmap string Series) : bool :=
  bool_decide (map_Forall (λ c _, b !! c = None) a).

(** The columns of the result: a label that both frames have gets the
    suffix of its side. Suffixes that produce a label twice are refused
    ([MergeError]); so are missing key columns ([KeyError]). The error of
    pandas for key columns of two kinds (texts against numbers) is not
    modelled. *)
Definition merge_left (left right : DataFrame) (left_on right_on : string)
    (suffix_l suffix_r : string) : option DataFrame :=
  lk ← columns left !! left_on;
  rk ← columns right !! right_on;
  let pairs := merge_pairs lk rk in
  let in_right := λ p : string * Series, is_Some (columns right !! p.1) in
  let in_left := λ p : string * Series, is_Some (columns left !! p.1) in
  let l_own := filter (λ p, ¬ in_right p) (columns left) in
  let l_both := kmap (add_suffix suffix_l) (filter in_right (columns left)) in
  let r_own := filter (λ p, ¬ in_left p) (columns right) in
  let r_both := kmap (add_suffix suffix_r) (filter in_left (columns right)) in
  if labels_disjoint l_own l_both && labels_disjoint r_own r_both
     && labels_disjoint (l_own ∪ l_both) (r_own ∪ r_both)
  then Some {| nrows := length pairs;
               columns := (take_left pairs <$> (l_own ∪ l_both))
                          ∪ (take_right pairs <$> (r_own ∪ r_both)) |}
  else None.

End Pandas.
Export Pandas.

(** ** utils.py *)

Module Utils.

Section WithRuntime.
Context `{RT : Runtime}.

Definition chr_dollar : N := 36.
Definition chr_percent : N := 37.
Definition chr_comma : N := 44.
Definition chr_dot : N := 46.

(** [float(text)] inside [try ... except ValueError: return 0.0] *)
Definition float_or_zero (text : pystr) : pyfloat :=
  match py_float text with
  | Some v => v
  | None => f0
  end.

(** [re.sub(r'[\$\s]', '', text)] *)
Definition remove_currency_and_space (text : pystr) : pystr :=
  filter (λ c, ¬ (c = chr_dollar ∨ isspace c = true)) text.

(** The separator rules of [parse_money], on the text without currency
    symbols and white space. *)
Definition normalize_separators (text : pystr) : pystr :=
  if contains chr_comma text && contains chr_dot text then
    if rfind chr_comma text <? rfind chr_dot text
    then replace chr_comma [] text
    else replace chr_comma [chr_dot] (replace chr_dot [] text)
  else if contains chr_comma text then
    let parts := split chr_comma text in
    if (length parts =? 2)%nat && (length (nth 1 parts []) <=? 2)%nat
    then replace chr_comma [chr_dot] text
    else replace chr_comma [] text
  else text.

Definition parse_money (text : cell) : pyfloat :=
  if isna text then f0
  else
    let text := strip (py_str text) in
    match text with
    | [] => f0
    | _ =>
      let text := remove_currency_and_space text in
      let text := normalize_separators text in
      float_or_zero text
    end.

(** [re.sub(r'[%\s]', '', text)] *)
Definition remove_percent_and_space (text : pystr) : pystr :=
  filter (λ c, ¬ (c = chr_percent ∨ isspace c = true)) text.

Definition parse_pct (text : cell) : pyfloat :=
  if isna text then f0
  else
    let text := strip (py_str text) in
    match text with
    | [] => f0
    | _ =>
      let text := remove_percent_and_space text in
      let text := replace chr_comma [chr_dot] text in
      match py_float text with
      | Some value => if fgtb value f1 then fdiv value f100 else value
      | None => f0
      end
    end.

(** The class [[\d\.,]] *)
Definition in_number_class (c : N) : bool :=
  match todecimal c with
  | Some _ => true
  | None => (c =? chr_dot)%N || (c =? chr_comma)%N
  end.

(** One attempt of [([\d\.,]+)\s*%] at the head of the text. The run is
    taken whole: after a shorter run comes a character of the class, which
    is neither white space nor the percent sign. *)
Definition match_pct_here (text : pystr) : option pystr :=
  let '(run, rest) := span in_number_class text in
  match run, lstrip_by isspace rest with
  | _ :: _, c :: _ => if (c =? chr_percent)%N then Some run else None
  | _, _ => None
  end.

(** [re.search(r'([\d\.,]+)\s*%', text)]: the first group of the leftmost
    match. *)
Fixpoint search_pct (text : pystr) : option pystr :=
  match match_pct_here text with
  | Some g => Some g
  | None =>
    match text with
    | [] => None
    | _ :: r => search_pct r
    end
  end.

(** One attempt of [\$\s*([\d\.,]+)] at the head of the text. *)
Definition match_fixed_here (text : pystr) : option pystr :=
  match text with
  | c :: r =>
    if (c =? chr_dollar)%N then
      match fst (span in_number_class (lstrip_by isspace r)) with
      | [] => None
      | run => Some run
      end
    else None
  | [] => None
  end.

Fixpoint search_fixed (text : pystr) : option pystr :=
  match match_fixed_here text with
  | Some g => Some g
  | None =>
    match text with
    | [] => None
    | _ :: r => search_fixed r
    end
  end.

Definition parse_fee_combo (text : cell) : pyfloat * pyfloat :=
  if isna text then (f0, f0)
  else
    let text := strip (py_str text) in
    match text with
    | [] => (f0, f0)
    | _ =>
      let pct_value :=
        match search_pct text with
        | Some g => parse_pct (Str (g ++ [chr_percent]))
        | None => f0
        end in
      let fixed_value :=
        match search_fixed text with
        | Some g => parse_money (Str (chr_dollar :: g))
        | None => f0
        end in
      (pct_value, fixed_value)
    end.

Definition is_decimal (c : N) : bool :=
  match todecimal c with Some _ => true | None => false end.

(** One attempt of [(\d+(?:\.\d+)?)\s*%] at the head of the text. *)
Definition match_tax_here (text : pystr) : option pystr :=
  let '(ip, r) := span is_decimal text in
  match ip with
  | [] => None
  | _ =>
    let '(fp, r') :=
      match r with
      | c :: r1 =>
        if (c =? chr_dot)%N then
          match span is_decimal r1 with
          | ([], _) => ([], r)
          | (ds, r2) => (c :: ds, r2)
          end
        else ([], r)
      | [] => ([], r)
      end in
    match lstrip_by isspace r' with
    | c :: _ => if (c =? chr_percent)%N then Some (ip ++ fp) else None
    | [] => None
    end
  end.

Fixpoint search_tax (text : pystr) : option pystr :=
  match match_tax_here text with
  | Some g => Some g
  | None =>
    match text with
    | [] => None
    | _ :: r => search_tax r
    end
  end.

(** [None] stands for the [ValueError] that [float] would raise outside a
    [try]. *)
Definition extract_tax_percentage (tax_text : cell) : option pyfloat :=
  if isna tax_text then Some f0
  else
    let tax_text := strip (py_str tax_text) in
    match search_tax tax_text with
    | Some g => v ← py_float g; Some (fdiv v f100)
    | None => Some f0
    end.

(** The six results of the solver. *)
Record Solucion := {
  precio_publicacion : pyfloat;
  cargo_por_vender : pyfloat;
  costo_por_ofrecer_cuotas : pyfloat;
  retenciones : pyfloat;
  recibis : pyfloat;
  denominador_invalido : bool;
}.

Definition calcular_precio_publicacion_ml
    (tarifa_neta porcentaje_comision porcentaje_financiacion
     porcentaje_retenciones costo_fijo : pyfloat) : Solucion :=
  let tarifa_neta := or_zero tarifa_neta in
  let porcentaje_comision := or_zero porcentaje_comision in
  let porcentaje_financiacion := or_zero porcentaje_financiacion in
  let porcentaje_retenciones := or_zero porcentaje_retenciones in
  let costo_fijo := or_zero costo_fijo in
  let total_porcentual :=
    fadd (fadd porcentaje_comision porcentaje_financiacion)
         porcentaje_retenciones in
  let denominador := fsub f1 total_porcentual in
  if fleb denominador f0 then
    {| precio_publicacion := f0; cargo_por_vender := f0;
       costo_por_ofrecer_cuotas := f0; retenciones := f0; recibis := f0;
       denominador_invalido := true |}
  else
    let precio_publicacion := fdiv (fadd tarifa_neta costo_fijo) denominador in
    let cargo_por_vender :=
      fadd (fmul precio_publicacion porcentaje_comision) costo_fijo in
    let costo_por_ofrecer_cuotas :=
      fmul precio_publicacion porcentaje_financiacion in
    let retenciones := fmul precio_publicacion porcentaje_retenciones in
    let recibis :=
      fsub precio_publicacion
           (fadd (fadd cargo_por_vender costo_por_ofrecer_cuotas) retenciones) in
    {| precio_publicacion := precio_publicacion;
       cargo_por_vender := cargo_por_vender;
       costo_por_ofrecer_cuotas := costo_por_ofrecer_cuotas;
       retenciones := retenciones;
       recibis := recibis;
       denominador_invalido := false |}.

(** [df.rename(columns={old: new}, inplace=True)] *)
Definition rename_column (old new : string) (df : DataFrame) : DataFrame :=
  match columns df !! old with
  | Some s =>
    {| nrows := nrows df; columns := <[new := s]> (delete old (columns df)) |}
  | None => df
  end.

Definition clean_ml_data (df : DataFrame) : option DataFrame :=
  item_id ← columns df !! "ITEM_ID";
  sku ← columns df !! "SKU";
  let valid_mask :=
    zip_with
      (λ i s, negb (isna i) && startswith (ustr "ML") (py_str i)
              && negb (isna s) && negb (pystr_eqb (strip (py_str s)) []))
      item_id sku in
  Some (filter_rows valid_mask df).

Definition required_cols_ml : list string :=
  ["ITEM_ID"; "SKU"; "TITLE"; "QUANTITY"; "PRICE"; "CURRENCY_ID";
   "FEE_PER_SALE_MARKETPLACE_V2"; "COST_OF_FINANCING_MARKETPLACE";
   "LISTING_TYPE_V3"; "SHIPPING_METHOD "]%string.

Definition required_cols_odoo : list string :=
  ["Código Neored"; "Nombre"; "Cantidad a mano"; "Precio Tarifa";
   "Impuestos del cliente"]%string.

(** The frame, which the check of a listing may rename a column of in
    place, and the required columns that are missing: the structure is
    valid when there is none. An unknown [file_type] is never valid. *)
Definition validate_excel_structure (df : DataFrame) (file_type : string)
    : DataFrame * bool :=
  if String.eqb file_type "ml" then
    let df :=
      if has_column df "SHIPPING_METHOD " then df
      else if has_column df "SHIPPING_METHOD"
           then rename_column "SHIPPING_METHOD" "SHIPPING_METHOD " df
           else df in
    let missing_cols := filter (λ col, has_column df col = false) required_cols_ml in
    (df, bool_decide (missing_cols = []))
  else if String.eqb file_type "odoo" then
    let missing_cols :=
      filter (λ col, has_column df col = false) required_cols_odoo in
    (df, bool_decide (missing_cols = []))
  else (df, false).

End WithRuntime.
End Utils.
Export Utils.

(** ** utils.py on doubles

    The solver once more, on IEEE 754 binary64 numbers as Python has them:
    each operation is rounded to the nearest double, and can overflow. *)

Module Binary64.
Import PrimFloat.

(** The six results of the solver. *)
Record Solucion := {
  precio_publicacion : float;
  cargo_por_vender : float;
  costo_por_ofrecer_cuotas : float;
  retenciones : float;
  recibis : float;
  denominador_invalido : bool;
}.

(** [float(x or 0.0)]: a float is false when it is zero; NaN is not. *)
Definition or_zero (x : float) : float := if eqb x 0 then 0%float else x.

Definition calcular_precio_publicacion_ml
    (tarifa_neta porcentaje_comision porcentaje_financiacion
     porcentaje_retenciones costo_fijo : float) : Solucion :=
  let tarifa_neta := or_zero tarifa_neta in
  let porcentaje_comision := or_zero porcentaje_comision in
  let porcentaje_financiacion := or_zero porcentaje_financiacion in
  let porcentaje_retenciones := or_zero porcentaje_retenciones in
  let costo_fijo := or_zero costo_fijo in
  let total_porcentual :=
    add (add porcentaje_comision porcentaje_financiacion)
        porcentaje_retenciones in
  let denominador := sub 1%float total_porcentual in
  if leb denominador 0%float then
    {| precio_publicacion := 0%float; cargo_por_vender := 0%float;
       costo_por_ofrecer_cuotas := 0%float; retenciones := 0%float;
       recibis := 0%float; denominador_invalido := true |}
  else
    let precio_publicacion := div (add tarifa_neta costo_fijo) denominador in
    let cargo_por_vender :=
      add (mul precio_publicacion porcentaje_comision) costo_fijo in
    let costo_por_ofrecer_cuotas :=
      mul precio_publicacion porcentaje_financiacion in
    let retenciones := mul precio_publicacion porcentaje_retenciones in
    let recibis :=
      sub precio_publicacion
          (add (add cargo_por_vender costo_por_ofrecer_cuotas) retenciones) in
    {| precio_publicacion := precio_publicacion;
       cargo_por_vender := cargo_por_vender;
       costo_por_ofrecer_cuotas := costo_por_ofrecer_cuotas;
       retenciones := retenciones;
       recibis := recibis;
       denominador_invalido := false |}.

(** The rational that a finite double stands for. *)
Definition valor (x : float) : option Q :=
  match FloatOps.Prim2SF x with
  | SpecFloat.S754_zero _ => Some 0%Q
  | SpecFloat.S754_finite s m e =>
    let v :=
      if (0 <=? e)%Z then inject_Z (Z.pos m * 2 ^ e)
      else (Z.pos m # Z.to_pos (2 ^ (- e)))%Q in
    Some (if s then Qopp v else v)
  | _ => None
  end.

End Binary64.

(** ** data_processor.py *)

Module DataProcessor.

Section WithRuntime.
Context `{RT : Runtime}.

(** [_df_contains_formulas] *)
Definition df_contains_formulas (df : DataFrame) (cols : list string) : bool :=
  existsb
    (λ column,
       match columns df !! column with
       | None => false
       | Some serie =>
         existsb (λ x, startswith (ustr "=") (strip (py_str x)))
                 (filter (λ x, isna x = false) serie)
       end) cols.

Definition formula_columns : list string :=
  ["PRICE"; "QUANTITY"; "FEE_PER_SALE_MARKETPLACE_V2";
   "COST_OF_FINANCING_MARKETPLACE"]%string.

(** [leer_ml] after the workbook was read: [df] is the sheet as read at
    first, [df_valores] the sheet read again from the copy of the workbook
    whose formulas were replaced by their values. *)
Definition leer_ml (df df_valores : DataFrame) : option DataFrame :=
  let '(df, is_valid) := validate_excel_structure df "ml" in
  let needs_conversion :=
    if negb is_valid then true
    else df_contains_formulas df formula_columns in
  df ← (if needs_conversion then
          let '(df, is_valid) := validate_excel_structure df_valores "ml" in
          if is_valid then Some df else None
        else Some df);
  df_clean ← clean_ml_data df;
  fee ← columns df_clean !! "FEE_PER_SALE_MARKETPLACE_V2";
  (* the transposed pairs are two tuples to unpack, or none without rows *)
  match parse_fee_combo <$> fee with
  | [] => None
  | combos =>
    let df_clean := set_column "fee_pct" (Num ∘ fst <$> combos) df_clean in
    let df_clean := set_column "fee_fixed" (Num ∘ snd <$> combos) df_clean in
    financing ← columns df_clean !! "COST_OF_FINANCING_MARKETPLACE";
    let df_clean :=
      set_column "financing_pct" (Num ∘ parse_pct <$> financing) df_clean in
    price ← columns df_clean !! "PRICE";
    let df_clean := set_column "PRICE" (Num ∘ parse_money <$> price) df_clean in
    quantity ← columns df_clean !! "QUANTITY";
    let df_clean :=
      set_column "QUANTITY" (Num <$> fillna0 (to_numeric quantity)) df_clean in
    Some df_clean
  end.

(** [leer_odoo] after the workbook was read. *)
Definition leer_odoo (df : DataFrame) : option DataFrame :=
  let '(df, is_valid) := validate_excel_structure df "odoo" in
  if negb is_valid then None
  else
    codigo ← columns df !! "Código Neored";
    let df_clean := filter_rows (negb ∘ isna <$> codigo) df in
    precio ← columns df_clean !! "Precio Tarifa";
    let df_clean :=
      set_column "Precio Tarifa" (Num <$> fillna0 (to_numeric precio)) df_clean in
    cantidad ← columns df_clean !! "Cantidad a mano";
    let df_clean :=
      set_column "Cantidad a mano" (Num <$> fillna0 (to_numeric cantidad))
        df_clean in
    impuestos ← columns df_clean !! "Impuestos del cliente";
    tax_pct ← mapM extract_tax_percentage impuestos;
    Some (set_column "tax_pct" (Num <$> tax_pct) df_clean).

Definition flag_no_match : pystr := ustr "SKU no encontrado en Odoo".
Definition flag_precio : pystr := ustr "; Precio Tarifa faltante".
Definition flag_stock : pystr := ustr "; Stock faltante".

(** [s == 0], cell by cell *)
Definition cell_is_zero (c : cell) : bool :=
  match c with
  | Num x => feqb x f0
  | Str _ => false
  end.

(** [df.loc[mask, 'Notas/Flags'] += flag] *)
Definition append_flag (mask : list bool) (flag : pystr) (notas : list pystr)
    : list pystr :=
  zip_with (λ (m : bool) nota, if m then nota ++ flag else nota) mask notas.

Definition unir_y_validar (df_ml df_odoo : DataFrame) : option DataFrame :=
  df_merged ← merge_left df_ml df_odoo "SKU" "Código Neored" "_ml" "_odoo";
  let notas := replicate (nrows df_merged) [] in
  codigo ← columns df_merged !! "Código Neored";
  let no_match_mask := isna <$> codigo in
  let notas := loc_set no_match_mask flag_no_match notas in
  precio ← columns df_merged !! "Precio Tarifa";
  let missing_price_mask := (λ c, isna c || cell_is_zero c) <$> precio in
  let notas := append_flag missing_price_mask flag_precio notas in
  cantidad ← columns df_merged !! "Cantidad a mano";
  let missing_stock_mask := isna <$> cantidad in
  let notas := append_flag missing_stock_mask flag_stock notas in
  let notas := strip_chars (ustr "; ") <$> notas in
  Some (set_column "Notas/Flags" (Str <$> notas) df_merged).

(** [pd.to_numeric(df.get(c, 0.0), errors='coerce').fillna(0.0)]. Without
    the column, [to_numeric] returns the float it was given, which has no
    [fillna] ([AttributeError]); [df[c]] raises [KeyError]. *)
Definition columna_numerica (df : DataFrame) (c : string)
    : option (list pyfloat) :=
  s ← columns df !! c; Some (fillna0 (to_numeric s)).

Definition normalizar_estado_envio (valor : pystr) : pystr :=
  let valor_normalizado := normalize_NFKD valor in
  let valor_sin_tildes :=
    filter (λ caracter, combining caracter = 0%N) valor_normalizado in
  lower (strip valor_sin_tildes).

Definition estados_con_recargo : list pystr :=
  [ustr "mercado envios gratis"; ustr "mercado envios por mi cuenta"].

(** [s.isin(estados_con_recargo)], for one value *)
Definition isin_estados (v : pystr) : bool :=
  existsb (pystr_eqb v) estados_con_recargo.

(** The first of the two spellings of the shipping column that the frame
    has. *)
Definition shipping_column (df : DataFrame) : option string :=
  if has_column df "SHIPPING_METHOD " then Some "SHIPPING_METHOD "%string
  else if has_column df "SHIPPING_METHOD" then Some "SHIPPING_METHOD"%string
  else None.

(** The rows that get the shipping surcharge. *)
Definition aplica_envio (df : DataFrame) : list bool :=
  match shipping_column df with
  | Some c =>
    let shipping_values := py_str <$> fillna_empty (default [] (columns df !! c)) in
    let shipping_normalizado := normalizar_estado_envio <$> shipping_values in
    isin_estados <$> shipping_normalizado
  | None => replicate (nrows df) false
  end.

(** The column ['Recargo envío ($)']: zero, then the amount of the chosen
    kind on the rows of the mask. [tipo] is [None] when the argument is
    not a string. *)
Definition recargo_envio (n : nat) (aplica : list bool)
    (tarifa_neta_base : list pyfloat)
    (tipo_recargo_envio : option pystr) (valor_recargo_envio : pyfloat)
    : list pyfloat :=
  let columna := replicate n f0 in
  let tipo_envio :=
    match tipo_recargo_envio with
    | Some t => lower t
    | None => ustr "ninguno"
    end in
  if startswith (ustr "fijo") tipo_envio && truthy valor_recargo_envio then
    let monto_fijo := valor_recargo_envio in
    if negb (feqb monto_fijo f0) then loc_set aplica monto_fijo columna
    else loc_set aplica f0 columna
  else if startswith (ustr "porcentaje") tipo_envio
          && truthy valor_recargo_envio then
    let pct_envio := valor_recargo_envio in
    let pct_envio :=
      if fgtb pct_envio f1 then fdiv pct_envio f100 else pct_envio in
    loc_set_series aplica ((λ t, fmul t pct_envio) <$> tarifa_neta_base) columna
  else columna.

(** The withholding percentages: read from a column when there is one. *)
Definition retenciones_pct (df : DataFrame) : list pyfloat :=
  match columns df !! "retenciones_pct" with
  | Some s => fillna0 (to_numeric s)
  | None => replicate (nrows df) f0
  end.

Definition mensaje_denominador : pystr :=
  ustr "Porcentajes ML sin solución (denominador <= 0)".

(** [not x] for a cell of the notes *)
Definition cell_falsy (c : cell) : bool :=
  match c with
  | Str [] => true
  | Str _ => false
  | Num x => negb (truthy x)
  end.

(** [mensaje if not x else f"{x}; {mensaje}"] *)
Definition anotar (x : cell) : cell :=
  if cell_falsy x then Str mensaje_denominador
  else Str (py_str x ++ ustr "; " ++ mensaje_denominador).

(** The solver on every row: [.iat[idx]] for [idx] in [range(len(df))]. *)
Definition calculos (n : nat)
    (tarifa_objetivo fee_pct financing_pct retenciones_pct fee_fixed
     : list pyfloat) : list Solucion :=
  (λ idx, calcular_precio_publicacion_ml
            (tarifa_objetivo !!! idx) (fee_pct !!! idx) (financing_pct !!! idx)
            (retenciones_pct !!! idx) (fee_fixed !!! idx)) <$> seq 0 n.

(** The tax inside the price, on the rows with a positive tax. *)
Definition columna_iva (n : nat) (precio_final tax_pct : list pyfloat)
    : list pyfloat :=
  let iva := replicate n f0 in
  let positive_tax := (λ t, fgtb t f0) <$> tax_pct in
  if existsb id positive_tax then
    loc_set_series positive_tax
      (zip_with (λ p t, fdiv (fmul p t) (fadd f1 t)) precio_final tax_pct) iva
  else iva.

(** [calcular] up to the rounding: the frame, and the two series that the
    last lines still use. *)
Definition calcular_importes (df : DataFrame) (incluir_impuestos : bool)
    (tipo_recargo_envio : option pystr) (valor_recargo_envio : pyfloat)
    : option (DataFrame * list pyfloat * list pyfloat) :=
  let n := nrows df in
  let df_calc := df in
  let df_calc :=
    if has_column df_calc "Notas/Flags" then df_calc
    else set_column "Notas/Flags" (replicate n (Str [])) df_calc in
  notas ← columns df_calc !! "Notas/Flags";
  let notas := fillna_empty notas in
  let df_calc := set_column "Notas/Flags" notas df_calc in
  tarifa_base ← columna_numerica df_calc "Precio Tarifa";
  let df_calc := set_column "Precio de Tarifa" (Num <$> tarifa_base) df_calc in
  tax_pct ← columna_numerica df_calc "tax_pct";
  let tarifa_con_impuestos :=
    zip_with (λ b t, fmul b (fadd f1 t)) tarifa_base tax_pct in
  let tarifa_neta_base :=
    if incluir_impuestos then tarifa_con_impuestos else tarifa_base in
  let df_calc :=
    set_column "Tarifa + impuestos" (Num <$> tarifa_con_impuestos) df_calc in
  let ceros := replicate n (Num f0) in
  let df_calc := set_column "Recargo % ML (importe)" ceros df_calc in
  let df_calc := set_column "Recargo fijo ML ($)" ceros df_calc in
  let df_calc := set_column "Cargo por vender ($)" ceros df_calc in
  let df_calc := set_column "Recargo financiación (importe)" ceros df_calc in
  let df_calc := set_column "Recargo envío ($)" ceros df_calc in
  let df_calc := set_column "Retenciones ML ($)" ceros df_calc in
  let df_calc := set_column "Recibis ($)" ceros df_calc in
  let df_calc := set_column "IVA" ceros df_calc in
  let df_calc := set_column "Precio final" ceros df_calc in
  let aplica := aplica_envio df_calc in
  let envio :=
    recargo_envio n aplica tarifa_neta_base tipo_recargo_envio
      valor_recargo_envio in
  let df_calc := set_column "Recargo envío ($)" (Num <$> envio) df_calc in
  let tarifa_objetivo := zip_with fadd tarifa_neta_base envio in
  fee_pct ← columna_numerica df_calc "fee_pct";
  fee_fixed ← columna_numerica df_calc "fee_fixed";
  financing_pct ← columna_numerica df_calc "financing_pct";
  let ret_pct := retenciones_pct df_calc in
  let calculos_df :=
    calculos n tarifa_objetivo fee_pct financing_pct ret_pct fee_fixed in
  let precio_final := precio_publicacion <$> calculos_df in
  let df_calc := set_column "Precio final" (Num <$> precio_final) df_calc in
  let df_calc :=
    set_column "Cargo por vender ($)"
      (Num ∘ cargo_por_vender <$> calculos_df) df_calc in
  let df_calc :=
    set_column "Recargo financiación (importe)"
      (Num ∘ costo_por_ofrecer_cuotas <$> calculos_df) df_calc in
  let df_calc :=
    set_column "Retenciones ML ($)" (Num ∘ retenciones <$> calculos_df) df_calc in
  let df_calc :=
    set_column "Recibis ($)" (Num ∘ recibis <$> calculos_df) df_calc in
  let df_calc := set_column "Recargo fijo ML ($)" (Num <$> fee_fixed) df_calc in
  let df_calc :=
    set_column "Recargo % ML (importe)"
      (Num <$> zip_with fmul precio_final fee_pct) df_calc in
  let invalid_mask := denominador_invalido <$> calculos_df in
  let df_calc :=
    if existsb id invalid_mask then
      let df_calc :=
        set_column "Notas/Flags"
          (loc_set_series invalid_mask (anotar <$> notas) notas) df_calc in
      set_column "Recargo fijo ML ($)"
        (Num <$> loc_set invalid_mask f0 fee_fixed) df_calc
    else df_calc in
  let df_calc :=
    set_column "IVA" (Num <$> columna_iva n precio_final tax_pct) df_calc in
  Some (df_calc, fee_pct, financing_pct).

Definition numeric_cols : list string :=
  ["Precio de Tarifa"; "Tarifa + impuestos"; "Recargo % ML (importe)";
   "Recargo fijo ML ($)"; "Cargo por vender ($)";
   "Recargo financiación (importe)"; "Recargo envío ($)";
   "Retenciones ML ($)"; "Recibis ($)"; "IVA"; "Precio final"]%string.

(** [s.round(2)], cell by cell *)
Definition round_cell (c : cell) : cell :=
  match c with
  | Num x => Num (round2 x)
  | Str _ => c
  end.

(** [for col in numeric_cols: df[col] = df[col].round(2)] *)
Definition redondear (df : DataFrame) : DataFrame :=
  foldl (λ d col, {| nrows := nrows d;
                     columns := alter (fmap round_cell) col (columns d) |})
        df numeric_cols.

Definition por_cien (xs : list pyfloat) : Series :=
  (λ x, Num (round2 (fmul x f100))) <$> xs.

(** [base_financiacion] is received and never read. *)
Definition calcular (df : DataFrame) (base_financiacion : pystr)
    (incluir_impuestos : bool) (tipo_recargo_envio : option pystr)
    (valor_recargo_envio : pyfloat) : option DataFrame :=
  '(df_calc, fee_pct, financing_pct) ←
    calcular_importes df incluir_impuestos tipo_recargo_envio
      valor_recargo_envio;
  let df_calc := redondear df_calc in
  let df_calc := set_column "% ML aplicado" (por_cien fee_pct) df_calc in
  let df_calc :=
    set_column "% financiación aplicado" (por_cien financing_pct) df_calc in
  Some df_calc.

(** The run of the application: both sheets are read, joined and priced. *)
Definition procesar (ml ml_valores odoo : DataFrame) (base_financiacion : pystr)
    (incluir_impuestos : bool) (tipo_recargo_envio : option pystr)
    (valor_recargo_envio : pyfloat) : option DataFrame :=
  df_ml ← leer_ml ml ml_valores;
  df_odoo ← leer_odoo odoo;
  df_merged ← unir_y_validar df_ml df_odoo;
  calcular df_merged base_financiacion incluir_impuestos tipo_recargo_envio
    valor_recargo_envio.

End WithRuntime.
End DataProcessor.
Export DataProcessor.


(** ** data_processor.py: the frame that is exported *)

Module Resultado.

(** A frame whose columns are in an order: the result that is shown and
    exported. *)
Abbreviation Tabla := (list (string * Series)).

(** [t[c]] *)
Fixpoint buscar (c : string) (t : Tabla) : option Series :=
  match t with
  | [] => None
  | (c', s) :: r => if String.eqb c' c then Some s else buscar c r
  end.

(** [t[c] = s]: the column is replaced where it is, or added at the
    end. *)
Fixpoint asignar (c : string) (s : Series) (t : Tabla) : Tabla :=
  match t with
  | [] => [(c, s)]
  | (c', s') :: r =>
    if String.eqb c' c then (c, s) :: r else (c', s') :: asignar c s r
  end.

(** [t[cols]]: the columns of the list, in its order; a missing label is
    an error ([KeyError]). *)
Definition reordenar (cols : list string) (t : Tabla) : option Tabla :=
  mapM (λ c, s ← buscar c t; Some (c, s)) cols.

(** [s.fillna(other)], for a series [other] on the same index *)
Definition fillna_serie (s other : Series) : Series :=
  zip_with (λ x y, if isna x then y else x) s other.

(** [s.fillna(0)] *)
Definition fillna_cero (s : Series) : Series :=
  (λ c, if isna c then Num f0 else c) <$> s.

(** The number in a cell; a text where a number is computed with is an
    error. *)
Definition numero (c : cell) : option pyfloat :=
  match c with
  | Num x => Some x
  | Str _ => None
  end.

(** The conversion of [astype(int)]: towards zero; a value that is not
    finite is an error. The integers of pandas have 64 bits: the model is
    that of values within their range. *)
Definition astype_int (x : pyfloat) : option Z :=
  match x with
  | Finite q => Some (Z.quot (Qnum q) (Z.pos (Qden q)))
  | _ => None
  end.

(** [s.round()], for one value *)
Definition round0 (x : pyfloat) : pyfloat :=
  match x with
  | Finite q => Finite (inject_Z (rint q))
  | _ => x
  end.

Definition entero (z : Z) : cell := Num (Finite (inject_Z z)).

Definition columnas_finales (incluir_impuestos incluir_envio : bool)
    : list string :=
  ["Numero de publicación"; "SKU"; "Descripción del producto"; "Stock";
   "% Stock"; "Precio de Tarifa"]%string
  ++ (if incluir_impuestos then ["Tarifa + impuestos"%string] else [])
  ++ ["Precio final"; "IVA"; "Recargo % ML (importe)"; "Recargo fijo ML ($)";
      "Cargo por vender ($)"; "Recargo financiación (importe)";
      "Retenciones ML ($)"; "Recibis ($)"]%string
  ++ (if incluir_envio then ["Recargo envío ($)"%string] else [])
  ++ ["% ML aplicado"; "% financiación aplicado"; "Tipo de publicación";
      "Precio actual en ML"; "Moneda"]%string
  ++ ["Notas/Flags"%string].

(** [t[dst] = df[src]] *)
Definition copiar (df : DataFrame) (dst src : string) (t : Tabla)
    : option Tabla :=
  s ← columns df !! src; Some (asignar dst s t).

Definition preparar_resultado_final (df_calc : DataFrame)
    (incluir_impuestos incluir_envio : bool) (porcentaje_stock : pyfloat)
    : option Tabla :=
  let columnas_finales := columnas_finales incluir_impuestos incluir_envio in
  let df_resultado : Tabla := [] in
  df_resultado ← copiar df_calc "Numero de publicación" "ITEM_ID" df_resultado;
  df_resultado ← copiar df_calc "SKU" "SKU" df_resultado;
  nombre ← columns df_calc !! "Nombre";
  title ← columns df_calc !! "TITLE";
  let df_resultado :=
    asignar "Descripción del producto" (fillna_serie nombre title)
      df_resultado in
  cantidad ← columns df_calc !! "Cantidad a mano";
  stock_disponible ← mapM numero (fillna_cero cantidad);
  stock ← mapM astype_int stock_disponible;
  let df_resultado := asignar "Stock" (entero <$> stock) df_resultado in
  pct_stock ←
    mapM (λ x, astype_int
                 (round0 (fdiv (fmul x porcentaje_stock) f100)))
      stock_disponible;
  let df_resultado := asignar "% Stock" (entero <$> pct_stock) df_resultado in
  df_resultado ←
    copiar df_calc "Precio de Tarifa" "Precio de Tarifa" df_resultado;
  df_resultado ←
    (if incluir_impuestos
     then copiar df_calc "Tarifa + impuestos" "Tarifa + impuestos" df_resultado
     else Some df_resultado);
  df_resultado ← copiar df_calc "Precio final" "Precio final" df_resultado;
  df_resultado ← copiar df_calc "IVA" "IVA" df_resultado;
  df_resultado ←
    copiar df_calc "Recargo % ML (importe)" "Recargo % ML (importe)"
      df_resultado;
  df_resultado ←
    copiar df_calc "Recargo fijo ML ($)" "Recargo fijo ML ($)" df_resultado;
  df_resultado ←
    copiar df_calc "Cargo por vender ($)" "Cargo por vender ($)" df_resultado;
  df_resultado ←
    copiar df_calc "Recargo financiación (importe)"
      "Recargo financiación (importe)" df_resultado;
  df_resultado ←
    copiar df_calc "Retenciones ML ($)" "Retenciones ML ($)" df_resultado;
  df_resultado ← copiar df_calc "Recibis ($)" "Recibis ($)" df_resultado;
  df_resultado ←
    (if incluir_envio
     then copiar df_calc "Recargo envío ($)" "Recargo envío ($)" df_resultado
     else Some df_resultado);
  df_resultado ← copiar df_calc "% ML aplicado" "% ML aplicado" df_resultado;
  df_resultado ←
    copiar df_calc "% financiación aplicado" "% financiación aplicado"
      df_resultado;
  df_resultado ←
    copiar df_calc "Tipo de publicación" "LISTING_TYPE_V3" df_resultado;
  df_resultado ← copiar df_calc "Precio actual en ML" "PRICE" df_resultado;
  df_resultado ← copiar df_calc "Moneda" "CURRENCY_ID" df_resultado;
  notas ← columns df_calc !! "Notas/Flags";
  let df_resultado :=
    asignar "Notas/Flags" (fillna_empty notas) df_resultado in
  reordenar columnas_finales df_resultado.

End Resultado.
Export Resultado.


(** * Properties *)

(** ** Float arithmetic *)

Module FloatFacts.

Lemma Qzero_iff q : Qzero q = true ↔ (q == 0)%Q.
Proof.
  unfold Qzero, Qeq. destruct q as [n d]; simpl.
  rewrite Z.eqb_eq. lia.
Qed.

Lemma Qzero_false q : ¬ (q == 0)%Q → Qzero q = false.
Proof.
  intros H. destruct (Qzero q) eqn:E; [|done].
  by apply Qzero_iff in E.
Qed.

Lemma Qneg_iff q : Qneg q = true ↔ (q < 0)%Q.
Proof.
  unfold Qneg, Qlt. destruct q as [n d]; simpl.
  rewrite Z.ltb_lt. lia.
Qed.

Lemma Qltb_iff x y : Qltb x y = true ↔ (x < y)%Q.
Proof.
  unfold Qltb. rewrite Qlt_alt. destruct (x ?= y)%Q; split; congruence.
Qed.

Lemma Qleb_iff x y : Qleb x y = true ↔ (x <= y)%Q.
Proof.
  unfold Qleb. rewrite Qle_alt. destruct (x ?= y)%Q; split; congruence.
Qed.

Lemma Qleb_false x y : Qleb x y = false ↔ (y < x)%Q.
Proof.
  rewrite <- Bool.not_true_iff_false, Qleb_iff. split.
  - apply Qnot_le_lt.
  - apply Qlt_not_le.
Qed.

Lemma Qltb_false x y : Qltb x y = false ↔ (y <= x)%Q.
Proof.
  rewrite <- Bool.not_true_iff_false, Qltb_iff. split.
  - apply Qnot_lt_le.
  - apply Qle_not_lt.
Qed.

#[export] Instance feq_equivalence : Equivalence feq.
Proof.
  split.
  - intros [q|s|]; simpl; done.
  - intros [q|s|] [r|t|]; simpl; try done; intros H; by symmetry.
  - intros [q|s|] [r|t|] [u|v|]; simpl; try done; intros H1 H2;
      [by rewrite H1 | congruence].
Qed.

#[export] Instance fneg_proper : Proper (feq ==> feq) fneg.
Proof.
  intros [q|s|] [r|t|]; simpl; try done; intros H;
    [by rewrite H | congruence].
Qed.

#[export] Instance fadd_proper : Proper (feq ==> feq ==> feq) fadd.
Proof.
  intros [q|s|] [r|t|] H1 [q'|s'|] [r'|t'|] H2; simpl in *; try done.
  - by rewrite H1, H2.
  - subst. by destruct (Bool.eqb _ _).
Qed.

#[export] Instance fsub_proper : Proper (feq ==> feq ==> feq) fsub.
Proof. intros a b H1 c d H2. unfold fsub. by rewrite H1, H2. Qed.

Lemma Qleb_proper x x' y y' :
  (x == x')%Q → (y == y')%Q → Qleb x y = Qleb x' y'.
Proof.
  intros H1 H2. apply Bool.eq_true_iff_eq.
  rewrite !Qleb_iff. by rewrite H1, H2.
Qed.

Lemma Qltb_proper x x' y y' :
  (x == x')%Q → (y == y')%Q → Qltb x y = Qltb x' y'.
Proof.
  intros H1 H2. apply Bool.eq_true_iff_eq.
  rewrite !Qltb_iff. by rewrite H1, H2.
Qed.

#[export] Instance fleb_proper : Proper (feq ==> feq ==> eq) fleb.
Proof.
  intros [q|s|] [r|t|] H1 [q'|s'|] [r'|t'|] H2; simpl in *; subst; try done.
  by apply Qleb_proper.
Qed.

#[export] Instance fltb_proper : Proper (feq ==> feq ==> eq) fltb.
Proof.
  intros [q|s|] [r|t|] H1 [q'|s'|] [r'|t'|] H2; simpl in *; subst; try done.
  by apply Qltb_proper.
Qed.

Lemma or_zero_feq a : feq (or_zero a) a.
Proof.
  unfold or_zero, truthy. destruct a as [q|s|]; simpl; try done.
  destruct (Qeq_bool q 0) eqn:E; simpl; [|done].
  apply Qeq_bool_iff in E. by symmetry.
Qed.

Lemma or_zero_finite q : ∃ q', or_zero (Finite q) = Finite q' ∧ (q' == q)%Q.
Proof.
  pose proof (or_zero_feq (Finite q)) as H.
  unfold or_zero in *. destruct (truthy (Finite q)); eauto.
Qed.

(** When the percentages add up to one or more, the denominator is not
    positive. *)
Lemma denominador_no_positivo x :
  fleb f1 x = true → fleb (fsub f1 x) f0 = true.
Proof.
  destruct x as [q|[]|]; simpl; try done.
  rewrite !Qleb_iff. intros H. lra.
Qed.

Lemma rint_proper q q' : (q == q')%Q → rint q = rint q'.
Proof.
  intros H. unfold rint.
  rewrite (Qfloor_comp _ _ H).
  assert (q - inject_Z (Qfloor q') == q' - inject_Z (Qfloor q'))%Q as H'
    by (by rewrite H).
  by rewrite (Qcompare_comp _ _ H' _ _ (Qeq_refl (1 # 2))).
Qed.

#[export] Instance round2_proper : Proper (feq ==> feq) round2.
Proof.
  intros [q|s|] [r|t|]; simpl; try done. intros H.
  assert (q * 100 == r * 100)%Q as H' by (by rewrite H).
  by rewrite (rint_proper _ _ H').
Qed.

Lemma feq_zero_round2 x : feq x f0 → feq (round2 x) f0.
Proof. intros H. by rewrite H. Qed.

End FloatFacts.
Import FloatFacts.

(** ** The solver *)

Section Solver.
Local Open Scope Q_scope.

Lemma solver_feasible (t pc pf pr cf : Q) :
  pc + pf + pr < 1 →
  ∃ p, precio_publicacion
         (calcular_precio_publicacion_ml (Finite t) (Finite pc) (Finite pf)
            (Finite pr) (Finite cf)) = Finite p
       ∧ p == (t + cf) / (1 - (pc + pf + pr))
       ∧ calcular_precio_publicacion_ml (Finite t) (Finite pc) (Finite pf)
           (Finite pr) (Finite cf)
         = {| precio_publicacion := Finite p;
              cargo_por_vender := cargo_por_vender
                (calcular_precio_publicacion_ml (Finite t) (Finite pc)
                   (Finite pf) (Finite pr) (Finite cf));
              costo_por_ofrecer_cuotas := costo_por_ofrecer_cuotas
                (calcular_precio_publicacion_ml (Finite t) (Finite pc)
                   (Finite pf) (Finite pr) (Finite cf));
              retenciones := retenciones
                (calcular_precio_publicacion_ml (Finite t) (Finite pc)
                   (Finite pf) (Finite pr) (Finite cf));
              recibis := recibis
                (calcular_precio_publicacion_ml (Finite t) (Finite pc)
                   (Finite pf) (Finite pr) (Finite cf));
              denominador_invalido := false |}.
Proof.
  intros Hlt. unfold calcular_precio_publicacion_ml.
  destruct (or_zero_finite t) as (t' & -> & Ht).
  destruct (or_zero_finite pc) as (pc' & -> & Hpc).
  destruct (or_zero_finite pf) as (pf' & -> & Hpf).
  destruct (or_zero_finite pr) as (pr' & -> & Hpr).
  destruct (or_zero_finite cf) as (cf' & -> & Hcf).
  cbn [fadd fsub fneg fleb f0 f1].
  rewrite (proj2 (Qleb_false _ _)) by lra.
  cbn [fdiv]. rewrite Qzero_false by lra.
  eexists. split; [reflexivity|]. split; [|reflexivity].
  rewrite Ht, Hcf, Hpc, Hpf, Hpr. unfold Qminus. reflexivity.
Qed.



Section Dobles.
Import PrimFloat.
Local Set Warnings "-inexact-float".


End Dobles.

(** C2, the solver. *)
Lemma solver_infeasible (t pc pf pr cf : pyfloat) :
  fleb f1 (fadd (fadd pc pf) pr) = true →
  calcular_precio_publicacion_ml t pc pf pr cf
  = {| precio_publicacion := f0; cargo_por_vender := f0;
       costo_por_ofrecer_cuotas := f0; retenciones := f0; recibis := f0;
       denominador_invalido := true |}.
Proof.
  intros H. unfold calcular_precio_publicacion_ml.
  assert (fleb f1 (fadd (fadd (or_zero pc) (or_zero pf)) (or_zero pr)) = true)
    as H' by (by rewrite !or_zero_feq).
  by rewrite (denominador_no_positivo _ H').
Qed.

End Solver.

(** ** Strings *)

Section StrFacts.
Implicit Types (s : pystr) (p : N → bool).

Lemma elem_of_lstrip_by p s x : x ∈ lstrip_by p s → x ∈ s.
Proof.
  induction s as [|c r IH]; simpl; [done|].
  destruct (p c); [|done]. intros Hx. right. by apply IH.
Qed.

Lemma elem_of_strip_by p s x : x ∈ strip_by p s → x ∈ s.
Proof.
  unfold strip_by, rstrip_by. rewrite elem_of_reverse.
  intros Hx%elem_of_lstrip_by. rewrite elem_of_reverse in Hx.
  by apply elem_of_lstrip_by in Hx.
Qed.

Lemma filter_lstrip_by (P : N → Prop) `{!∀ c, Decision (P c)} p s :
  (∀ c, p c = true → ¬ P c) → filter P (lstrip_by p s) = filter P s.
Proof.
  intros Hp. induction s as [|c r IH]; simpl; [done|].
  destruct (p c) eqn:E; [|done].
  rewrite IH. rewrite filter_cons_False; [done|]. by apply Hp.
Qed.

Lemma filter_strip_by (P : N → Prop) `{!∀ c, Decision (P c)} p s :
  (∀ c, p c = true → ¬ P c) → filter P (strip_by p s) = filter P s.
Proof.
  intros Hp. unfold strip_by, rstrip_by.
  rewrite filter_reverse, (filter_lstrip_by P p _ Hp), filter_reverse.
  rewrite reverse_involutive. by apply filter_lstrip_by.
Qed.

Lemma elem_of_replace c by_ s x : x ∈ replace c by_ s → x ∈ by_ ∨ x ∈ s.
Proof.
  unfold replace. rewrite list_elem_of_In, in_flat_map.
  intros (y & Hy & Hx). destruct (y =? c)%N.
  - left. by apply list_elem_of_In.
  - right. apply list_elem_of_In. simpl in Hx. by destruct Hx as [->|[]].
Qed.

End StrFacts.

(** ** The normalizers *)

Section Normalizers.
Context `{RT : Runtime}.

Lemma py_float_empty : py_float [] = None.
Proof. reflexivity. Qed.

(** Stripping first and answering zero on an empty text change nothing:
    [parse_money] is [float], or zero, of the text without currency signs
    and white space and with its separators normalized. *)
Lemma parse_money_unfold (text : pystr) :
  parse_money (Str text)
  = float_or_zero (normalize_separators (remove_currency_and_space text)).
Proof.
  unfold parse_money. cbn [isna py_str].
  assert (remove_currency_and_space (strip text)
          = remove_currency_and_space text) as Hf.
  { apply filter_strip_by. intros c Hc HP. apply HP. by right. }
  destruct (strip text) eqn:E.
  - rewrite <- Hf. reflexivity.
  - by rewrite Hf.
Qed.

Lemma parse_pct_unfold (text : pystr) :
  parse_pct (Str text)
  = match py_float (replace chr_comma [chr_dot]
                      (remove_percent_and_space text)) with
    | Some value => if fgtb value f1 then fdiv value f100 else value
    | None => f0
    end.
Proof.
  unfold parse_pct. cbn [isna py_str].
  assert (remove_percent_and_space (strip text)
          = remove_percent_and_space text) as Hf.
  { apply filter_strip_by. intros c Hc HP. apply HP. by right. }
  destruct (strip text) eqn:E.
  - rewrite <- Hf. reflexivity.
  - by rewrite Hf.
Qed.

End Normalizers.


(** ** The separator rule of [parse_money] *)

Module SeparatorRule.

(** The number of occurrences of a character, and the text after its
    first occurrence. *)
Definition count_char (c : N) (s : pystr) : nat :=
  length (filter (λ x, x = c) s).

Fixpoint after_first (c : N) (s : pystr) : pystr :=
  match s with
  | [] => []
  | x :: r => if (x =? c)%N then r else after_first c r
  end.

Section Rules.
Context `{RT : Runtime}.

(** The rule as the specification words it: a comma, when the text has no
    point, is the decimal separator exactly when one or two digits, and
    nothing else, follow it. *)
Definition comma_is_decimal_as_worded (text : pystr) : bool :=
  let frac := after_first chr_comma text in
  (count_char chr_comma text =? 1)%nat
  && (1 <=? length frac)%nat && (length frac <=? 2)%nat
  && forallb is_decimal frac.

(** The rule of the code, said without [split]: the text has one comma
    and at most two characters after it. *)
Definition comma_is_decimal (text : pystr) : bool :=
  (count_char chr_comma text =? 1)%nat
  && (length (after_first chr_comma text) <=? 2)%nat.

Definition separators (decimal_comma : pystr → bool) (text : pystr) : pystr :=
  if contains chr_comma text && contains chr_dot text then
    if rfind chr_comma text <? rfind chr_dot text
    then replace chr_comma [] text
    else replace chr_comma [chr_dot] (replace chr_dot [] text)
  else if contains chr_comma text then
    if decimal_comma text then replace chr_comma [chr_dot] text
    else replace chr_comma [] text
  else text.

(** [parse_money] of a text, by a rule for the lone comma: currency signs
    and white space go, the separators are settled, and the result is the
    number that is left, or zero. *)
Definition parse_money_by (decimal_comma : pystr → bool) (text : pystr)
    : pyfloat :=
  float_or_zero
    (separators decimal_comma
       (filter (λ c, c ≠ chr_dollar ∧ isspace c = false) text)).

End Rules.

Lemma split_nonempty c s : split c s ≠ [].
Proof.
  destruct s as [|x r]; simpl; [done|].
  destruct (x =? c)%N; [done|]. by destruct (split c r).
Qed.

Lemma split_length c s : length (split c s) = S (count_char c s).
Proof.
  unfold count_char. induction s as [|x r IH]; simpl; [done|].
  destruct (N.eqb_spec x c) as [->|Hne].
  - rewrite filter_cons_True by done. simpl. by rewrite IH.
  - rewrite filter_cons_False by done.
    destruct (split c r) eqn:E; [by apply split_nonempty in E|].
    simpl in *. done.
Qed.

Lemma split_no_sep c s : count_char c s = 0%nat → split c s = [s].
Proof.
  unfold count_char. induction s as [|x r IH]; simpl; [done|].
  destruct (N.eqb_spec x c) as [->|Hne].
  - by rewrite filter_cons_True.
  - rewrite filter_cons_False by done. intros H. by rewrite (IH H).
Qed.

Lemma split_second c s :
  count_char c s = 1%nat → nth 1 (split c s) [] = after_first c s.
Proof.
  unfold count_char. induction s as [|x r IH]; simpl; [done|].
  destruct (N.eqb_spec x c) as [->|Hne].
  - rewrite filter_cons_True by done. simpl. intros [= H].
    by rewrite (split_no_sep _ _ H).
  - rewrite filter_cons_False by done. intros H.
    destruct (split c r) eqn:E; [by apply split_nonempty in E|].
    simpl. rewrite <- (IH H). done.
Qed.

Lemma split_rule text :
  (length (split chr_comma text) =? 2)%nat
  && (length (nth 1 (split chr_comma text) []) <=? 2)%nat
  = comma_is_decimal text.
Proof.
  unfold comma_is_decimal. rewrite split_length.
  destruct (Nat.eqb_spec (count_char chr_comma text) 1) as [H|H].
  - rewrite H, (split_second _ _ H). done.
  - destruct (Nat.eqb_spec (S (count_char chr_comma text)) 2); [lia|done].
Qed.

Lemma normalize_separators_rule text :
  normalize_separators text = separators comma_is_decimal text.
Proof.
  unfold normalize_separators, separators.
  by rewrite split_rule.
Qed.

End SeparatorRule.
Import SeparatorRule.

(** The wording of C5 fails on a text with a comma at its end: the code
    turns the comma of "1e5," into a point, and what is left is not a
    number; by the wording the comma goes and 100000 is left. *)
Lemma parse_money_rule_as_worded_fails :
  ¬ (∀ text : pystr,
       feq (parse_money (RT := Latin1.runtime) (Str text))
           (parse_money_by (RT := Latin1.runtime)
              (comma_is_decimal_as_worded (RT := Latin1.runtime)) text)).
Proof.
  intros H. specialize (H (ustr "1e5,")). vm_compute in H. done.
Qed.

(** C5, amended. [parse_money] removes currency signs and white space;
    when the text has a comma and a point, the kind that comes last is the
    decimal separator and the other kind is removed; when it has commas
    only, the comma is the decimal separator exactly when it is the only
    one and at most two characters follow it, and commas are removed
    otherwise; what does not read as a number then, an empty text and a
    missing value give zero. "$1,095.00" gives 1095 and "1.095,50" gives
    1095.5. *)
Theorem parse_money_separators `{RT : Runtime} :
  (∀ text : pystr,
     parse_money (Str text) = parse_money_by comma_is_decimal text)
  ∧ (∀ text : pystr,
       match py_float (separators comma_is_decimal
                         (filter (λ c, c ≠ chr_dollar ∧ isspace c = false)
                                 text)) with
       | Some value => parse_money (Str text) = value
       | None => parse_money (Str text) = f0
       end)
  ∧ parse_money (Str []) = f0
  ∧ parse_money (Num NaN) = f0
  ∧ feq (parse_money (Str (ustr "$1,095.00"))) (Finite 1095)
  ∧ feq (parse_money (Str (ustr "1.095,50"))) (Finite 1095.5).
Proof.
  assert (∀ text : pystr,
    parse_money (Str text) = parse_money_by comma_is_decimal text) as Hall.
  { intros text. rewrite parse_money_unfold, normalize_separators_rule.
    unfold parse_money_by. f_equal. f_equal.
    unfold remove_currency_and_space. apply list_filter_iff. intros c.
    destruct (isspace c); intuition congruence. }
  split; [done|]. split; [|by vm_compute].
  intros text. rewrite Hall. unfold parse_money_by, float_or_zero.
  by destruct (py_float _).
Qed.

(** ** Signs of the parsed numbers *)

Section Signs.
Context `{RT : Runtime}.

Definition chr_minus : N := 45.

(** A non-negative number, or NaN. *)
Definition nonneg_or_nan (v : pyfloat) : Prop := nonneg v ∨ v = NaN.

Lemma span_spec p s a b :
  span p s = (a, b) → s = a ++ b ∧ Forall (λ c, p c = true) a.
Proof.
  revert a b. induction s as [|c r IH]; simpl; intros a b.
  - intros [= <- <-]. done.
  - destruct (p c) eqn:E.
    + destruct (span p r) as [a' b'] eqn:E'. intros [= <- <-].
      destruct (IH _ _ eq_refl) as [-> Hall]. split; [done|].
      by constructor.
    + intros [= <- <-]. done.
Qed.

Lemma digits_val_nonneg_from ds acc :
  Forall (λ c, is_digit c = true) ds → 0 <= acc →
  0 <= fold_left (λ acc d, 10 * acc + (Z.of_N d - 48)) ds acc.
Proof.
  intros Hds. revert acc. induction Hds as [|d ds Hd _ IH]; simpl; [done|].
  intros acc Hacc. apply IH. unfold is_digit in Hd.
  apply andb_true_iff in Hd as [Hd _]. apply N.leb_le in Hd. lia.
Qed.

Lemma digits_val_nonneg ds :
  Forall (λ c, is_digit c = true) ds → 0 <= digits_val ds.
Proof. intros H. by apply digits_val_nonneg_from. Qed.

Lemma parse_decimal_nonneg body q :
  parse_decimal body = Some q → (0 <= q)%Q.
Proof.
  unfold parse_decimal.
  destruct (span is_digit body) as [ip r1] eqn:E1.
  apply span_spec in E1 as [_ Hip].
  assert (∃ fp r2, (match r1 with
                    | 46%N :: r => span is_digit r
                    | _ => ([], r1)
                    end) = (fp, r2)
                   ∧ Forall (λ c, is_digit c = true) fp) as (fp & r2 & -> & Hfp).
  { destruct r1 as [|c r]; [by eexists _, _|].
    destruct (N.eq_dec c 46%N) as [->|Hne].
    - destruct (span is_digit r) as [fp r2] eqn:E2.
      apply span_spec in E2 as [_ ?]. by eexists _, _.
    - exists [], (c :: r). split; [|done].
      destruct c as [|c]; [done|]. do 6 (destruct c as [c|c|]; try done). }
  assert (Forall (λ c, is_digit c = true) (ip ++ fp)) as Hds
    by (by apply Forall_app).
  destruct (ip ++ fp) as [|d ds] eqn:E; [done|].
  destruct (parse_exponent r2) as [e|]; [|done].
  intros [= <-].
  apply Qmult_le_0_compat.
  - pose proof (digits_val_nonneg _ Hds) as H.
    unfold Qle. simpl. lia.
  - by apply Qpower_0_le.
Qed.

Lemma parse_special_cases body v :
  parse_special body = Some v →
  v = Infinity false
  ∨ (v = NaN ∧ ∃ c, c ∈ body ∧ ascii_lower c = 110%N).
Proof.
  unfold parse_special.
  destruct (_ || _); [intros [= <-]; by left|].
  unfold pystr_eqb. case_bool_decide as E; [|done].
  intros [= <-]. right. split; [done|].
  destruct body as [|c r]; [done|].
  exists c. split; [left|]. simpl in E. by injection E.
Qed.

Lemma to_ascii_inv c k :
  to_ascii c = k → k = 45%N ∨ k = 110%N ∨ k = 78%N → c = k.
Proof.
  unfold to_ascii. destruct (c <? 127)%N eqn:E; [done|].
  destruct (isspace c).
  { intros <-. intros [?|[?|?]]; done. }
  destruct (todecimal c) as [d|] eqn:Ed.
  - apply todecimal_digit in Ed. intros <-. lia.
  - intros <-. intros [?|[?|?]]; done.
Qed.

Lemma ascii_lower_n c : ascii_lower c = 110%N → c = 110%N ∨ c = 78%N.
Proof.
  unfold ascii_lower.
  destruct ((65 <=? c) && (c <=? 90))%N; [|by left].
  intros H. right. lia.
Qed.

Lemma take_sign_spec s neg body :
  take_sign s = (neg, body) →
  (neg = true → chr_minus ∈ s) ∧ (∀ c, c ∈ body → c ∈ s).
Proof.
  unfold take_sign. destruct s as [|c r].
  { intros [= <- <-]. done. }
  destruct (N.eq_dec c 45%N) as [->|H45].
  { intros [= <- <-]. split; [by left|]. intros c Hc. by right. }
  destruct (N.eq_dec c 43%N) as [->|H43].
  { intros [= <- <-]. split; [done|]. intros c Hc. by right. }
  assert (take_sign (c :: r) = (false, c :: r)) as Heq.
  { unfold take_sign. destruct c as [|c]; [done|].
    do 6 (destruct c as [c|c|]; try done). }
  unfold take_sign in Heq. rewrite Heq. intros [= <- <-]. done.
Qed.

(** The characters that [float] reads come from the text. *)
Lemma py_float_body_elem (s : pystr) c :
  c ∈ filter (λ c, c ≠ 95%N) (strip_by ascii_isspace (to_ascii <$> s)) →
  ∃ x, x ∈ s ∧ to_ascii x = c.
Proof.
  rewrite list_elem_of_filter. intros [_ Hc%elem_of_strip_by].
  apply list_elem_of_fmap in Hc as (x & -> & Hx). eauto.
Qed.

Lemma py_float_sign (s : pystr) v :
  py_float s = Some v → chr_minus ∉ s → nonneg_or_nan v.
Proof.
  unfold py_float. intros Hf Hminus.
  destruct (underscores_ok _ _); [|done].
  destruct (take_sign _) as [neg body] eqn:Ets.
  apply take_sign_spec in Ets as [Hneg Hbody].
  assert (neg = false) as ->.
  { destruct neg; [|done]. exfalso. apply Hminus.
    destruct (py_float_body_elem _ _ (Hneg eq_refl)) as (x & Hx & Hxc).
    apply to_ascii_inv in Hxc; [by subst|by left]. }
  destruct (parse_special body) as [w|] eqn:Esp.
  - injection Hf as <-.
    apply parse_special_cases in Esp as [->|[-> _]]; [by left|by right].
  - destruct (parse_decimal body) as [q|] eqn:Edec; [|done].
    injection Hf as <-. left. unfold nonneg. simpl.
    apply Qleb_iff. by apply parse_decimal_nonneg in Edec.
Qed.

Lemma py_float_nan (s : pystr) :
  py_float s = Some NaN → (110%N ∈ s ∨ 78%N ∈ s).
Proof.
  unfold py_float. intros Hf.
  destruct (underscores_ok _ _); [|done].
  destruct (take_sign _) as [neg body] eqn:Ets.
  apply take_sign_spec in Ets as [_ Hbody].
  destruct (parse_special body) as [w|] eqn:Esp.
  - apply parse_special_cases in Esp as [->|[-> [c [Hc Hl]]]].
    { by destruct neg. }
    apply Hbody, py_float_body_elem in Hc as (x & Hx & Hxc).
    apply ascii_lower_n in Hl as [-> | ->];
      (apply to_ascii_inv in Hxc; [subst; eauto|tauto]).
  - destruct (parse_decimal body); [|done]. by destruct neg.
Qed.

(** The separator rules only remove characters or write points. *)
Lemma elem_of_normalize_separators (text : pystr) c :
  c ∈ normalize_separators text → c = chr_dot ∨ c ∈ text.
Proof.
  unfold normalize_separators.
  repeat match goal with |- context [if ?b then _ else _] => destruct b end;
    intros H;
    repeat match goal with
           | H : _ ∈ replace _ _ _ |- _ => apply elem_of_replace in H as [H|H]
           | H : _ ∈ [] |- _ => by apply not_elem_of_nil in H
           | H : _ ∈ [_] |- _ => apply list_elem_of_singleton in H
           end; auto.
Qed.

Lemma parse_money_sign (text : pystr) :
  chr_minus ∉ text → nonneg_or_nan (parse_money (Str text)).
Proof.
  intros Hminus. rewrite parse_money_unfold. unfold float_or_zero.
  destruct (py_float _) as [v|] eqn:E; [|by left].
  apply (py_float_sign _ _ E). intros Hc.
  apply elem_of_normalize_separators in Hc as [Hc|Hc]; [done|].
  apply list_elem_of_filter in Hc as [_ Hc]. done.
Qed.

Lemma fdiv_100_sign v : nonneg_or_nan v → nonneg_or_nan (fdiv v f100).
Proof.
  intros [H| ->]; [|by right]. left. unfold nonneg in *.
  destruct v as [q|[]|]; simpl in *; try done.
  apply Qleb_iff in H. apply Qleb_iff.
  apply Qle_shift_div_l; [done|]. by rewrite Qmult_0_l.
Qed.

Lemma parse_pct_sign (text : pystr) :
  chr_minus ∉ text → nonneg_or_nan (parse_pct (Str text)).
Proof.
  intros Hminus. rewrite parse_pct_unfold.
  destruct (py_float _) as [v|] eqn:E; [|by left].
  assert (nonneg_or_nan v) as Hv.
  { apply (py_float_sign _ _ E). intros Hc.
    apply elem_of_replace in Hc as [Hc|Hc].
    - by apply list_elem_of_singleton in Hc.
    - apply list_elem_of_filter in Hc as [_ Hc]. done. }
  destruct (fgtb v f1); [by apply fdiv_100_sign|done].
Qed.

End Signs.

Section FeeCombo.
Context `{RT : Runtime}.

Lemma in_number_class_plain c :
  in_number_class c = true → c ≠ chr_minus ∧ c ≠ 110%N ∧ c ≠ 78%N.
Proof.
  unfold in_number_class, chr_minus.
  destruct (todecimal c) as [d|] eqn:E.
  - intros _. destruct (N.lt_ge_cases c 128) as [Hlt|Hge]; [|lia].
    pose proof (todecimal_only_ascii _ _ Hlt E). lia.
  - intros [H|H]%orb_true_iff; apply N.eqb_eq in H; subst; done.
Qed.

Lemma search_pct_class text g :
  search_pct text = Some g → Forall (λ c, in_number_class c = true) g.
Proof.
  induction text as [|x r IH]; cbn [search_pct].
  - done.
  - destruct (match_pct_here (x :: r)) as [g'|] eqn:E; [|done].
    intros [= <-]. unfold match_pct_here in E.
    destruct (span in_number_class (x :: r)) as [run rest] eqn:Es.
    apply span_spec in Es as [_ Hrun].
    destruct run; [done|]. destruct (lstrip_by isspace rest); [done|].
    destruct (_ =? _)%N; [|done]. by injection E as <-.
Qed.

Lemma search_fixed_class text g :
  search_fixed text = Some g → Forall (λ c, in_number_class c = true) g.
Proof.
  induction text as [|x r IH]; cbn [search_fixed].
  - done.
  - destruct (match_fixed_here (x :: r)) as [g'|] eqn:E; [|done].
    intros [= <-]. unfold match_fixed_here in E.
    destruct (x =? chr_dollar)%N; [|done].
    destruct (span in_number_class (lstrip_by isspace r)) as [run rest] eqn:Es.
    apply span_spec in Es as [_ Hrun]. simpl in E.
    destruct run; [done|]. by injection E as <-.
Qed.

Lemma parse_pct_nan (text : pystr) :
  parse_pct (Str text) = NaN → 110%N ∈ text ∨ 78%N ∈ text.
Proof.
  rewrite parse_pct_unfold.
  destruct (py_float _) as [v|] eqn:E; [|done].
  intros Hv. assert (v = NaN) as ->.
  { destruct (fgtb v f1); [|done]. by destruct v as [q|[]|]. }
  apply py_float_nan in E as [H|H];
    (apply elem_of_replace in H as [H|H];
     [by apply list_elem_of_singleton in H
     |apply list_elem_of_filter in H as [_ H]; eauto]).
Qed.

Lemma parse_money_nan (text : pystr) :
  parse_money (Str text) = NaN → 110%N ∈ text ∨ 78%N ∈ text.
Proof.
  rewrite parse_money_unfold. unfold float_or_zero.
  destruct (py_float _) as [v|] eqn:E; [|done].
  intros ->.
  apply py_float_nan in E as [H|H];
    (apply elem_of_normalize_separators in H as [H|H]; [done|];
     apply list_elem_of_filter in H as [_ H]; eauto).
Qed.

Lemma parse_fee_combo_nonneg (text : cell) :
  nonneg (parse_fee_combo text).1 ∧ nonneg (parse_fee_combo text).2.
Proof.
  unfold parse_fee_combo.
  destruct (isna text); [done|].
  destruct (strip (py_str text)) as [|c0 r0]; [done|].
  cbv beta iota zeta. generalize (c0 :: r0). intros t. cbn [fst snd]. split.
  - destruct (search_pct t) as [g|] eqn:E; [|done].
    apply search_pct_class in E.
    assert (∀ c, c ∈ g ++ [chr_percent] →
                 c ≠ chr_minus ∧ c ≠ 110%N ∧ c ≠ 78%N) as Hplain.
    { intros c [Hc|Hc%list_elem_of_singleton]%elem_of_app; [|by subst].
      rewrite Forall_forall in E. by apply in_number_class_plain, E. }
    destruct (parse_pct_sign (g ++ [chr_percent])) as [H|H]; [|done|].
    + intros Hc. by apply Hplain in Hc as [? _].
    + apply parse_pct_nan in H as [H|H]; apply Hplain in H; tauto.
  - destruct (search_fixed t) as [g|] eqn:E; [|done].
    apply search_fixed_class in E.
    assert (∀ c, c ∈ chr_dollar :: g →
                 c ≠ chr_minus ∧ c ≠ 110%N ∧ c ≠ 78%N) as Hplain.
    { intros c [->|Hc]%elem_of_cons; [done|].
      rewrite Forall_forall in E. by apply in_number_class_plain, E. }
    destruct (parse_money_sign (chr_dollar :: g)) as [H|H]; [|done|].
    + intros Hc. by apply Hplain in Hc as [? _].
    + apply parse_money_nan in H as [H|H]; apply Hplain in H; tauto.
Qed.

End FeeCombo.

(** The claim C4 fails as it stands: a text with a minus sign is read as
    a negative number. *)
Lemma normalizers_nonneg_fails :
  ¬ (∀ text : pystr,
       nonneg (parse_money (RT := Latin1.runtime) (Str text))
       ∧ nonneg (parse_pct (RT := Latin1.runtime) (Str text))).
Proof.
  intros H. destruct (H (ustr "-5")) as [H1 _]. vm_compute in H1. done.
Qed.

(** C4, amended. Both components of [parse_fee_combo] are non-negative
    for every input; [parse_money] and [parse_pct] give a non-negative
    number, or NaN, for every text without a minus sign; a missing value
    gives zero, and so does a text that does not read as a number. *)
Theorem normalizers_nonneg `{RT : Runtime} :
  (∀ text : cell,
     nonneg (parse_fee_combo text).1 ∧ nonneg (parse_fee_combo text).2)
  ∧ (∀ text : pystr,
       chr_minus ∉ text →
       nonneg_or_nan (parse_money (Str text))
       ∧ nonneg_or_nan (parse_pct (Str text)))
  ∧ (∀ text : pystr,
       py_float (normalize_separators (remove_currency_and_space text)) = None →
       parse_money (Str text) = f0)
  ∧ (∀ text : pystr,
       py_float (replace chr_comma [chr_dot] (remove_percent_and_space text))
       = None →
       parse_pct (Str text) = f0)
  ∧ parse_money (Num NaN) = f0
  ∧ parse_pct (Num NaN) = f0
  ∧ parse_fee_combo (Num NaN) = (f0, f0).
Proof.
  split; [apply parse_fee_combo_nonneg|].
  split; [intros text H; split;
          [by apply parse_money_sign|by apply parse_pct_sign]|].
  split.
  { intros text H. rewrite parse_money_unfold. unfold float_or_zero.
    by rewrite H. }
  split; [|done].
  intros text H. rewrite parse_pct_unfold. by rewrite H.
Qed.

Lemma normalizers_nonneg_witness :
  (nonneg_or_nan (parse_money (RT := Latin1.runtime) (Str (ustr "$1,095.00")))
   ∧ nonneg_or_nan (parse_pct (RT := Latin1.runtime) (Str (ustr "$1,095.00"))))
  ∧ parse_money (RT := Latin1.runtime) (Str (ustr "12x")) = f0
  ∧ parse_pct (RT := Latin1.runtime) (Str (ustr "12x")) = f0.
Proof.
  pose proof (normalizers_nonneg (RT := Latin1.runtime))
    as (_ & Hsign & Hmoney & Hpct & _).
  split; [|split].
  - apply Hsign. vm_compute. intros H.
    repeat (apply elem_of_cons in H as [H|H]; [done|]).
    by apply not_elem_of_nil in H.
  - apply Hmoney. vm_compute. reflexivity.
  - apply Hpct. vm_compute. reflexivity.
Defined.

(** C8. The option [base_financiacion] has no effect: with 'tarifa' and
    with 'tarifa_mas_ml' the computation gives the same result, whatever
    the frame and the other options, and so does the whole run. *)
Theorem base_financiacion_sin_efecto `{RT : Runtime} :
  (∀ (df : DataFrame) (incluir_impuestos : bool)
     (tipo_recargo_envio : option pystr) (valor_recargo_envio : pyfloat),
     calcular df (ustr "tarifa") incluir_impuestos tipo_recargo_envio
       valor_recargo_envio
     = calcular df (ustr "tarifa_mas_ml") incluir_impuestos tipo_recargo_envio
         valor_recargo_envio)
  ∧ (∀ (ml ml_valores odoo : DataFrame) (incluir_impuestos : bool)
       (tipo_recargo_envio : option pystr) (valor_recargo_envio : pyfloat),
       procesar ml ml_valores odoo (ustr "tarifa") incluir_impuestos
         tipo_recargo_envio valor_recargo_envio
       = procesar ml ml_valores odoo (ustr "tarifa_mas_ml") incluir_impuestos
           tipo_recargo_envio valor_recargo_envio).
Proof. split; reflexivity. Qed.

(** ** Lists as series *)

Section SeriesFacts.

Lemma loc_set_lookup {A} (mask : list bool) (v : A) (s : list A)
    (i : nat) (m : bool) (x : A) :
  mask !! i = Some m → s !! i = Some x →
  loc_set mask v s !! i = Some (if m then v else x).
Proof.
  intros Hm Hx. unfold loc_set. rewrite lookup_zip_with, Hm, Hx. done.
Qed.

Lemma loc_set_series_lookup {A} (mask : list bool) (t s : list A)
    (i : nat) (m : bool) (y x : A) :
  mask !! i = Some m → t !! i = Some y → s !! i = Some x →
  loc_set_series mask t s !! i = Some (if m then y else x).
Proof.
  intros Hm Hy Hx. unfold loc_set_series.
  rewrite lookup_zip_with, Hm. simpl.
  assert (zip t s !! i = Some (y, x)) as ->; [|done].
  by rewrite lookup_zip_with, Hy, Hx.
Qed.

Lemma existsb_id_false (l : list bool) (i : nat) (b : bool) :
  existsb id l = false → l !! i = Some b → b = false.
Proof.
  revert i. induction l as [|a l IH]; intros i; simpl; [done|].
  intros [Ha Hl]%orb_false_iff. destruct i; simpl.
  - intros [= <-]. done.
  - by apply IH.
Qed.

Lemma replicate_lookup {A} (n : nat) (x : A) (i : nat) :
  (i < n)%nat → replicate n x !! i = Some x.
Proof. intros. by apply lookup_replicate_2. Qed.

End SeriesFacts.

(** ** Labels with a suffix *)

Section Labels.

Lemma list_ascii_of_string_app (a b : string) :
  list_ascii_of_string (a ++ b)
  = list_ascii_of_string a ++ list_ascii_of_string b.
Proof. induction a as [|x a IH]; simpl; [done|]. by rewrite IH. Qed.

Definition ends_with (suffix s : string) : bool :=
  bool_decide (list_ascii_of_string suffix `suffix_of` list_ascii_of_string s).

Lemma add_suffix_ends suffix c : ends_with suffix (add_suffix suffix c) = true.
Proof.
  unfold ends_with, add_suffix. apply bool_decide_eq_true.
  rewrite list_ascii_of_string_app. by apply suffix_app_r.
Qed.

#[export] Instance add_suffix_inj suffix : Inj (=) (=) (add_suffix suffix).
Proof.
  intros a b H. unfold add_suffix in H.
  apply (f_equal list_ascii_of_string) in H.
  rewrite !list_ascii_of_string_app in H. apply app_inv_tail in H.
  apply (f_equal string_of_list_ascii) in H.
  by rewrite !string_of_list_ascii_of_string in H.
Qed.

Lemma lookup_suffixed_None {A} suffix (m : gmap string A) c :
  ends_with suffix c = false →
  (kmap (add_suffix suffix) m : gmap string A) !! c = None.
Proof.
  intros H. apply lookup_kmap_None; [apply _|].
  intros i ->. by rewrite add_suffix_ends in H.
Qed.

End Labels.

(** One step through a chain of [≫=] that is known to succeed. *)
Ltac bind_inv H x :=
  match type of H with
  | (?o ≫= _) = Some _ =>
    destruct o as [x|] eqn:?; cbn [mbind option_bind] in H;
    [|discriminate H]
  end.

(** ** The join *)

Section MergeFacts.
Context `{RT : Runtime}.

Lemma merge_left_lookup (l r : DataFrame) (lo ro sl sr : string)
    (m : DataFrame) (lk rk : Series) (c : string) :
  merge_left l r lo ro sl sr = Some m →
  columns l !! lo = Some lk → columns r !! ro = Some rk →
  ends_with sl c = false → ends_with sr c = false →
  columns m !! c =
    match columns l !! c, columns r !! c with
    | Some s, None => Some (take_left (merge_pairs lk rk) s)
    | None, Some s => Some (take_right (merge_pairs lk rk) s)
    | _, _ => None
    end.
Proof.
  unfold merge_left. intros Hm Hlk Hrk Hsl Hsr.
  rewrite Hlk, Hrk in Hm. simpl in Hm.
  destruct (_ && _) in Hm; [|done]. injection Hm as <-. simpl.
  rewrite lookup_union, !lookup_fmap, !lookup_union.
  rewrite !lookup_suffixed_None by done.
  rewrite !map_lookup_filter.
  destruct (columns l !! c) as [s1|] eqn:E1, (columns r !! c) as [s2|] eqn:E2;
    simpl; rewrite ?option_guard_decide; repeat destruct (decide _); simpl; try done;
    exfalso; unfold is_Some in *; naive_solver.
Qed.

Lemma merge_left_nrows (l r : DataFrame) (lo ro sl sr : string)
    (m : DataFrame) (lk rk : Series) :
  merge_left l r lo ro sl sr = Some m →
  columns l !! lo = Some lk → columns r !! ro = Some rk →
  nrows m = length (merge_pairs lk rk).
Proof.
  unfold merge_left. intros Hm Hlk Hrk.
  rewrite Hlk, Hrk in Hm. simpl in Hm.
  destruct (_ && _) in Hm; [|done]. by injection Hm as <-.
Qed.

Lemma merge_left_wf (l r : DataFrame) (lo ro sl sr : string) (m : DataFrame) :
  merge_left l r lo ro sl sr = Some m → wf m.
Proof.
  unfold merge_left. intros Hm.
  destruct (columns l !! lo) as [lk|]; [|done].
  destruct (columns r !! ro) as [rk|]; [|done]. simpl in Hm.
  destruct (_ && _) in Hm; [|done]. injection Hm as <-.
  intros c s. simpl. rewrite lookup_union_Some_raw, !lookup_fmap.
  intros [H|[_ H]]; apply fmap_Some in H as (s' & _ & ->);
    unfold take_left, take_right; by rewrite length_fmap.
Qed.

Lemma filter_none {A} (P : A → Prop) `{!∀ x, Decision (P x)} (l : list A) :
  (∀ x, x ∈ l → ¬ P x) → filter P l = [].
Proof.
  induction l as [|a l IH]; [done|]. intros Hall.
  rewrite filter_cons_False by (apply Hall; by left).
  apply IH. intros x Hx. apply Hall. by right.
Qed.

(** An unmatched row of the left frame has a row in the result. *)
Lemma merge_pairs_unmatched (lk rk : Series) (i : nat) (k : cell) :
  lk !! i = Some k →
  (∀ k', k' ∈ rk → key_eqb k k' = false) →
  ∃ p, merge_pairs lk rk !! p = Some (i, None).
Proof.
  intros Hk Hno. apply list_elem_of_lookup_1.
  unfold merge_pairs. apply list_elem_of_join.
  exists [(i, None)]. split; [by left|].
  apply list_elem_of_lookup. exists i.
  rewrite list_lookup_imap, Hk. simpl.
  assert (matches k rk = []) as ->; [|done].
  unfold matches. rewrite filter_none; [done|].
  intros [j k'] Hjk. simpl.
  apply elem_of_lookup_imap in Hjk as (j' & k'' & [= -> ->] & Hj).
  rewrite Hno; [done|]. by eapply list_elem_of_lookup_2.
Qed.

Lemma take_right_unmatched (pairs : list (nat * option nat)) (s : Series)
    (p i : nat) :
  pairs !! p = Some (i, None) → take_right pairs s !! p = Some na.
Proof. intros H. unfold take_right. by rewrite list_lookup_fmap, H. Qed.


Lemma unir_y_validar_inv (df_ml df_odoo out : DataFrame) :
  unir_y_validar df_ml df_odoo = Some out →
  ∃ df_merged codigo precio cantidad,
    merge_left df_ml df_odoo "SKU" "Código Neored" "_ml" "_odoo" = Some df_merged
    ∧ columns df_merged !! "Código Neored" = Some codigo
    ∧ columns df_merged !! "Precio Tarifa" = Some precio
    ∧ columns df_merged !! "Cantidad a mano" = Some cantidad
    ∧ out = set_column "Notas/Flags"
              (Str <$> (strip_chars (ustr "; ") <$>
                 append_flag (isna <$> cantidad) flag_stock
                   (append_flag ((λ c, isna c || cell_is_zero c) <$> precio)
                      flag_precio
                      (loc_set (isna <$> codigo) flag_no_match
                         (replicate (nrows df_merged) [])))))
              df_merged.
Proof.
  unfold unir_y_validar. intros H.
  bind_inv H df_merged. bind_inv H codigo. bind_inv H precio.
  bind_inv H cantidad. injection H as <-. by eexists _, _, _, _.
Qed.

(** The flags, kept in the order of the checks and joined. *)
Fixpoint join_sep (sep : pystr) (l : list pystr) : pystr :=
  match l with
  | [] => []
  | [x] => x
  | x :: r => x ++ sep ++ join_sep sep r
  end.

Definition flags_joined (no_match missing_price missing_stock : bool) : pystr :=
  join_sep (ustr "; ")
    ((if no_match then [ustr "SKU no encontrado en Odoo"] else [])
     ++ (if missing_price then [ustr "Precio Tarifa faltante"] else [])
     ++ (if missing_stock then [ustr "Stock faltante"] else [])).

Lemma unir_y_validar_notas (df_ml df_odoo out : DataFrame) (p : nat)
    (c1 c2 c3 : cell) :
  unir_y_validar df_ml df_odoo = Some out →
  celda out "Código Neored" p = Some c1 →
  celda out "Precio Tarifa" p = Some c2 →
  celda out "Cantidad a mano" p = Some c3 →
  celda out "Notas/Flags" p
  = Some (Str (flags_joined (isna c1) (isna c2 || cell_is_zero c2) (isna c3))).
Proof.
  intros (m & codigo & precio & cantidad & Hm & Hc & Hp & Hq & ->)
    %unir_y_validar_inv.
  pose proof (merge_left_wf _ _ _ _ _ _ _ Hm) as Hwf.
  unfold celda, set_column. simpl.
  rewrite !lookup_insert_ne by done. rewrite lookup_insert_eq.
  rewrite Hc, Hp, Hq. simpl. intros H1 H2 H3.
  assert (p < nrows m)%nat as Hlt.
  { rewrite <- (Hwf _ _ Hc). by eapply lookup_lt_Some. }
  rewrite !list_lookup_fmap. unfold append_flag.
  rewrite !lookup_zip_with, !list_lookup_fmap, H3, H2. simpl.
  rewrite (loc_set_lookup _ _ _ p (isna c1) []);
    [|by rewrite list_lookup_fmap, H1|by apply replicate_lookup].
  simpl. f_equal. f_equal.
  by destruct (isna c1), (isna c2 || cell_is_zero c2), (isna c3); vm_compute.
Qed.

End MergeFacts.

(** Two listings and one product of the catalog, after the example of the
    test suite: the second listing has no product. *)
Module Ejemplo.

Definition txt (s : string) : cell := Str (ustr s).
Definition num (q : Q) : cell := Num (Finite q).

Definition ml : DataFrame :=
  {| nrows := 2;
     columns :=
       {[ "ITEM_ID" := [txt "MLA934071512"; txt "MLA555666777"];
          "SKU" := [txt "LED7012795"; txt "NOEXISTE123"];
          "TITLE" := [txt "Lampara Sodio 250w E40 Osram";
                      txt "Producto sin match en Odoo"];
          "QUANTITY" := [num 232; num 10];
          "PRICE" := [txt "21997.46"; txt "1000.00"];
          "CURRENCY_ID" := [txt "$"; txt "$"];
          "FEE_PER_SALE_MARKETPLACE_V2" :=
            [txt "14.50% + $1095.00"; txt "16.00% + $1200.00"];
          "COST_OF_FINANCING_MARKETPLACE" := [txt "4.00%"; txt "4.50%"];
          "LISTING_TYPE_V3" := [txt "gold_special"; txt "gold_pro"];
          "SHIPPING_METHOD " :=
            [txt "Mercado Envíos por mi cuenta"; txt "Mercado Envíos Clásico"]
       ]} |}.

Definition odoo : DataFrame :=
  {| nrows := 1;
     columns :=
       {[ "Código Neored" := [txt "LED7012795"];
          "Nombre" := [txt "Lámpara Sodio 250W E40 Osram"];
          "Cantidad a mano" := [num 250];
          "Precio Tarifa" := [num 18500];
          "Impuestos del cliente" := [txt "IVA Ventas 21%"] ]} |}.

End Ejemplo.

Definition notas_tres_flags : pystr :=
  ustr "SKU no encontrado en Odoo; Precio Tarifa faltante; Stock faltante".

(** The claim C3 fails as it stands: the notes of the listing without a
    product are not the two flags that it names. *)
Lemma notas_sin_match_fails :
  ∃ out, unir_y_validar Ejemplo.ml Ejemplo.odoo = Some out
         ∧ celda out "Notas/Flags" 1
           ≠ Some (Str (ustr "SKU no encontrado en Odoo; Precio Tarifa faltante")).
Proof.
  destruct (unir_y_validar Ejemplo.ml Ejemplo.odoo) as [out|] eqn:E;
    [|by vm_compute in E].
  exists out. split; [done|].
  assert ((d ← unir_y_validar Ejemplo.ml Ejemplo.odoo; celda d "Notas/Flags" 1)
          = Some (Str notas_tres_flags)) as H by (by vm_compute).
  rewrite E in H. cbn [mbind option_bind] in H. rewrite H.
  by vm_compute.
Qed.

(** C3, amended. After the join, the notes of a row are the flags of the
    checks that fail on it, in the order of the checks (no product; price
    missing or zero; stock missing), joined by "; " with nothing before or
    after; a listing without a product in the catalog has a row in the
    result, and its notes are the three flags "SKU no encontrado en Odoo;
    Precio Tarifa faltante; Stock faltante", as the stock of the product is
    missing with the product. *)
Theorem notas_sin_match (df_ml df_odoo out : DataFrame) (lk rk : Series) :
  unir_y_validar df_ml df_odoo = Some out →
  columns df_ml !! "SKU" = Some lk →
  columns df_odoo !! "Código Neored" = Some rk →
  is_Some (columns df_odoo !! "Precio Tarifa") →
  is_Some (columns df_odoo !! "Cantidad a mano") →
  (∀ (p : nat) (c1 c2 c3 : cell),
     celda out "Código Neored" p = Some c1 →
     celda out "Precio Tarifa" p = Some c2 →
     celda out "Cantidad a mano" p = Some c3 →
     celda out "Notas/Flags" p
     = Some (Str (flags_joined (isna c1) (isna c2 || cell_is_zero c2)
                    (isna c3))))
  ∧ (∀ (i : nat) (k : cell),
       lk !! i = Some k → (∀ k', k' ∈ rk → key_eqb k k' = false) →
       ∃ p, merge_pairs lk rk !! p = Some (i, None))
  ∧ (∀ p i : nat,
       merge_pairs lk rk !! p = Some (i, None) →
       celda out "Notas/Flags" p = Some (Str notas_tres_flags)).
Proof.
  intros Hout Hlk Hrk [pt Hpt] [cm Hcm].
  split; [intros p c1 c2 c3; by apply (unir_y_validar_notas df_ml df_odoo)|].
  split; [intros i k; by apply merge_pairs_unmatched|].
  intros p i Hp.
  pose proof Hout as (m & codigo & precio & cantidad & Hm & Hc1 & Hc2 & Hc3 & Ho)
    %unir_y_validar_inv.
  rewrite (merge_left_lookup _ _ _ _ _ _ _ lk rk _ Hm Hlk Hrk) in Hc1 by done.
  rewrite (merge_left_lookup _ _ _ _ _ _ _ lk rk _ Hm Hlk Hrk) in Hc2 by done.
  rewrite (merge_left_lookup _ _ _ _ _ _ _ lk rk _ Hm Hlk Hrk) in Hc3 by done.
  rewrite Hrk in Hc1. rewrite Hpt in Hc2. rewrite Hcm in Hc3.
  destruct (columns df_ml !! "Código Neored") eqn:E1; [done|].
  destruct (columns df_ml !! "Precio Tarifa") eqn:E2; [done|].
  destruct (columns df_ml !! "Cantidad a mano") eqn:E3; [done|].
  injection Hc1 as <-. injection Hc2 as <-. injection Hc3 as <-.
  assert (∀ c s, c ≠ "Notas/Flags"%string →
                 ends_with "_ml" c = false → ends_with "_odoo" c = false →
                 columns df_ml !! c = None → columns df_odoo !! c = Some s →
                 celda out c p = Some na) as Hna.
  { intros c s Hne H1 H2 Hl Hr. rewrite Ho. unfold celda, set_column. simpl.
    rewrite lookup_insert_ne by done.
    rewrite (merge_left_lookup _ _ _ _ _ _ _ lk rk _ Hm Hlk Hrk) by done.
    rewrite Hl, Hr. simpl. by eapply take_right_unmatched. }
  rewrite (unir_y_validar_notas _ _ _ p na na na Hout); [done|..];
    eapply Hna; done.
Qed.

Lemma notas_sin_match_witness :
  ∃ out, unir_y_validar Ejemplo.ml Ejemplo.odoo = Some out
         ∧ celda out "Notas/Flags" 1 = Some (Str notas_tres_flags).
Proof.
  destruct (unir_y_validar Ejemplo.ml Ejemplo.odoo) as [out|] eqn:E;
    [|by vm_compute in E].
  exists out. split; [done|].
  refine (proj2 (proj2 (notas_sin_match Ejemplo.ml Ejemplo.odoo out
            [Ejemplo.txt "LED7012795"; Ejemplo.txt "NOEXISTE123"]
            [Ejemplo.txt "LED7012795"] E _ _ _ _)) 1%nat 1%nat _).
  - by vm_compute.
  - by vm_compute.
  - eexists. by vm_compute.
  - eexists. by vm_compute.
  - by vm_compute.
Defined.

(** ** The pricing of a frame, column by column *)

Section Views.
Context `{RT : Runtime}.
Variables (df : DataFrame) (incluir_impuestos : bool)
  (tipo : option pystr) (valor : pyfloat).

(** The series that [calcular] derives from the frame it is given. *)
Definition v_num (c : string) : list pyfloat :=
  default [] (columna_numerica df c).
Definition v_notas : Series :=
  fillna_empty (default (replicate (nrows df) (Str []))
                        (columns df !! "Notas/Flags")).
Definition v_con_impuestos : list pyfloat :=
  zip_with (λ b t, fmul b (fadd f1 t)) (v_num "Precio Tarifa") (v_num "tax_pct").
Definition v_neta : list pyfloat :=
  if incluir_impuestos then v_con_impuestos else v_num "Precio Tarifa".
Definition v_envio : list pyfloat :=
  recargo_envio (nrows df) (aplica_envio df) v_neta tipo valor.
Definition v_objetivo : list pyfloat := zip_with fadd v_neta v_envio.
Definition v_calculos : list Solucion :=
  calculos (nrows df) v_objetivo (v_num "fee_pct") (v_num "financing_pct")
    (retenciones_pct df) (v_num "fee_fixed").
Definition v_invalid : list bool := denominador_invalido <$> v_calculos.

Lemma has_column_set_column c c' s d :
  c ≠ c' → has_column (set_column c s d) c' = has_column d c'.
Proof.
  intros. unfold has_column, set_column. simpl.
  by rewrite lookup_insert_ne.
Qed.

Lemma aplica_envio_set_column c s d :
  c ≠ "SHIPPING_METHOD "%string → c ≠ "SHIPPING_METHOD"%string →
  aplica_envio (set_column c s d) = aplica_envio d.
Proof.
  intros H1 H2. unfold aplica_envio, shipping_column.
  rewrite !has_column_set_column by done.
  destruct (has_column d "SHIPPING_METHOD ").
  { simpl. by rewrite lookup_insert_ne. }
  destruct (has_column d "SHIPPING_METHOD"); [|done].
  simpl. by rewrite lookup_insert_ne.
Qed.

Lemma retenciones_pct_set_column c s d :
  c ≠ "retenciones_pct"%string →
  retenciones_pct (set_column c s d) = retenciones_pct d.
Proof.
  intros H. unfold retenciones_pct. simpl. by rewrite lookup_insert_ne.
Qed.

Lemma columna_numerica_set_column c c' s d :
  c ≠ c' → columna_numerica (set_column c s d) c' = columna_numerica d c'.
Proof.
  intros H. unfold columna_numerica. simpl. by rewrite lookup_insert_ne.
Qed.



(** The labels of the columns that [calcular] writes. *)
Definition derivadas : list string :=
  ["Notas/Flags"; "Precio de Tarifa"; "Tarifa + impuestos";
   "Recargo % ML (importe)"; "Recargo fijo ML ($)"; "Cargo por vender ($)";
   "Recargo financiación (importe)"; "Recargo envío ($)";
   "Retenciones ML ($)"; "Recibis ($)"; "IVA"; "Precio final"]%string.

(** [d'] is [d] but for the columns that [calcular] writes. *)
Definition misma_salvo (d d' : DataFrame) : Prop :=
  nrows d' = nrows d
  ∧ ∀ c, c ∉ derivadas → columns d' !! c = columns d !! c.

Lemma not_derivada c : bool_decide (c ∈ derivadas) = false → c ∉ derivadas.
Proof. by intros ?%bool_decide_eq_false. Qed.

Lemma misma_salvo_refl d : misma_salvo d d.
Proof. done. Qed.

Lemma misma_salvo_set c s d d' :
  bool_decide (c ∈ derivadas) = true →
  misma_salvo d d' → misma_salvo d (set_column c s d').
Proof.
  intros Hc%bool_decide_eq_true [Hn Hcols]. split; [done|].
  intros c' Hc'. simpl. rewrite lookup_insert_ne; [by apply Hcols|].
  by intros ->.
Qed.

Lemma columna_numerica_salvo d d' c :
  misma_salvo d d' → bool_decide (c ∈ derivadas) = false →
  columna_numerica d' c = columna_numerica d c.
Proof.
  intros [_ H] Hc%bool_decide_eq_false. unfold columna_numerica.
  by rewrite H.
Qed.

Lemma aplica_envio_salvo d d' :
  misma_salvo d d' → aplica_envio d' = aplica_envio d.
Proof.
  intros [Hn H]. unfold aplica_envio, shipping_column, has_column.
  assert (columns d' !! "SHIPPING_METHOD " = columns d !! "SHIPPING_METHOD ")
    as E1 by (apply H, not_derivada; reflexivity).
  assert (columns d' !! "SHIPPING_METHOD" = columns d !! "SHIPPING_METHOD")
    as E2 by (apply H, not_derivada; reflexivity).
  rewrite E1, E2, Hn.
  repeat destruct (bool_decide _); by rewrite ?E1, ?E2.
Qed.

Lemma retenciones_pct_salvo d d' :
  misma_salvo d d' → retenciones_pct d' = retenciones_pct d.
Proof.
  intros [Hn H]. unfold retenciones_pct.
  assert (columns d' !! "retenciones_pct" = columns d !! "retenciones_pct")
    as -> by (apply H, not_derivada; reflexivity).
  by rewrite Hn.
Qed.

End Views.

Ltac salvo :=
  repeat (apply misma_salvo_set; [reflexivity|]); assumption.

Section Importes.
Context `{RT : Runtime}.
Variables (df : DataFrame) (incluir_impuestos : bool)
  (tipo : option pystr) (valor : pyfloat).

Local Abbreviation n := (nrows df).
Local Abbreviation precio_final :=
  (precio_publicacion <$> v_calculos df incluir_impuestos tipo valor).

(** The columns that [calcular] has written before it rounds. *)
Definition importes_columnas : list (string * Series) :=
  let invalid := v_invalid df incluir_impuestos tipo valor in
  let sols := v_calculos df incluir_impuestos tipo valor in
  [ ("Notas/Flags"%string,
     if existsb id invalid
     then loc_set_series invalid (anotar <$> v_notas df) (v_notas df)
     else v_notas df);
    ("Precio de Tarifa"%string, Num <$> v_num df "Precio Tarifa");
    ("Tarifa + impuestos"%string, Num <$> v_con_impuestos df);
    ("Recargo % ML (importe)"%string,
     Num <$> zip_with fmul precio_final (v_num df "fee_pct"));
    ("Recargo fijo ML ($)"%string,
     if existsb id invalid
     then Num <$> loc_set invalid f0 (v_num df "fee_fixed")
     else Num <$> v_num df "fee_fixed");
    ("Cargo por vender ($)"%string, Num ∘ cargo_por_vender <$> sols);
    ("Recargo financiación (importe)"%string,
     Num ∘ costo_por_ofrecer_cuotas <$> sols);
    ("Recargo envío ($)"%string,
     Num <$> v_envio df incluir_impuestos tipo valor);
    ("Retenciones ML ($)"%string, Num ∘ retenciones <$> sols);
    ("Recibis ($)"%string, Num ∘ recibis <$> sols);
    ("IVA"%string, Num <$> columna_iva n precio_final (v_num df "tax_pct"));
    ("Precio final"%string, Num <$> precio_final) ].

Lemma calcular_importes_inv d fee fin :
  calcular_importes df incluir_impuestos tipo valor = Some (d, fee, fin) →
  nrows d = n
  ∧ fee = v_num df "fee_pct"
  ∧ fin = v_num df "financing_pct"
  ∧ Forall (λ c, is_Some (columns df !! c))
      ["Precio Tarifa"; "tax_pct"; "fee_pct"; "fee_fixed"; "financing_pct"]%string
  ∧ Forall (λ cs : string * Series, columns d !! cs.1 = Some cs.2)
      importes_columnas
  ∧ (∀ c, c ∉ derivadas → columns d !! c = columns df !! c).
Proof.
  unfold calcular_importes. intros H.
  set (df0 := if has_column df "Notas/Flags" then df
              else set_column "Notas/Flags" (replicate n (Str [])) df) in H.
  assert (columns df0 !! "Notas/Flags"
          = Some (default (replicate n (Str [])) (columns df !! "Notas/Flags")))
    as Hnotas.
  { subst df0. unfold has_column. case_bool_decide as E.
    - destruct E as [s ->]. done.
    - simpl. rewrite lookup_insert_eq.
      destruct (columns df !! "Notas/Flags") eqn:E'; [|done].
      exfalso. apply E. eauto. }
  assert (misma_salvo df df0) as Hdf0.
  { subst df0. destruct (has_column df "Notas/Flags"); [done|].
    by apply misma_salvo_set. }
  clearbody df0.
  rewrite Hnotas in H. cbn [mbind option_bind] in H.
  rewrite (columna_numerica_salvo df _ "Precio Tarifa") in H;
    [|salvo|reflexivity].
  bind_inv H pt.
  rewrite (columna_numerica_salvo df _ "tax_pct") in H; [|salvo|reflexivity].
  bind_inv H tx.
  rewrite (columna_numerica_salvo df _ "fee_pct") in H; [|salvo|reflexivity].
  bind_inv H fp.
  rewrite (columna_numerica_salvo df _ "fee_fixed") in H; [|salvo|reflexivity].
  bind_inv H ff.
  rewrite (columna_numerica_salvo df _ "financing_pct") in H;
    [|salvo|reflexivity].
  bind_inv H fn.
  rewrite (aplica_envio_salvo df) in H; [|salvo].
  rewrite (retenciones_pct_salvo df) in H; [|salvo].
  assert (v_num df "Precio Tarifa" = pt) as Ept
    by (unfold v_num; by rewrite Heqo).
  assert (v_num df "tax_pct" = tx) as Etx
    by (unfold v_num; by rewrite Heqo0).
  assert (v_num df "fee_pct" = fp) as Efp
    by (unfold v_num; by rewrite Heqo1).
  assert (v_num df "fee_fixed" = ff) as Eff
    by (unfold v_num; by rewrite Heqo2).
  assert (v_num df "financing_pct" = fn) as Efn
    by (unfold v_num; by rewrite Heqo3).
  unfold importes_columnas, v_invalid, v_calculos, v_objetivo, v_envio, v_neta,
    v_con_impuestos, v_notas.
  rewrite Ept, Etx, Efp, Eff, Efn.
  set (sols := calculos _ _ _ _ _ _) in *.
  set (envio := recargo_envio _ _ _ _ _) in *.
  set (notas := fillna_empty _) in *.
  split.
  { injection H as <- _ _. simpl. destruct (existsb _ _); simpl; apply Hdf0. }
  split; [by injection H as _ <- _|]. split; [by injection H as _ _ <-|].
  split.
  { unfold columna_numerica in *.
    repeat constructor;
      match goal with
      | |- is_Some ?o => by destruct o
      end. }
  injection H as <- _ _. split.
  - destruct (existsb id (denominador_invalido <$> sols));
    repeat constructor; cbn [columns set_column fst snd];
      repeat (rewrite lookup_insert_ne by discriminate);
      by rewrite lookup_insert_eq.
  - intros c Hc.
    match goal with
    | |- columns ?d !! c = _ => assert (misma_salvo df d) as [_ Hm]
    end.
    { destruct (existsb _ _); salvo. }
    by apply Hm.
Qed.

End Importes.

(** ** The pricing of a frame, row by row *)

Section Filas.
Context `{RT : Runtime}.
Variables (df : DataFrame) (incluir_impuestos : bool)
  (tipo : option pystr) (valor : pyfloat).
Hypothesis Hwf : wf df.

Local Abbreviation n := (nrows df).

Lemma lookup_total_lt {A} `{!Inhabited A} (l : list A) (i : nat) :
  (i < length l)%nat → l !! i = Some (l !!! i).
Proof. intros H. by apply list_lookup_lookup_total_lt. Qed.

Lemma v_num_length c :
  is_Some (columns df !! c) → length (v_num df c) = n.
Proof.
  intros [s Hs]. unfold v_num, columna_numerica. rewrite Hs. simpl.
  unfold fillna0, to_numeric. rewrite !length_fmap. by apply Hwf in Hs.
Qed.

Lemma v_notas_length : length (v_notas df) = n.
Proof.
  unfold v_notas, fillna_empty. rewrite length_fmap.
  destruct (columns df !! "Notas/Flags") as [s|] eqn:E; simpl.
  - by apply Hwf in E.
  - by rewrite length_replicate.
Qed.

(** Whether the shipping surcharge applies to a row: the frame has a
    shipping column and the normalized text of the row is one of the two
    labels. *)
Definition aplica_fila (i : nat) : bool :=
  match shipping_column df with
  | Some c =>
    match celda df c i with
    | Some x =>
      isin_estados
        (normalizar_estado_envio (py_str (if isna x then Str [] else x)))
    | None => false
    end
  | None => false
  end.

Lemma shipping_column_Some c :
  shipping_column df = Some c → is_Some (columns df !! c).
Proof.
  unfold shipping_column, has_column.
  repeat case_bool_decide; intros [= <-]; done.
Qed.

Lemma aplica_envio_lookup (i : nat) :
  (i < n)%nat → aplica_envio df !! i = Some (aplica_fila i).
Proof.
  intros Hi. unfold aplica_envio, aplica_fila, celda.
  destruct (shipping_column df) as [c|] eqn:E.
  - destruct (shipping_column_Some _ E) as [s Hs]. rewrite Hs. simpl.
    pose proof (Hwf _ _ Hs) as Hlen.
    destruct (lookup_lt_is_Some_2 s i) as [x Hx]; [lia|].
    unfold fillna_empty. rewrite !list_lookup_fmap, Hx. done.
  - by apply replicate_lookup.
Qed.

(** The surcharge of a row that qualifies, by the kind and the amount
    that were chosen. *)
Definition importe_envio (tarifa_neta : pyfloat) : pyfloat :=
  let tipo_envio :=
    match tipo with
    | Some t => lower t
    | None => ustr "ninguno"
    end in
  if startswith (ustr "fijo") tipo_envio && truthy valor then
    if negb (feqb valor f0) then valor else f0
  else if startswith (ustr "porcentaje") tipo_envio && truthy valor then
    fmul tarifa_neta (if fgtb valor f1 then fdiv valor f100 else valor)
  else f0.

Lemma recargo_envio_lookup (aplica : list bool) (neta : list pyfloat)
    (i : nat) (a : bool) (t : pyfloat) :
  (i < n)%nat → aplica !! i = Some a → neta !! i = Some t →
  recargo_envio n aplica neta tipo valor !! i
  = Some (if a then importe_envio t else f0).
Proof.
  intros Hi Ha Ht. unfold recargo_envio, importe_envio.
  pose proof (replicate_lookup n f0 i Hi) as Hz.
  destruct (startswith (ustr "fijo") _ && truthy valor).
  { destruct (negb (feqb valor f0));
      rewrite (loc_set_lookup _ _ _ i a f0 Ha Hz); by destruct a. }
  destruct (startswith (ustr "porcentaje") _ && truthy valor).
  { rewrite (loc_set_series_lookup _ _ _ i a
               (fmul t (if fgtb valor f1 then fdiv valor f100 else valor))
               f0 Ha); [done| |done].
    by rewrite list_lookup_fmap, Ht. }
  rewrite Hz. by destruct a.
Qed.

Hypothesis Hcols :
  Forall (λ c, is_Some (columns df !! c))
    ["Precio Tarifa"; "tax_pct"; "fee_pct"; "fee_fixed"; "financing_pct"]%string.

Lemma Hcol c :
  c ∈ ["Precio Tarifa"; "tax_pct"; "fee_pct"; "fee_fixed"; "financing_pct"]%string →
  is_Some (columns df !! c).
Proof. intros Hc. rewrite Forall_forall in Hcols. by apply Hcols. Qed.

Lemma v_num_lookup c (i : nat) :
  c ∈ ["Precio Tarifa"; "tax_pct"; "fee_pct"; "fee_fixed"; "financing_pct"]%string →
  (i < n)%nat → v_num df c !! i = Some (v_num df c !!! i).
Proof.
  intros Hc Hi. apply lookup_total_lt. rewrite v_num_length; [done|].
  by apply Hcol.
Qed.

(** The net tariff of a row: the tariff, with the tax when it is included. *)
Definition neta_fila (i : nat) : pyfloat :=
  let b := v_num df "Precio Tarifa" !!! i in
  if incluir_impuestos then fmul b (fadd f1 (v_num df "tax_pct" !!! i)) else b.

Lemma v_neta_lookup (i : nat) :
  (i < n)%nat → v_neta df incluir_impuestos !! i = Some (neta_fila i).
Proof.
  intros Hi. unfold v_neta, neta_fila, v_con_impuestos.
  destruct incluir_impuestos.
  - rewrite lookup_zip_with.
    rewrite !v_num_lookup by (done || set_solver). done.
  - apply v_num_lookup; [set_solver|done].
Qed.

Definition envio_fila (i : nat) : pyfloat :=
  if aplica_fila i then importe_envio (neta_fila i) else f0.

Lemma v_envio_lookup (i : nat) :
  (i < n)%nat → v_envio df incluir_impuestos tipo valor !! i = Some (envio_fila i).
Proof.
  intros Hi. unfold v_envio.
  apply recargo_envio_lookup; [done|by apply aplica_envio_lookup|].
  by apply v_neta_lookup.
Qed.

Lemma retenciones_pct_length : length (retenciones_pct df) = n.
Proof.
  unfold retenciones_pct.
  destruct (columns df !! "retenciones_pct") as [s|] eqn:E.
  - unfold fillna0, to_numeric. rewrite !length_fmap. by apply Hwf in E.
  - by rewrite length_replicate.
Qed.

(** The solution of a row: the solver on the values of the row. *)
Definition solucion_fila (i : nat) : Solucion :=
  calcular_precio_publicacion_ml
    (fadd (neta_fila i) (envio_fila i))
    (v_num df "fee_pct" !!! i) (v_num df "financing_pct" !!! i)
    (retenciones_pct df !!! i) (v_num df "fee_fixed" !!! i).

Lemma v_calculos_lookup (i : nat) :
  (i < n)%nat →
  v_calculos df incluir_impuestos tipo valor !! i = Some (solucion_fila i).
Proof.
  intros Hi. unfold v_calculos, calculos, solucion_fila.
  rewrite list_lookup_fmap, lookup_seq_lt by done. simpl.
  f_equal. f_equal.
  unfold v_objetivo. apply list_lookup_total_correct.
  by rewrite lookup_zip_with, v_neta_lookup, v_envio_lookup.
Qed.

(** The cells that [calcular] has written in a row before it rounds. *)
Definition importes_fila (i : nat) : list (string * cell) :=
  let sol := solucion_fila i in
  let invalido := denominador_invalido sol in
  let nota := v_notas df !!! i in
  let tarifa := v_num df "Precio Tarifa" !!! i in
  let tax := v_num df "tax_pct" !!! i in
  let precio := precio_publicacion sol in
  [ ("Notas/Flags"%string, if invalido then anotar nota else nota);
    ("Precio de Tarifa"%string, Num tarifa);
    ("Tarifa + impuestos"%string, Num (fmul tarifa (fadd f1 tax)));
    ("Recargo % ML (importe)"%string,
     Num (fmul precio (v_num df "fee_pct" !!! i)));
    ("Recargo fijo ML ($)"%string,
     Num (if invalido then f0 else v_num df "fee_fixed" !!! i));
    ("Cargo por vender ($)"%string, Num (cargo_por_vender sol));
    ("Recargo financiación (importe)"%string,
     Num (costo_por_ofrecer_cuotas sol));
    ("Recargo envío ($)"%string, Num (envio_fila i));
    ("Retenciones ML ($)"%string, Num (retenciones sol));
    ("Recibis ($)"%string, Num (recibis sol));
    ("IVA"%string,
     Num (if fgtb tax f0 then fdiv (fmul precio tax) (fadd f1 tax) else f0));
    ("Precio final"%string, Num precio) ].

Lemma columna_iva_lookup (precio tax : list pyfloat) (i : nat) (p t : pyfloat) :
  (i < n)%nat → precio !! i = Some p → tax !! i = Some t →
  columna_iva n precio tax !! i
  = Some (if fgtb t f0 then fdiv (fmul p t) (fadd f1 t) else f0).
Proof.
  intros Hi Hp Ht. unfold columna_iva.
  pose proof (replicate_lookup n f0 i Hi) as Hz.
  assert (((λ t, fgtb t f0) <$> tax) !! i = Some (fgtb t f0)) as Hm
    by (by rewrite list_lookup_fmap, Ht).
  destruct (existsb id _) eqn:E.
  - apply loc_set_series_lookup; [done| |done].
    by rewrite lookup_zip_with, Hp, Ht.
  - rewrite (existsb_id_false _ _ _ E Hm). done.
Qed.

Lemma importes_fila_ok (i : nat) :
  (i < n)%nat →
  Forall2 (λ (cs : string * Series) (cx : string * cell),
             cs.1 = cx.1 ∧ cs.2 !! i = Some cx.2)
    (importes_columnas df incluir_impuestos tipo valor) (importes_fila i).
Proof.
  intros Hi.
  pose proof (v_calculos_lookup i Hi) as Hsol.
  assert (v_invalid df incluir_impuestos tipo valor !! i
          = Some (denominador_invalido (solucion_fila i))) as Hinv
    by (unfold v_invalid; by rewrite list_lookup_fmap, Hsol).
  assert (v_notas df !! i = Some (v_notas df !!! i)) as Hnota
    by (apply lookup_total_lt; by rewrite v_notas_length).
  unfold importes_columnas, importes_fila.
  repeat match goal with
         | |- Forall2 _ _ _ => constructor; [split; [reflexivity|]|]
         end;
    cbn [fst snd];
    rewrite ?list_lookup_fmap, ?lookup_zip_with, ?Hsol,
      ?v_num_lookup by (done || set_solver); try done.
  - destruct (existsb id _) eqn:E.
    + apply loc_set_series_lookup; [done| |done].
      by rewrite list_lookup_fmap, Hnota.
    + by rewrite (existsb_id_false _ i _ E Hinv).
  - unfold v_con_impuestos.
    rewrite lookup_zip_with, !v_num_lookup by (done || set_solver). done.
  - by rewrite list_lookup_fmap, Hsol.
  - destruct (existsb id _) eqn:E.
    + rewrite list_lookup_fmap.
      rewrite (loc_set_lookup (v_invalid df incluir_impuestos tipo valor) f0
                 (v_num df "fee_fixed") i _ _ Hinv
                 (v_num_lookup "fee_fixed" i ltac:(set_solver) Hi)).
      done.
    + rewrite list_lookup_fmap, v_num_lookup by (done || set_solver).
      by rewrite (existsb_id_false _ i _ E Hinv).
  - by rewrite v_envio_lookup.
  - rewrite (columna_iva_lookup _ _ i (precio_publicacion (solucion_fila i))
               (v_num df "tax_pct" !!! i)); [done|done| |].
    + by rewrite list_lookup_fmap, Hsol.
    + apply v_num_lookup; [set_solver|done].
Qed.

End Filas.

Section Redondeo.

Lemma foldl_alter_lookup (f : Series → Series) (L : list string)
    (d : DataFrame) (c : string) :
  NoDup L →
  columns (foldl (λ d col, {| nrows := nrows d;
                              columns := alter f col (columns d) |}) d L) !! c
  = if bool_decide (c ∈ L) then f <$> columns d !! c else columns d !! c.
Proof.
  intros HL. revert d. induction HL as [|a L Ha HL IH]; intros d; [done|].
  simpl. rewrite IH. simpl.
  destruct (decide (c = a)) as [->|Hne].
  - rewrite lookup_alter_eq.
    rewrite (bool_decide_eq_false_2 (a ∈ L)) by done.
    by rewrite bool_decide_eq_true_2 by left.
  - rewrite lookup_alter_ne by done.
    case_bool_decide as E1; case_bool_decide as E2; try done.
    + exfalso. apply E2. by right.
    + exfalso. apply E1. by apply elem_of_cons in E2 as [?|?].
Qed.

Lemma foldl_alter_nrows (f : Series → Series) (L : list string)
    (d : DataFrame) :
  nrows (foldl (λ d col, {| nrows := nrows d;
                            columns := alter f col (columns d) |}) d L)
  = nrows d.
Proof. revert d. induction L as [|a L IH]; intros d; [done|]. simpl. by rewrite IH. Qed.

Lemma numeric_cols_NoDup : NoDup numeric_cols.
Proof. apply (bool_decide_unpack _). by vm_compute. Qed.

(** What survives the rounding: a cell of a currency column is rounded,
    any other cell is kept. *)
Definition redondeo (c : string) (x : cell) : cell :=
  if bool_decide (c ∈ numeric_cols) then round_cell x else x.

Lemma redondear_celda (d : DataFrame) (c : string) (i : nat) :
  celda (redondear d) c i = redondeo c <$> celda d c i.
Proof.
  unfold celda, redondear, redondeo.
  rewrite foldl_alter_lookup by apply numeric_cols_NoDup.
  destruct (columns d !! c) as [s|]; case_bool_decide; simpl; try done.
  - by rewrite list_lookup_fmap.
  - by destruct (s !! i).
Qed.

End Redondeo.

Section Calcular.
Context `{RT : Runtime}.

Lemma calcular_inv (df : DataFrame) (base : pystr) (incluir_impuestos : bool)
    (tipo : option pystr) (valor : pyfloat) (out : DataFrame) :
  calcular df base incluir_impuestos tipo valor = Some out →
  ∃ d fee fin,
    calcular_importes df incluir_impuestos tipo valor = Some (d, fee, fin)
    ∧ nrows out = nrows d
    ∧ ∀ c i, c ∈ derivadas → celda out c i = redondeo c <$> celda d c i.
Proof.
  unfold calcular. intros H.
  destruct (calcular_importes _ _ _ _) as [[[d fee] fin]|]; [|done].
  cbn [mbind option_bind] in H. injection H as <-.
  exists d, fee, fin. split; [done|]. split.
  { cbn [nrows set_column]. apply foldl_alter_nrows. }
  intros c i Hc. rewrite <- redondear_celda. unfold celda. simpl.
  rewrite !lookup_insert_ne; [done|..]; intros <-;
    (eapply not_derivada; [|exact Hc]; reflexivity).
Qed.

(** Every cell that [calcular] writes in a row is the value computed
    from that row alone, rounded when the column is a currency column. *)
Lemma calcular_fila (df : DataFrame) (base : pystr) (incluir_impuestos : bool)
    (tipo : option pystr) (valor : pyfloat) (out : DataFrame) (i : nat) :
  wf df → calcular df base incluir_impuestos tipo valor = Some out →
  (i < nrows df)%nat →
  nrows out = nrows df
  ∧ Forall (λ c, is_Some (columns df !! c))
      ["Precio Tarifa"; "tax_pct"; "fee_pct"; "fee_fixed"; "financing_pct"]%string
  ∧ Forall (λ cx : string * cell, celda out cx.1 i = Some (redondeo cx.1 cx.2))
      (importes_fila df incluir_impuestos tipo valor i).
Proof.
  intros Hwf (d & fee & fin & Hd & Hn & Hout)%calcular_inv Hi.
  apply calcular_importes_inv in Hd as (Hnd & _ & _ & Hcols & Hd & _).
  split; [congruence|]. split; [done|].
  pose proof (importes_fila_ok df incluir_impuestos tipo valor Hwf Hcols i Hi)
    as H2.
  assert (Forall (λ cs : string * Series, cs.1 ∈ derivadas)
            (importes_columnas df incluir_impuestos tipo valor)) as Hder.
  { unfold importes_columnas. repeat constructor;
      apply (bool_decide_unpack _); by vm_compute. }
  revert Hd Hder H2.
  generalize (importes_columnas df incluir_impuestos tipo valor).
  generalize (importes_fila df incluir_impuestos tipo valor i).
  intros xs ss Hd Hder H2.
  induction H2 as [|[c s] [c' x] ss xs [Hc Hx] _ IH]; [constructor|].
  simpl in Hc. subst c'.
  apply Forall_cons in Hd as [Hd1 Hd]. apply Forall_cons in Hder as [Hc1 Hder].
  constructor; [|by apply IH]. simpl in *.
  rewrite Hout by done. unfold celda. rewrite Hd1. simpl. by rewrite Hx.
Qed.

End Calcular.


(** ** The joined example *)

(** The two sheets read and joined. *)
Definition leer_y_unir `{RT : Runtime} (ml ml_valores odoo : DataFrame)
    : option DataFrame :=
  df_ml ← leer_ml ml ml_valores;
  df_odoo ← leer_odoo odoo;
  unir_y_validar df_ml df_odoo.

(** The frames of the example after the two sheets are read and joined,
    and the same frame without its shipping column. *)
Module EjemploUnido.
Import Latin1.

Definition unido : option DataFrame :=
  leer_y_unir Ejemplo.ml Ejemplo.ml Ejemplo.odoo.

Definition sin_envio (d : DataFrame) : DataFrame :=
  {| nrows := nrows d; columns := delete "SHIPPING_METHOD " (columns d) |}.

(** The surcharge of a row, with the fixed amount 150. *)
Definition recargo_fijo_150 (d : option DataFrame) (i : nat) : option cell :=
  d ← d;
  out ← calcular d (ustr "tarifa") false (Some (ustr "Fijo ($)")) (Finite 150);
  celda out "Recargo envío ($)" i.

(** Whether a cell holds the number [q]. *)
Definition vale (o : option cell) (q : Q) : Prop :=
  ∃ z, o = Some (Num z) ∧ feq z (Finite q).

End EjemploUnido.

(** A cell that holds a number equal to zero. *)
Definition es_cero (o : option cell) : Prop :=
  ∃ z, o = Some (Num z) ∧ feq z f0.

Lemma unir_y_validar_wf (df_ml df_odoo out : DataFrame) :
  unir_y_validar df_ml df_odoo = Some out → wf out.
Proof.
  intros (m & codigo & precio & cantidad & Hm & Hc & Hp & Hq & ->)
    %unir_y_validar_inv.
  pose proof (merge_left_wf _ _ _ _ _ _ _ Hm) as Hwf.
  intros c s. simpl. destruct (decide (c = "Notas/Flags"%string)) as [->|Hne].
  - rewrite lookup_insert_eq. intros [= <-].
    unfold append_flag, loc_set.
    rewrite !length_fmap, !length_zip_with, !length_fmap, length_replicate.
    rewrite (Hwf _ _ Hc), (Hwf _ _ Hp), (Hwf _ _ Hq). lia.
  - rewrite lookup_insert_ne by done. apply Hwf.
Qed.

(** A frame is well formed when the check of its columns says so. *)
Lemma wf_bool (d : DataFrame) :
  bool_decide (map_Forall (λ _ s, length s = nrows d) (columns d)) = true →
  wf d.
Proof.
  intros H%bool_decide_eq_true c s Hs. by apply (H c s).
Qed.

(** A joined frame of one row whose percentages add up to more than one. *)
Module EjemploInfactible.

Definition unido : DataFrame :=
  {| nrows := 1;
     columns :=
       {[ "SKU" := [Ejemplo.txt "LED7012795"];
          "Precio Tarifa" := [Ejemplo.num 18500];
          "tax_pct" := [Ejemplo.num 0.21];
          "fee_pct" := [Ejemplo.num 0.9];
          "fee_fixed" := [Ejemplo.num 1095];
          "financing_pct" := [Ejemplo.num 0.2];
          "Notas/Flags" := [Ejemplo.txt "Stock faltante"] ]} |}.

End EjemploInfactible.

Section Envio.
Context `{RT : Runtime}.

Lemma round_cell_redondeo c x :
  bool_decide (c ∈ numeric_cols) = true → redondeo c (Num x) = Num (round2 x).
Proof. intros H. unfold redondeo. by rewrite H. Qed.

End Envio.

(** ** The solver rejects *)

(** C2. Infeasible percentages: when commission, financing and
    withholding add up to one or more, the solver reports the failure and
    its five amounts are exactly zero; in the pricing of a frame, such a
    row has these five amounts and its fixed charge at zero and the
    message of the failure appended to its notes, while every row, this
    one or another, holds the result of the solver on its own values, and
    a row that the solver accepts keeps its notes and its fixed charge. *)
Theorem solver_infeasibility :
  (∀ t pc pf pr cf : pyfloat,
     fleb f1 (fadd (fadd pc pf) pr) = true →
     calcular_precio_publicacion_ml t pc pf pr cf
     = {| precio_publicacion := f0; cargo_por_vender := f0;
          costo_por_ofrecer_cuotas := f0; retenciones := f0; recibis := f0;
          denominador_invalido := true |})
  ∧ (∀ (RT : Runtime) (df : DataFrame) (base : pystr)
       (incluir_impuestos : bool) (tipo : option pystr) (valor : pyfloat)
       (out : DataFrame) (i : nat),
       wf df → calcular df base incluir_impuestos tipo valor = Some out →
       (i < nrows df)%nat →
       let sol := solucion_fila df incluir_impuestos tipo valor i in
       let nota := v_notas df !!! i in
       nrows out = nrows df
       ∧ celda out "Precio final" i
         = Some (Num (round2 (precio_publicacion sol)))
       ∧ (fleb f1 (fadd (fadd (v_num df "fee_pct" !!! i)
                              (v_num df "financing_pct" !!! i))
                        (retenciones_pct df !!! i)) = true →
          Forall (λ c, es_cero (celda out c i))
            ["Precio final"; "Cargo por vender ($)";
             "Recargo financiación (importe)"; "Retenciones ML ($)";
             "Recibis ($)"; "Recargo fijo ML ($)"]%string
          ∧ celda out "Notas/Flags" i = Some (anotar nota))
       ∧ (denominador_invalido sol = false →
          celda out "Notas/Flags" i = Some nota
          ∧ celda out "Recargo fijo ML ($)" i
            = Some (Num (round2 (v_num df "fee_fixed" !!! i)))))
  ∧ (∀ (RT : Runtime) (s : pystr),
       anotar (Str s)
       = Str (match s with
              | [] => mensaje_denominador
              | _ => s ++ ustr "; " ++ mensaje_denominador
              end)).
Proof.
  split; [exact solver_infeasible|]. split; [|by intros RT [|c s]].
  intros RT df base inc tipo valor out i Hwf Hout Hi sol nota.
  destruct (calcular_fila df base inc tipo valor out i Hwf Hout Hi)
    as (Hn & _ & Hfila).
  assert (∀ k c x,
            importes_fila df inc tipo valor i !! k = Some (c, x) →
            celda out c i = Some (redondeo c x)) as Hk.
  { intros k c x Hkc.
    by pose proof (proj1 (Forall_lookup _ _) Hfila k _ Hkc) as H. }
  split; [done|]. split; [exact (Hk 11%nat _ _ eq_refl)|]. split.
  - intros Hinf.
    assert (sol = {| precio_publicacion := f0; cargo_por_vender := f0;
                     costo_por_ofrecer_cuotas := f0; retenciones := f0;
                     recibis := f0; denominador_invalido := true |}) as Hsol
      by (by apply solver_infeasible).
    assert (es_cero (Some (Num (round2 f0)))) as Hz
      by (eexists; split; [reflexivity|by vm_compute]).
    split.
    + repeat constructor.
      * rewrite (Hk 11%nat _ _ eq_refl). fold sol. by rewrite Hsol.
      * rewrite (Hk 5%nat _ _ eq_refl). fold sol. by rewrite Hsol.
      * rewrite (Hk 6%nat _ _ eq_refl). fold sol. by rewrite Hsol.
      * rewrite (Hk 8%nat _ _ eq_refl). fold sol. by rewrite Hsol.
      * rewrite (Hk 9%nat _ _ eq_refl). fold sol. by rewrite Hsol.
      * rewrite (Hk 4%nat _ _ eq_refl). fold sol. by rewrite Hsol.
    + rewrite (Hk 0%nat _ _ eq_refl). fold sol. by rewrite Hsol.
  - intros Hval. split.
    + rewrite (Hk 0%nat _ _ eq_refl). fold sol. by rewrite Hval.
    + rewrite (Hk 4%nat _ _ eq_refl). fold sol. by rewrite Hval.
Qed.

Lemma solver_infeasibility_witness :
  ∃ out,
    calcular (RT := Latin1.runtime) EjemploInfactible.unido (ustr "tarifa")
      false (Some (ustr "Ninguno")) f0 = Some out
    ∧ es_cero (celda out "Precio final" 0)
    ∧ celda out "Notas/Flags" 0
      = Some (Str (ustr "Stock faltante; Porcentajes ML sin solución (denominador <= 0)")).
Proof.
  destruct (calcular (RT := Latin1.runtime) EjemploInfactible.unido
              (ustr "tarifa") false (Some (ustr "Ninguno")) f0)
    as [out|] eqn:E; [|by vm_compute in E].
  exists out. split; [reflexivity|].
  assert (wf EjemploInfactible.unido) as Hwf by (apply wf_bool; by vm_compute).
  destruct (proj1 (proj2 solver_infeasibility) Latin1.runtime
              EjemploInfactible.unido (ustr "tarifa") false
              (Some (ustr "Ninguno")) f0 out 0%nat Hwf E)
    as (_ & _ & Hinf & _); [simpl; lia|].
  destruct Hinf as [Hz Hnota]; [by vm_compute|].
  split.
  - by apply Forall_cons in Hz as [Hz _].
  - rewrite Hnota. by vm_compute.
Defined.

(** ** Shipping surcharge *)

(** C7. Shipping surcharge: whatever the kind and the amount chosen, the
    surcharge of a row is zero when the frame has no shipping column, and
    when the normalized shipping text of the row is not one of the two
    labels; on a row that qualifies, the fixed kind gives the amount as it
    was entered (the column shows it rounded to two decimals). In the
    example, with the fixed amount 150, the row "Mercado Envíos por mi
    cuenta" gets 150, the row "Mercado Envíos Clásico" gets 0, and every
    row gets 0 once the shipping column is taken away. *)
Theorem recargo_envio_elegible :
  (∀ (RT : Runtime) (df : DataFrame) (base : pystr) (incluir_impuestos : bool)
     (tipo : option pystr) (valor : pyfloat) (out : DataFrame) (i : nat),
     wf df → calcular df base incluir_impuestos tipo valor = Some out →
     (i < nrows df)%nat →
     ∃ recargo : pyfloat,
       celda out "Recargo envío ($)" i = Some (Num (round2 recargo))
       ∧ (shipping_column df = None → recargo = f0)
       ∧ (∀ c x, shipping_column df = Some c → celda df c i = Some x →
            isin_estados
              (normalizar_estado_envio (py_str (if isna x then Str [] else x)))
            = false →
            recargo = f0)
       ∧ (∀ c x t, shipping_column df = Some c → celda df c i = Some x →
            isin_estados
              (normalizar_estado_envio (py_str (if isna x then Str [] else x)))
            = true →
            tipo = Some t → startswith (ustr "fijo") (lower t) = true →
            feq recargo valor))
  ∧ (d ← EjemploUnido.unido; celda d "SHIPPING_METHOD " 0)
    = Some (Str (ustr "Mercado Envíos por mi cuenta"))
  ∧ (d ← EjemploUnido.unido; celda d "SHIPPING_METHOD " 1)
    = Some (Str (ustr "Mercado Envíos Clásico"))
  ∧ EjemploUnido.vale (EjemploUnido.recargo_fijo_150 EjemploUnido.unido 0) 150
  ∧ EjemploUnido.vale (EjemploUnido.recargo_fijo_150 EjemploUnido.unido 1) 0
  ∧ (nrows <$> EjemploUnido.unido) = Some 2%nat
  ∧ EjemploUnido.vale
      (EjemploUnido.recargo_fijo_150
         (EjemploUnido.sin_envio <$> EjemploUnido.unido) 0) 0
  ∧ EjemploUnido.vale
      (EjemploUnido.recargo_fijo_150
         (EjemploUnido.sin_envio <$> EjemploUnido.unido) 1) 0.
Proof.
  split.
  - intros RT df base inc tipo valor out i Hwf Hout Hi.
    destruct (calcular_fila df base inc tipo valor out i Hwf Hout Hi)
      as (_ & _ & Hfila).
    pose proof (proj1 (Forall_lookup _ _) Hfila 7%nat _ eq_refl) as H7.
    cbn [fst snd] in H7. rewrite round_cell_redondeo in H7 by reflexivity.
    exists (envio_fila df inc tipo valor i). split; [done|].
    unfold envio_fila, aplica_fila. split; [|split].
    + by intros ->.
    + intros c x -> -> ->. done.
    + intros c x t -> -> -> -> Hfijo. unfold importe_envio.
      rewrite Hfijo. cbn [andb].
      unfold truthy. destruct (feqb valor f0) eqn:E; cbn [negb]; [|reflexivity].
      destruct valor as [q|s|]; try done. simpl in E.
      apply Qeq_bool_iff in E.
      rewrite andb_false_r. simpl. by symmetry.
  - unfold EjemploUnido.vale.
    repeat split; vm_compute; try reflexivity;
      (eexists; split; [reflexivity|reflexivity]).
Qed.

Lemma recargo_envio_elegible_witness :
  ∃ d out recargo,
    EjemploUnido.unido = Some d
    ∧ calcular (RT := Latin1.runtime) d (ustr "tarifa") false
        (Some (ustr "Fijo ($)")) (Finite 150) = Some out
    ∧ celda out "Recargo envío ($)" 0 = Some (Num (round2 recargo)).
Proof.
  destruct EjemploUnido.unido as [d|] eqn:E; [|by vm_compute in E].
  assert (wf d) as Hwf.
  { unfold EjemploUnido.unido, leer_y_unir in E.
    destruct (leer_ml _ _) as [a|]; [|done].
    destruct (leer_odoo _) as [b|]; [|done].
    by apply (unir_y_validar_wf a b). }
  assert ((d ← EjemploUnido.unido;
           calcular (RT := Latin1.runtime) d (ustr "tarifa") false
             (Some (ustr "Fijo ($)")) (Finite 150)) ≠ None) as Hc
    by (by vm_compute).
  assert ((nrows <$> EjemploUnido.unido) = Some 2%nat) as Hn by (by vm_compute).
  rewrite E in Hn. rewrite E in Hc. cbn [mbind option_bind] in Hc.
  injection Hn as Hn.
  destruct (calcular d (ustr "tarifa") false (Some (ustr "Fijo ($)"))
              (Finite 150)) as [out|] eqn:Eo;
    [|exfalso; apply Hc; reflexivity].
  destruct (proj1 recargo_envio_elegible Latin1.runtime d (ustr "tarifa") false
              (Some (ustr "Fijo ($)")) (Finite 150) out 0%nat Hwf Eo)
    as (r & Hr & _); [lia|].
  exists d, out, r. split; [reflexivity|]. split; [exact Eo|exact Hr].
Defined.

(** ** Tax and rounding *)



(** ** Columns through the run *)

Section Columnas.
Context `{RT : Runtime}.

(** The labels that the readers write. *)
Definition escritas : list string :=
  ["SHIPPING_METHOD "; "fee_pct"; "fee_fixed"; "financing_pct"; "PRICE";
   "QUANTITY"; "Precio Tarifa"; "Cantidad a mano"; "tax_pct"]%string.

Lemma no_escrita (c c' : string) :
  bool_decide (c ∈ escritas) = false → bool_decide (c' ∈ escritas) = true →
  c' ≠ c.
Proof.
  intros H1%bool_decide_eq_false H2%bool_decide_eq_true ->. done.
Qed.

Lemma validate_excel_structure_None (df : DataFrame) (file_type c : string) :
  bool_decide (c ∈ escritas) = false →
  columns df !! c = None →
  columns (validate_excel_structure df file_type).1 !! c = None.
Proof.
  intros Hc Hnone. unfold validate_excel_structure.
  destruct (String.eqb file_type "ml")%string.
  - cbn [fst]. destruct (has_column df "SHIPPING_METHOD "); [done|].
    destruct (has_column df "SHIPPING_METHOD"); [|done].
    unfold rename_column. destruct (columns df !! "SHIPPING_METHOD"); [|done].
    simpl. rewrite lookup_insert_ne by (by apply (no_escrita c)).
    by apply lookup_delete_None; right.
  - by destruct (String.eqb file_type "odoo")%string.
Qed.

Lemma filter_rows_None (mask : list bool) (df : DataFrame) (c : string) :
  columns df !! c = None → columns (filter_rows mask df) !! c = None.
Proof. intros H. simpl. by rewrite lookup_fmap, H. Qed.

Lemma set_column_None (c c' : string) (s : Series) (df : DataFrame) :
  c' ≠ c → columns df !! c = None → columns (set_column c' s df) !! c = None.
Proof. intros Hne H. simpl. by rewrite lookup_insert_ne. Qed.

Lemma leer_ml_None (ml ml_valores d : DataFrame) (c : string) :
  bool_decide (c ∈ escritas) = false →
  leer_ml ml ml_valores = Some d →
  columns ml !! c = None → columns ml_valores !! c = None →
  columns d !! c = None.
Proof.
  intros Hc H Hml Hmlv. unfold leer_ml in H.
  pose proof (validate_excel_structure_None ml "ml" c Hc Hml) as H1.
  pose proof (validate_excel_structure_None ml_valores "ml" c Hc Hmlv) as H2.
  destruct (validate_excel_structure ml "ml") as [d1 v1].
  destruct (validate_excel_structure ml_valores "ml") as [d2 v2].
  cbn [fst] in H1, H2.
  set (o := if (if negb v1 then true else df_contains_formulas d1 formula_columns)
            then if v2 then Some d2 else None else Some d1) in H.
  assert (∀ d0, o = Some d0 → columns d0 !! c = None) as Ho.
  { subst o. intros d0.
    destruct (if negb v1 then true else _); [destruct v2|];
      intros [= <-]; done. }
  destruct o as [d0|]; [|done]. cbn [mbind option_bind] in H.
  specialize (Ho d0 eq_refl).
  unfold clean_ml_data in H.
  destruct (columns d0 !! "ITEM_ID") as [item|]; [|done].
  destruct (columns d0 !! "SKU") as [sku|]; [|done].
  cbn [mbind option_bind] in H.
  match type of H with
  | context [filter_rows ?m d0] =>
    pose proof (filter_rows_None m d0 c Ho) as Hf;
    set (dc := filter_rows m d0) in *; clearbody dc
  end.
  bind_inv H fee.
  destruct (parse_fee_combo <$> fee) as [|x combos]; [done|].
  bind_inv H financing. bind_inv H price. bind_inv H quantity.
  injection H as <-.
  repeat (apply set_column_None; [by apply (no_escrita c)|]). done.
Qed.

Lemma leer_odoo_None (odoo d : DataFrame) (c : string) :
  bool_decide (c ∈ escritas) = false →
  leer_odoo odoo = Some d → columns odoo !! c = None → columns d !! c = None.
Proof.
  intros Hc H Hodoo. unfold leer_odoo in H.
  pose proof (validate_excel_structure_None odoo "odoo" c Hc Hodoo) as H1.
  destruct (validate_excel_structure odoo "odoo") as [d1 v1]. cbn [fst] in H1.
  destruct (negb v1); [done|].
  bind_inv H codigo.
  match type of H with
  | context [filter_rows ?m d1] =>
    pose proof (filter_rows_None m d1 c H1) as Hf;
    set (dc := filter_rows m d1) in *; clearbody dc
  end.
  bind_inv H precio. bind_inv H cantidad. bind_inv H impuestos.
  bind_inv H tax. injection H as <-.
  repeat (apply set_column_None; [by apply (no_escrita c)|]). done.
Qed.

Lemma unir_y_validar_None (df_ml df_odoo d : DataFrame) (c : string) :
  c ≠ "Notas/Flags"%string →
  ends_with "_ml" c = false → ends_with "_odoo" c = false →
  unir_y_validar df_ml df_odoo = Some d →
  columns df_ml !! c = None → columns df_odoo !! c = None →
  columns d !! c = None.
Proof.
  intros Hne Hs1 Hs2 (m & codigo & precio & cantidad & Hm & _ & _ & _ & ->)
    %unir_y_validar_inv Hl Hr.
  apply set_column_None; [done|].
  pose proof Hm as Hm'. unfold merge_left in Hm'.
  destruct (columns df_ml !! "SKU") as [lk|] eqn:Elk; [|done].
  destruct (columns df_odoo !! "Código Neored") as [rk|] eqn:Erk; [|done].
  rewrite (merge_left_lookup _ _ _ _ _ _ _ lk rk c Hm Elk Erk Hs1 Hs2).
  by rewrite Hl, Hr.
Qed.

(** Without a column of withholdings in either sheet, the joined frame has
    none, and the percentages that the solver gets are zero. *)
Lemma retenciones_pct_cero (ml ml_valores odoo df_ml df_odoo d : DataFrame) :
  leer_ml ml ml_valores = Some df_ml → leer_odoo odoo = Some df_odoo →
  unir_y_validar df_ml df_odoo = Some d →
  columns ml !! "retenciones_pct" = None →
  columns ml_valores !! "retenciones_pct" = None →
  columns odoo !! "retenciones_pct" = None →
  retenciones_pct d = replicate (nrows d) f0.
Proof.
  intros Hml Hodoo Hd H1 H2 H3. unfold retenciones_pct.
  rewrite (unir_y_validar_None df_ml df_odoo d "retenciones_pct"); try done.
  - by apply (leer_ml_None ml ml_valores).
  - by apply (leer_odoo_None odoo).
Qed.

(** Without withholdings, the withholding of a row with a finite price is
    zero. *)
Lemma retenciones_sin_porcentaje (t pc pf cf : pyfloat) (q : Q) :
  let sol := calcular_precio_publicacion_ml t pc pf f0 cf in
  round2 (precio_publicacion sol) = Finite q →
  feq (round2 (retenciones sol)) f0.
Proof.
  unfold calcular_precio_publicacion_ml.
  destruct (fleb _ f0); cbn [precio_publicacion retenciones].
  { intros _. by vm_compute. }
  destruct (fdiv _ _) as [p|s|]; [|done..]. intros _.
  apply feq_zero_round2. change (or_zero f0) with f0. simpl. ring.
Qed.

End Columnas.

(** The listings of the example with a column of withholdings of 1 %. *)
Definition ml_con_retenciones : DataFrame :=
  set_column "retenciones_pct" [Ejemplo.num 0.01; Ejemplo.num 0.01] Ejemplo.ml.

(** The claim C10 fails as it stands: a sheet may bring the column of
    withholdings, and its percentages reach the solver. *)
Lemma retenciones_cero_fails :
  ∃ z,
    (out ← procesar (RT := Latin1.runtime) ml_con_retenciones
              ml_con_retenciones Ejemplo.odoo (ustr "tarifa") false
              (Some (ustr "Ninguno")) f0;
     celda out "Retenciones ML ($)" 0) = Some (Num z)
    ∧ ¬ feq z f0.
Proof.
  eexists. split; [by vm_compute|]. by vm_compute.
Qed.

(** C10, amended. When neither sheet has a column named retenciones_pct,
    no step of the run creates one: the joined frame has none, the
    withholding percentage that the solver gets is zero on every row, and
    the withholding of every row whose price is a finite number is zero. *)
Theorem retenciones_cero `{RT : Runtime} (ml ml_valores odoo : DataFrame)
    (base : pystr) (incluir_impuestos : bool) (tipo : option pystr)
    (valor : pyfloat) (out : DataFrame) :
  procesar ml ml_valores odoo base incluir_impuestos tipo valor = Some out →
  columns ml !! "retenciones_pct" = None →
  columns ml_valores !! "retenciones_pct" = None →
  columns odoo !! "retenciones_pct" = None →
  ∃ unido,
    leer_y_unir ml ml_valores odoo = Some unido
    ∧ calcular unido base incluir_impuestos tipo valor = Some out
    ∧ columns unido !! "retenciones_pct" = None
    ∧ retenciones_pct unido = replicate (nrows unido) f0
    ∧ ∀ (i : nat) (q : Q),
        (i < nrows unido)%nat →
        celda out "Precio final" i = Some (Num (Finite q)) →
        es_cero (celda out "Retenciones ML ($)" i).
Proof.
  intros H H1 H2 H3. unfold procesar in H. unfold leer_y_unir.
  bind_inv H df_ml. bind_inv H df_odoo. bind_inv H unido.
  exists unido. split; [done|]. split; [done|].
  pose proof (retenciones_pct_cero _ _ _ _ _ _ Heqo Heqo0 Heqo1 H1 H2 H3) as Hret.
  split.
  { apply (unir_y_validar_None df_ml df_odoo); try done.
    - by apply (leer_ml_None ml ml_valores).
    - by apply (leer_odoo_None odoo). }
  split; [done|].
  intros i q Hi Hq.
  pose proof (unir_y_validar_wf _ _ _ Heqo1) as Hwf.
  destruct (calcular_fila unido base incluir_impuestos tipo valor out i Hwf H Hi)
    as (_ & _ & Hfila).
  pose proof (proj1 (Forall_lookup _ _) Hfila 11%nat _ eq_refl) as Hp.
  pose proof (proj1 (Forall_lookup _ _) Hfila 8%nat _ eq_refl) as Hr.
  cbn [fst snd] in Hp, Hr.
  change (redondeo "Precio final" (Num ?x)) with (Num (round2 x)) in Hp.
  change (redondeo "Retenciones ML ($)" (Num ?x)) with (Num (round2 x)) in Hr.
  rewrite Hp in Hq. injection Hq as Hq.
  eexists. split; [exact Hr|].
  unfold solucion_fila in *. rewrite Hret in *.
  rewrite lookup_total_replicate_2 in * by done.
  by eapply retenciones_sin_porcentaje.
Qed.

Lemma retenciones_cero_witness :
  ∃ out,
    procesar (RT := Latin1.runtime) Ejemplo.ml Ejemplo.ml Ejemplo.odoo
      (ustr "tarifa") false (Some (ustr "Ninguno")) f0 = Some out
    ∧ es_cero (celda out "Retenciones ML ($)" 0).
Proof.
  destruct (procesar (RT := Latin1.runtime) Ejemplo.ml Ejemplo.ml Ejemplo.odoo
              (ustr "tarifa") false (Some (ustr "Ninguno")) f0)
    as [out|] eqn:E; [|by vm_compute in E].
  exists out. split; [reflexivity|].
  destruct (retenciones_cero (RT := Latin1.runtime) Ejemplo.ml Ejemplo.ml
              Ejemplo.odoo (ustr "tarifa") false (Some (ustr "Ninguno")) f0
              out E)
    as (unido & Hu & _ & _ & _ & Hcero); [reflexivity..|].
  assert ((nrows <$> leer_y_unir (RT := Latin1.runtime) Ejemplo.ml Ejemplo.ml
                       Ejemplo.odoo) = Some 2%nat) as Hn by (by vm_compute).
  rewrite Hu in Hn. injection Hn as Hn.
  assert (∃ q,
    (o ← procesar (RT := Latin1.runtime) Ejemplo.ml Ejemplo.ml Ejemplo.odoo
           (ustr "tarifa") false (Some (ustr "Ninguno")) f0;
     celda o "Precio final" 0) = Some (Num (Finite q))) as [q Hq]
    by (vm_compute; eexists; reflexivity).
  rewrite E in Hq. cbn [mbind option_bind] in Hq.
  apply (Hcero 0%nat q); [lia|exact Hq].
Defined.


(** * Further properties of the code *)

(** ** The tax of a product *)

Section Tax.
Context `{RT : Runtime}.

(** No decimal digit is white space, as in the Unicode character
    database. *)
Definition digits_apart : Prop :=
  ∀ c d, todecimal c = Some d → isspace c = false.

Lemma span_app (p : N → bool) (a b : pystr) :
  Forall (λ c, p c = true) a → head (p <$> b) ≠ Some true →
  span p (a ++ b) = (a, b).
Proof.
  intros Ha Hb. induction Ha as [|c a Hc _ IH]; simpl.
  - destruct b as [|c b]; [done|]. simpl in *.
    destruct (p c); [done|done].
  - by rewrite Hc, IH.
Qed.

Lemma span_all (p : N → bool) (a : pystr) :
  Forall (λ c, p c = true) a → span p a = (a, []).
Proof.
  intros Ha. rewrite <- (app_nil_r a) at 1. by apply span_app.
Qed.

Lemma is_decimal_ascii (c : N) :
  is_decimal c = true → (c < 128)%N → is_digit c = true.
Proof.
  unfold is_decimal, is_digit. destruct (todecimal c) as [d|] eqn:E; [|done].
  intros _ Hc. pose proof (todecimal_only_ascii _ _ Hc E).
  apply andb_true_iff. split; apply N.leb_le; lia.
Qed.

Lemma is_digit_decimal (c : N) : is_digit c = true → is_decimal c = true.
Proof.
  unfold is_decimal, is_digit.
  intros [H1%N.leb_le H2%N.leb_le]%andb_true_iff.
  by rewrite todecimal_ascii.
Qed.

(** The digit that [float] reads for a decimal character. *)
Lemma to_ascii_decimal (c : N) :
  digits_apart → is_decimal c = true → is_digit (to_ascii c) = true.
Proof.
  intros Hd Hc. unfold to_ascii.
  destruct (c <? 127)%N eqn:E.
  - apply N.ltb_lt in E. apply is_decimal_ascii; [done|lia].
  - unfold is_decimal in Hc. destruct (todecimal c) as [d|] eqn:Ed; [|done].
    rewrite (Hd _ _ Ed). pose proof (todecimal_digit _ _ Ed).
    unfold is_digit. apply andb_true_iff. split; apply N.leb_le; lia.
Qed.

(** The text that the pattern of the tax captures: digits, and perhaps a
    point and more digits. *)
Definition numeral (ip fp : pystr) : pystr :=
  ip ++ match fp with [] => [] | _ => chr_dot :: fp end.

Lemma match_tax_here_shape (text g : pystr) :
  match_tax_here text = Some g →
  ∃ ip fp, g = numeral ip fp ∧ ip ≠ []
           ∧ Forall (λ c, is_decimal c = true) ip
           ∧ Forall (λ c, is_decimal c = true) fp.
Proof.
  unfold match_tax_here.
  destruct (span is_decimal text) as [ip r] eqn:E.
  apply span_spec in E as [_ Hip].
  destruct ip as [|d ip]; [done|].
  destruct r as [|c r1].
  { simpl. done. }
  destruct (c =? chr_dot)%N eqn:Ec.
  - apply N.eqb_eq in Ec as ->.
    destruct (span is_decimal r1) as [fp r2] eqn:E2.
    apply span_spec in E2 as [_ Hfp].
    destruct fp as [|f fp].
    + destruct (lstrip_by isspace (chr_dot :: r1)) as [|x ?]; [done|].
      destruct (x =? chr_percent)%N; [|done]. intros [= <-].
      by exists (d :: ip), [].
    + destruct (lstrip_by isspace r2) as [|x ?]; [done|].
      destruct (x =? chr_percent)%N; [|done]. intros [= <-].
      by exists (d :: ip), (f :: fp).
  - destruct (lstrip_by isspace (c :: r1)) as [|x ?]; [done|].
    destruct (x =? chr_percent)%N; [|done]. intros [= <-].
    by exists (d :: ip), [].
Qed.

Lemma search_tax_shape (text g : pystr) :
  search_tax text = Some g →
  ∃ ip fp, g = numeral ip fp ∧ ip ≠ []
           ∧ Forall (λ c, is_decimal c = true) ip
           ∧ Forall (λ c, is_decimal c = true) fp.
Proof.
  induction text as [|x r IH]; cbn [search_tax].
  - destruct (match_tax_here []) eqn:E; [|done].
    intros [= <-]. by apply match_tax_here_shape in E.
  - destruct (match_tax_here (x :: r)) eqn:E; [|done].
    intros [= <-]. by apply match_tax_here_shape in E.
Qed.


Lemma filter_all {A} (P : A → Prop) `{!∀ x, Decision (P x)} (l : list A) :
  Forall P l → filter P l = l.
Proof.
  induction 1 as [|a l Ha _ IH]; [done|].
  by rewrite filter_cons_True, IH.
Qed.

Lemma lstrip_by_id (p : N → bool) (s : pystr) :
  Forall (λ c, p c = false) s → lstrip_by p s = s.
Proof. intros [|c r Hc _]; simpl; [done|]. by rewrite Hc. Qed.

Lemma strip_by_id (p : N → bool) (s : pystr) :
  Forall (λ c, p c = false) s → strip_by p s = s.
Proof.
  intros H. unfold strip_by, rstrip_by. rewrite (lstrip_by_id p s H).
  rewrite lstrip_by_id by (by apply Forall_reverse).
  apply reverse_involutive.
Qed.

Lemma underscores_ok_plain (prev : N) (s : pystr) :
  prev ≠ 95%N → Forall (λ c, c ≠ 95%N) s → underscores_ok prev s = true.
Proof.
  intros Hp Hs. revert prev Hp.
  induction Hs as [|c r Hc _ IH]; intros prev Hp; simpl.
  - by apply negb_true_iff, N.eqb_neq.
  - rewrite (proj2 (N.eqb_neq c 95) Hc), (proj2 (N.eqb_neq prev 95) Hp).
    simpl. by apply IH.
Qed.

Lemma is_digit_range (c : N) : is_digit c = true ↔ (48 <= c <= 57)%N.
Proof.
  unfold is_digit. rewrite andb_true_iff, !N.leb_le. done.
Qed.

Lemma isspace_digit (c : N) : is_digit c = true → isspace c = false.
Proof.
  intros Hc%is_digit_range.
  assert (c = 48 ∨ c = 49 ∨ c = 50 ∨ c = 51 ∨ c = 52 ∨ c = 53 ∨ c = 54
          ∨ c = 55 ∨ c = 56 ∨ c = 57)%N as H by lia.
  repeat (destruct H as [->|H]; [reflexivity|]). by subst.
Qed.

Lemma take_sign_digit (d : N) (r : pystr) :
  is_digit d = true → take_sign (d :: r) = (false, d :: r).
Proof.
  intros Hd%is_digit_range. unfold take_sign.
  destruct d as [|d]; [done|].
  do 6 (destruct d as [d|d|]; try done); lia.
Qed.

Lemma parse_special_digit (d : N) (r : pystr) :
  is_digit d = true → parse_special (d :: r) = None.
Proof.
  intros Hd%is_digit_range. unfold parse_special, pystr_eqb.
  assert (ascii_lower d = d) as Hl.
  { unfold ascii_lower.
    destruct (N.leb_spec 65 d), (N.leb_spec d 90); simpl; try done; lia. }
  cbn [map]. rewrite Hl.
  rewrite !bool_decide_eq_false_2; [done|..]; vm_compute; intros [= ->]; lia.
Qed.

(** The value of a numeral of ASCII digits. *)
Definition numeral_val (ip fp : pystr) : Q :=
  (inject_Z (digits_val (ip ++ fp)) * 10 ^ (0 - Z.of_nat (length fp)))%Q.

Lemma parse_decimal_numeral (ip fp : pystr) :
  ip ≠ [] →
  Forall (λ c, is_digit c = true) ip → Forall (λ c, is_digit c = true) fp →
  parse_decimal (numeral ip fp) = Some (numeral_val ip fp).
Proof.
  intros Hne Hip Hfp. unfold parse_decimal, numeral, numeral_val.
  destruct fp as [|f fp].
  - rewrite app_nil_r, (span_all _ _ Hip). simpl. rewrite app_nil_r.
    destruct ip; done.
  - rewrite (span_app _ _ _ Hip) by done.
    change chr_dot with 46%N. cbv iota beta.
    rewrite (span_all _ _ Hfp).
    destruct (ip ++ f :: fp) eqn:E; [by destruct ip|]. done.
Qed.

Lemma float_numeral_ascii (ip fp : pystr) :
  ip ≠ [] →
  Forall (λ c, is_digit c = true) ip → Forall (λ c, is_digit c = true) fp →
  let a := numeral ip fp in
  strip_by ascii_isspace a = a
  ∧ underscores_ok 0%N a = true
  ∧ filter (λ c, c ≠ 95%N) a = a
  ∧ take_sign a = (false, a)
  ∧ parse_special a = None.
Proof.
  intros Hne Hip Hfp a.
  assert (Forall (λ c, is_digit c = true ∨ c = chr_dot) a) as Ha.
  { subst a. unfold numeral. apply Forall_app. split.
    - eapply Forall_impl; [exact Hip|]. intros c Hc. by left.
    - destruct fp; [done|]. constructor; [by right|].
      eapply Forall_impl; [exact Hfp|]. intros c Hc. by left. }
  assert (Forall (λ c, ascii_isspace c = false ∧ c ≠ 95%N) a) as Hb.
  { eapply Forall_impl; [exact Ha|]. intros c [Hc%is_digit_range| ->].
    - split; [|lia]. unfold ascii_isspace.
      destruct (N.leb_spec 9 c), (N.leb_spec c 13), (N.eqb_spec c 32);
        simpl; try done; lia.
    - done. }
  split; [|split; [|split; [|split]]].
  - apply strip_by_id. eapply Forall_impl; [exact Hb|]. by intros c [? _].
  - apply underscores_ok_plain; [done|].
    eapply Forall_impl; [exact Hb|]. by intros c [_ ?].
  - apply filter_all. eapply Forall_impl; [exact Hb|]. by intros c [_ ?].
  - subst a. destruct ip as [|d ip]; [done|].
    apply Forall_cons in Hip as [Hd _]. by apply take_sign_digit.
  - subst a. destruct ip as [|d ip]; [done|].
    apply Forall_cons in Hip as [Hd _]. by apply parse_special_digit.
Qed.

(** [float] reads a numeral of decimal characters as its value. *)
Lemma py_float_numeral (ip fp : pystr) :
  digits_apart → ip ≠ [] →
  Forall (λ c, is_decimal c = true) ip → Forall (λ c, is_decimal c = true) fp →
  py_float (numeral ip fp)
  = Some (Finite (numeral_val (to_ascii <$> ip) (to_ascii <$> fp))).
Proof.
  intros Hd Hne Hip Hfp.
  assert (to_ascii <$> numeral ip fp
          = numeral (to_ascii <$> ip) (to_ascii <$> fp)) as Hmap.
  { unfold numeral. rewrite fmap_app. f_equal. by destruct fp. }
  assert (Forall (λ c, is_digit c = true) (to_ascii <$> ip)) as Hip'.
  { apply Forall_fmap. eapply Forall_impl; [exact Hip|].
    intros c Hc. by apply to_ascii_decimal. }
  assert (Forall (λ c, is_digit c = true) (to_ascii <$> fp)) as Hfp'.
  { apply Forall_fmap. eapply Forall_impl; [exact Hfp|].
    intros c Hc. by apply to_ascii_decimal. }
  assert (to_ascii <$> ip ≠ []) as Hne' by (by destruct ip).
  destruct (float_numeral_ascii _ _ Hne' Hip' Hfp') as (H1 & H2 & H3 & H4 & H5).
  unfold py_float.
  change (map to_ascii (numeral ip fp)) with (to_ascii <$> numeral ip fp).
  rewrite Hmap, H1, H2, H3, H4, H5.
  by rewrite parse_decimal_numeral.
Qed.

Lemma numeral_val_nonneg (ip fp : pystr) :
  Forall (λ c, is_digit c = true) ip → Forall (λ c, is_digit c = true) fp →
  (0 <= numeral_val ip fp)%Q.
Proof.
  intros Hip Hfp. unfold numeral_val. apply Qmult_le_0_compat.
  - assert (0 <= digits_val (ip ++ fp))
      by (apply digits_val_nonneg; by apply Forall_app).
    unfold Qle. simpl. lia.
  - by apply Qpower_0_le.
Qed.


(** The tax is read without an error and is a number that is not
    negative. *)
Lemma extract_tax_percentage_total (tax_text : cell) :
  digits_apart →
  ∃ q, extract_tax_percentage tax_text = Some (Finite q) ∧ (0 <= q)%Q.
Proof.
  intros Hd. unfold extract_tax_percentage.
  destruct (isna tax_text); [by exists 0%Q|].
  destruct (search_tax _) as [g|] eqn:E; [|by exists 0%Q].
  apply search_tax_shape in E as (ip & fp & -> & Hne & Hip & Hfp).
  rewrite py_float_numeral by done. cbn [mbind option_bind fdiv f100].
  rewrite Qzero_false by done.
  eexists. split; [reflexivity|].
  apply Qle_shift_div_l; [done|]. rewrite Qmult_0_l.
  apply numeral_val_nonneg; apply Forall_fmap;
    (eapply Forall_impl; [eassumption|]); intros c Hc;
    by apply to_ascii_decimal.
Qed.

Lemma lstrip_by_app_stop (p : N → bool) (a b : pystr) :
  head (p <$> b) = Some false → lstrip_by p (a ++ b) = lstrip_by p a ++ b.
Proof.
  intros Hb. induction a as [|c a IH]; simpl.
  - destruct b as [|x b]; [done|]. simpl in *. injection Hb as ->. done.
  - destruct (p c); [done|done].
Qed.

Lemma strip_by_ends (p : N → bool) (a : pystr) (d e : N) (m : pystr) :
  p d = false → p e = false →
  strip_by p (a ++ d :: m ++ [e]) = lstrip_by p a ++ d :: m ++ [e].
Proof.
  intros Hd He. unfold strip_by, rstrip_by.
  rewrite lstrip_by_app_stop by (simpl; by rewrite Hd).
  rewrite !reverse_app, !reverse_cons, !reverse_app. simpl.
  rewrite He, reverse_cons, !reverse_app, !reverse_involutive.
  by rewrite <- !app_assoc.
Qed.

Lemma search_tax_skip (pre rest : pystr) :
  Forall (λ c, is_decimal c = false) pre →
  search_tax (pre ++ rest) = search_tax rest.
Proof.
  induction 1 as [|x pre Hx _ IH]; [done|].
  cbn [app search_tax]. unfold match_tax_here at 1. simpl. by rewrite Hx.
Qed.

Lemma match_tax_here_integer (ds : pystr) :
  ds ≠ [] → Forall (λ c, is_digit c = true) ds →
  match_tax_here (ds ++ [chr_percent]) = Some ds.
Proof.
  intros Hne Hds. unfold match_tax_here.
  rewrite span_app.
  - destruct ds; [done|]. simpl. by rewrite app_nil_r.
  - eapply Forall_impl; [exact Hds|]. apply is_digit_decimal.
  - simpl. unfold is_decimal.
    destruct (todecimal chr_percent) eqn:E; [|done].
    apply todecimal_only_ascii in E; [|done]. unfold chr_percent in E. lia.
Qed.


Lemma match_tax_here_percent (text g : pystr) :
  match_tax_here text = Some g → chr_percent ∈ text.
Proof.
  unfold match_tax_here.
  destruct (span is_decimal text) as [ip r] eqn:E.
  apply span_spec in E as [-> _].
  destruct ip as [|d ip]; [done|].
  assert (∀ (r' g0 : pystr),
            (∀ c, c ∈ r' → c ∈ r) →
            match lstrip_by isspace r' with
            | [] => None
            | c :: _ => if (c =? chr_percent)%N then Some g0 else None
            end = Some g → chr_percent ∈ (d :: ip) ++ r) as Hgen.
  { intros r' g0 Hsub H.
    destruct (lstrip_by isspace r') as [|x l] eqn:El; [done|].
    destruct (N.eqb_spec x chr_percent) as [->|]; [|done].
    apply elem_of_app. right. apply Hsub.
    apply (elem_of_lstrip_by isspace). rewrite El. by left. }
  destruct r as [|c r1].
  { simpl. done. }
  destruct (c =? chr_dot)%N.
  - destruct (span is_decimal r1) as [fp r2] eqn:E2.
    apply span_spec in E2 as [-> _].
    destruct fp as [|f fp].
    + intros H. by apply (Hgen _ _ ltac:(done) H).
    + intros H. apply (Hgen r2 _ ltac:(intros x Hx; right; apply elem_of_app; by right) H).
  - intros H. by apply (Hgen _ _ ltac:(done) H).
Qed.

Lemma search_tax_percent (text g : pystr) :
  search_tax text = Some g → chr_percent ∈ text.
Proof.
  induction text as [|x r IH]; cbn [search_tax].
  - destruct (match_tax_here []) eqn:E; [|done].
    intros _. by apply match_tax_here_percent in E.
  - destruct (match_tax_here (x :: r)) eqn:E.
    + intros _. by apply match_tax_here_percent in E.
    + intros H. right. by apply IH.
Qed.

Lemma py_float_digits (ds : pystr) :
  ds ≠ [] → Forall (λ c, is_digit c = true) ds →
  py_float ds = Some (Finite (numeral_val ds [])).
Proof.
  intros Hne Hds.
  destruct (float_numeral_ascii ds [] Hne Hds ltac:(done))
    as (H1 & H2 & H3 & H4 & H5).
  pose proof (parse_decimal_numeral ds [] Hne Hds ltac:(done)) as H6.
  unfold numeral in *. rewrite app_nil_r in *.
  assert (map to_ascii ds = ds) as Hmap.
  { rewrite <- (list_fmap_id ds) at 2. apply Forall_fmap_ext.
    eapply Forall_impl; [exact Hds|]. intros c Hc%is_digit_range.
    unfold to_ascii. rewrite (proj2 (N.ltb_lt c 127)); [done|lia]. }
  unfold py_float. by rewrite Hmap, H1, H2, H3, H4, H5, H6.
Qed.

End Tax.

Lemma latin1_digits_apart : digits_apart (RT := Latin1.runtime).
Proof.
  intros c d. simpl. unfold Latin1.decimal.
  destruct (is_digit c) eqn:E; [|done]. intros _.
  by apply isspace_digit.
Qed.


(** X1. [extract_tax_percentage] never raises: whatever the cell, its
    result is a number that is not negative and is not NaN; it is zero for
    a missing value and for a text without a percent sign. *)
Theorem extract_tax_percentage_nonneg `{RT : Runtime} (tax_text : cell) :
  digits_apart →
  (∃ v, extract_tax_percentage tax_text = Some v ∧ nonneg v)
  ∧ (isna tax_text = true → extract_tax_percentage tax_text = Some f0)
  ∧ (chr_percent ∉ py_str tax_text →
     extract_tax_percentage tax_text = Some f0).
Proof.
  intros Hd. split.
  { destruct (extract_tax_percentage_total tax_text Hd) as (q & -> & Hq).
    exists (Finite q). split; [done|]. by apply Qleb_iff. }
  unfold extract_tax_percentage. split; [by intros ->|].
  intros Hno. destruct (isna tax_text); [done|].
  destruct (search_tax _) as [g|] eqn:E; [|done].
  apply search_tax_percent in E. exfalso. apply Hno.
  by apply elem_of_strip_by in E.
Qed.

Lemma extract_tax_percentage_nonneg_witness :
  ∃ v, extract_tax_percentage (RT := Latin1.runtime)
         (Str (ustr "Exento 10.5 %")) = Some v
       ∧ nonneg v.
Proof.
  apply (extract_tax_percentage_nonneg (RT := Latin1.runtime)
           (Str (ustr "Exento 10.5 %")) latin1_digits_apart).
Defined.

(** X2. A text without digits, then an integer in ASCII digits and a
    percent sign, gives the hundredth of the integer: "IVA Ventas 21%"
    gives 0.21. *)
Theorem extract_tax_percentage_integer `{RT : Runtime} (pre ds : pystr) :
  Forall (λ c, is_decimal c = false) pre →
  ds ≠ [] → Forall (λ c, is_digit c = true) ds →
  ∃ q, extract_tax_percentage (Str (pre ++ ds ++ [chr_percent]))
       = Some (Finite q)
       ∧ (q == inject_Z (digits_val ds) / 100)%Q.
Proof.
  intros Hpre Hne Hds. unfold extract_tax_percentage. cbn [isna py_str].
  destruct ds as [|d m]; [done|].
  assert (is_digit d = true) as Hd by (by apply Forall_cons in Hds as [? _]).
  unfold strip. cbn [app]. rewrite strip_by_ends; [| |done].
  2:{ by apply isspace_digit. }
  rewrite search_tax_skip.
  2:{ apply Forall_forall. intros c Hc%elem_of_lstrip_by.
      rewrite Forall_forall in Hpre. by apply Hpre. }
  change (d :: m ++ [chr_percent]) with ((d :: m) ++ [chr_percent]).
  cbn [search_tax app].
  change (d :: m ++ [chr_percent]) with ((d :: m) ++ [chr_percent]).
  rewrite match_tax_here_integer by done.
  rewrite py_float_digits by done. cbn [mbind option_bind fdiv f100].
  rewrite Qzero_false by done.
  eexists. split; [reflexivity|].
  unfold numeral_val. rewrite app_nil_r. simpl (0 - _)%Z.
  change (10 ^ 0)%Q with 1%Q. by rewrite Qmult_1_r.
Qed.

Lemma extract_tax_percentage_integer_witness :
  ∃ q, extract_tax_percentage (RT := Latin1.runtime)
         (Str (ustr "IVA Ventas 21%")) = Some (Finite q)
       ∧ (q == 0.21)%Q.
Proof.
  destruct (extract_tax_percentage_integer (RT := Latin1.runtime)
              (ustr "IVA Ventas ") (ustr "21"))
    as (q & Hq & Hv).
  - apply (bool_decide_unpack _). by vm_compute.
  - done.
  - apply (bool_decide_unpack _). by vm_compute.
  - exists q. split; [exact Hq|]. rewrite Hv. by vm_compute.
Defined.

(** ** Rows kept by a mask *)

Section Select.
Context {A B C : Type}.
Implicit Types (m : list bool).

Lemma select_nil_l (s : list A) : select [] s = [].
Proof. done. Qed.

Lemma select_nil_r m : select m ([] : list A) = [].
Proof. by destruct m. Qed.

Lemma select_cons (b : bool) m (x : A) (s : list A) :
  select (b :: m) (x :: s) = if b then x :: select m s else select m s.
Proof.
  unfold select. simpl. destruct b.
  - by rewrite filter_cons_True.
  - by rewrite filter_cons_False.
Qed.

(** The number of rows that a mask keeps. *)
Definition cuenta m : nat := length (filter (λ b : bool, b = true) m).

Lemma cuenta_cons (b : bool) m :
  cuenta (b :: m) = if b then S (cuenta m) else cuenta m.
Proof.
  unfold cuenta. destruct b.
  - by rewrite filter_cons_True.
  - by rewrite filter_cons_False.
Qed.

Lemma select_length m (s : list A) :
  length s = length m → length (select m s) = cuenta m.
Proof.
  revert s. induction m as [|b m IH]; intros [|x s] Hlen; try done.
  rewrite select_cons, cuenta_cons. injection Hlen as Hlen.
  destruct b; simpl; by rewrite IH.
Qed.

Lemma cuenta_le m : (cuenta m ≤ length m)%nat.
Proof.
  induction m as [|b m IH]; [done|]. rewrite cuenta_cons.
  destruct b; simpl; lia.
Qed.

Lemma select_all (s : list A) : select (replicate (length s) true) s = s.
Proof.
  induction s as [|x s IH]; [done|]. simpl. by rewrite select_cons, IH.
Qed.

Lemma cuenta_all (k : nat) : cuenta (replicate k true) = k.
Proof.
  induction k as [|k IH]; [done|]. simpl. by rewrite cuenta_cons, IH.
Qed.

End Select.

Lemma select_zip_with {A B C} (f : A → B → C) (m : list bool)
    (a : list A) (b : list B) :
  length a = length b →
  select m (zip_with f a b) = zip_with f (select m a) (select m b).
Proof.
  revert a b. induction m as [|x m IH]; intros [|u a] [|v b] Hlen; try done.
  injection Hlen as Hlen. cbn [zip_with]. rewrite !select_cons.
  destruct x; simpl; by rewrite IH.
Qed.

Lemma select_self (m : list bool) : select m m = replicate (cuenta m) true.
Proof.
  induction m as [|b m IH]; [done|]. rewrite select_cons, cuenta_cons.
  destruct b; simpl; by rewrite IH.
Qed.

(** ** Cleaning of the listings *)

Section Clean.
Context `{RT : Runtime}.

(** The test that a row of the listings passes. *)
Definition fila_valida (item_id sku : cell) : bool :=
  negb (isna item_id) && startswith (ustr "ML") (py_str item_id)
  && negb (isna sku) && negb (pystr_eqb (strip (py_str sku)) []).

Lemma clean_ml_data_inv (df d : DataFrame) :
  wf df → clean_ml_data df = Some d →
  ∃ item_id sku,
    columns df !! "ITEM_ID" = Some item_id
    ∧ columns df !! "SKU" = Some sku
    ∧ let mask := zip_with fila_valida item_id sku in
      length mask = nrows df
      ∧ nrows d = cuenta mask
      ∧ columns d = select mask <$> columns df.
Proof.
  intros Hwf H. unfold clean_ml_data in H.
  bind_inv H item_id. bind_inv H sku. injection H as <-.
  exists item_id, sku. split; [done|]. split; [done|].
  pose proof (Hwf _ _ Heqo) as H1. pose proof (Hwf _ _ Heqo0) as H2.
  assert (length (zip_with fila_valida item_id sku) = nrows df) as Hlen
    by (rewrite length_zip_with; lia).
  split; [done|]. split; [|done].
  unfold filter_rows. cbn [nrows].
  change (zip_with _ item_id sku) with (zip_with fila_valida item_id sku).
  by rewrite <- Hlen, firstn_all.
Qed.

Lemma clean_ml_data_wf (df d : DataFrame) :
  wf df → clean_ml_data df = Some d → wf d.
Proof.
  intros Hwf H.
  destruct (clean_ml_data_inv _ _ Hwf H) as (a & b & _ & _ & Hlen & Hn & Hc).
  intros c s. rewrite Hc, lookup_fmap. intros Hs.
  apply fmap_Some in Hs as (s' & Hs' & ->).
  rewrite select_length, Hn; [done|]. rewrite Hlen. by apply (Hwf c).
Qed.

Lemma clean_ml_data_rows (df d : DataFrame) (i : nat) (x s : cell) :
  wf df → clean_ml_data df = Some d →
  celda d "ITEM_ID" i = Some x → celda d "SKU" i = Some s →
  fila_valida x s = true.
Proof.
  intros Hwf H.
  destruct (clean_ml_data_inv _ _ Hwf H) as (a & b & Ha & Hb & Hlen & Hn & Hc).
  unfold celda. rewrite Hc, !lookup_fmap, Ha, Hb. simpl. intros Hx Hs.
  assert (length a = length b) as Hab
    by (rewrite (Hwf _ _ Ha), (Hwf _ _ Hb); done).
  pose proof (select_self (zip_with fila_valida a b)) as Hself.
  rewrite select_zip_with in Hself at 1 by done.
  apply (f_equal (λ l, l !! i)) in Hself.
  rewrite lookup_zip_with, Hx, Hs in Hself. simpl in Hself.
  symmetry in Hself. apply lookup_replicate in Hself as [Hself _].
  done.
Qed.

Lemma fila_valida_spec (x s : cell) :
  fila_valida x s = true →
  isna x = false ∧ startswith (ustr "ML") (py_str x) = true
  ∧ isna s = false ∧ strip (py_str s) ≠ [].
Proof.
  unfold fila_valida. intros Hv.
  apply andb_true_iff in Hv as [Hv H4]. apply andb_true_iff in Hv as [Hv H3].
  apply andb_true_iff in Hv as [H1 H2].
  apply negb_true_iff in H1, H3, H4.
  repeat split; try done.
  unfold pystr_eqb in H4. by apply bool_decide_eq_false in H4.
Qed.

Lemma clean_ml_data_idem (df d : DataFrame) :
  wf df → clean_ml_data df = Some d → clean_ml_data d = Some d.
Proof.
  intros Hwf H.
  destruct (clean_ml_data_inv _ _ Hwf H) as (a & b & Ha & Hb & Hlen & Hn & Hc).
  assert (length a = length b) as Hab
    by (rewrite (Hwf _ _ Ha), (Hwf _ _ Hb); done).
  set (mask := zip_with fila_valida a b) in *.
  unfold clean_ml_data. rewrite Hc, !lookup_fmap, Ha, Hb.
  cbn [fmap option_fmap option_map mbind option_bind].
  change (zip_with _ (select mask a) (select mask b))
    with (zip_with fila_valida (select mask a) (select mask b)).
  rewrite <- select_zip_with by done. fold mask. rewrite select_self.
  f_equal. destruct d as [n cols]. simpl in *. subst n cols.
  unfold filter_rows. cbn [nrows columns]. f_equal.
  - rewrite firstn_all2 by (by rewrite length_replicate).
    apply cuenta_all.
  - apply map_eq. intros c. rewrite !lookup_fmap.
    destruct (columns df !! c) as [s|] eqn:E; [|done]. simpl. f_equal.
    rewrite <- (select_length mask s) by (rewrite Hlen; by apply (Hwf c)).
    apply select_all.
Qed.

End Clean.

(** X3. [clean_ml_data] keeps rows that pass its test and nothing else:
    in the frame it returns, every row has an item identifier that is not
    missing and starts with "ML" and a SKU that is not missing nor blank;
    the frame is well formed and has no more rows than the frame given;
    and a result means that the frame given had both columns. *)
Theorem clean_ml_data_filas `{RT : Runtime} (df d : DataFrame) :
  wf df → clean_ml_data df = Some d →
  wf d
  ∧ (nrows d ≤ nrows df)%nat
  ∧ (∀ (i : nat) (x s : cell),
       celda d "ITEM_ID" i = Some x → celda d "SKU" i = Some s →
       isna x = false ∧ startswith (ustr "ML") (py_str x) = true
       ∧ isna s = false ∧ strip (py_str s) ≠ [])
  ∧ is_Some (columns df !! "ITEM_ID") ∧ is_Some (columns df !! "SKU").
Proof.
  intros Hwf H. split; [by apply (clean_ml_data_wf df)|].
  destruct (clean_ml_data_inv _ _ Hwf H) as (a & b & Ha & Hb & Hlen & Hn & Hc).
  split; [rewrite Hn, <- Hlen; apply cuenta_le|].
  split; [|by rewrite Ha, Hb].
  intros i x s Hx Hs. apply fila_valida_spec.
  by apply (clean_ml_data_rows df d i).
Qed.

Lemma clean_ml_data_filas_witness :
  ∃ d, clean_ml_data (RT := Latin1.runtime) Ejemplo.ml = Some d
       ∧ wf d ∧ (nrows d ≤ 2)%nat.
Proof.
  destruct (clean_ml_data (RT := Latin1.runtime) Ejemplo.ml) as [d|] eqn:E;
    [|by vm_compute in E].
  exists d. split; [reflexivity|].
  assert (wf Ejemplo.ml) as Hwf by (apply wf_bool; by vm_compute).
  destruct (clean_ml_data_filas (RT := Latin1.runtime) Ejemplo.ml d Hwf E)
    as (H1 & H2 & _).
  split; [exact H1|exact H2].
Defined.

(** X4. Cleaning is idempotent: the frame that [clean_ml_data] returns is
    returned as it is when it is cleaned again. *)
Theorem clean_ml_data_idempotente `{RT : Runtime} (df d : DataFrame) :
  wf df → clean_ml_data df = Some d → clean_ml_data d = Some d.
Proof. apply clean_ml_data_idem. Qed.

Lemma clean_ml_data_idempotente_witness :
  ∃ d, clean_ml_data (RT := Latin1.runtime) Ejemplo.ml = Some d
       ∧ clean_ml_data (RT := Latin1.runtime) d = Some d.
Proof.
  destruct (clean_ml_data (RT := Latin1.runtime) Ejemplo.ml) as [d|] eqn:E;
    [|by vm_compute in E].
  exists d. split; [reflexivity|].
  assert (wf Ejemplo.ml) as Hwf by (apply wf_bool; by vm_compute).
  exact (clean_ml_data_idempotente (RT := Latin1.runtime) Ejemplo.ml d Hwf E).
Defined.

(** ** The check of the columns *)

Section Validate.

Lemma filter_nil_Forall {A} (P : A → Prop) `{!∀ x, Decision (P x)}
    (l : list A) :
  filter P l = [] ↔ Forall (λ x, ¬ P x) l.
Proof.
  induction l as [|a l IH]; [done|].
  destruct (decide (P a)) as [Ha|Ha].
  - rewrite filter_cons_True by done. split; [done|].
    intros [? _]%Forall_cons. done.
  - rewrite filter_cons_False by done. rewrite IH, Forall_cons. tauto.
Qed.

(** No required column is missing. *)
Lemma missing_cols_nil (df : DataFrame) (L : list string) :
  bool_decide (filter (λ col, has_column df col = false) L = []) = true
  ↔ Forall (λ c, is_Some (columns df !! c)) L.
Proof.
  rewrite bool_decide_eq_true, filter_nil_Forall.
  apply Forall_iff. intros c. unfold has_column.
  case_bool_decide as E.
  - split; [done|]. intros _ ?. done.
  - split; [|done]. intros H. by destruct H.
Qed.

(** The columns that a sheet of listings must have, but for the shipping
    column. *)
Definition fijas_ml : list string :=
  ["ITEM_ID"; "SKU"; "TITLE"; "QUANTITY"; "PRICE"; "CURRENCY_ID";
   "FEE_PER_SALE_MARKETPLACE_V2"; "COST_OF_FINANCING_MARKETPLACE";
   "LISTING_TYPE_V3"]%string.

(** The frame after the check of a sheet of listings: the shipping column
    has its label with the blank at the end. *)
Definition con_envio (df : DataFrame) : DataFrame :=
  (validate_excel_structure df "ml").1.

Lemma con_envio_cases (df : DataFrame) :
  (is_Some (columns df !! "SHIPPING_METHOD ") ∧ con_envio df = df)
  ∨ (columns df !! "SHIPPING_METHOD " = None
     ∧ ∃ s, columns df !! "SHIPPING_METHOD" = Some s
            ∧ con_envio df
              = {| nrows := nrows df;
                   columns := <["SHIPPING_METHOD "%string := s]>
                                (delete "SHIPPING_METHOD"%string (columns df)) |})
  ∨ (columns df !! "SHIPPING_METHOD " = None
     ∧ columns df !! "SHIPPING_METHOD" = None ∧ con_envio df = df).
Proof.
  unfold con_envio, validate_excel_structure. cbn [String.eqb Ascii.eqb Bool.eqb
    fst].
  unfold has_column.
  destruct (columns df !! "SHIPPING_METHOD ") as [s1|] eqn:E1.
  { left. rewrite bool_decide_eq_true_2 by eauto. eauto. }
  rewrite bool_decide_eq_false_2 by (by intros [? ?]).
  destruct (columns df !! "SHIPPING_METHOD") as [s2|] eqn:E2.
  - right. left. split; [done|]. exists s2. split; [done|].
    rewrite bool_decide_eq_true_2 by eauto.
    unfold rename_column. by rewrite E2.
  - right. right. rewrite bool_decide_eq_false_2 by (by intros [? ?]). done.
Qed.

Lemma con_envio_nrows (df : DataFrame) : nrows (con_envio df) = nrows df.
Proof.
  destruct (con_envio_cases df) as [[_ ->]|[(_ & s & _ & ->)|(_ & _ & ->)]];
    done.
Qed.

Lemma con_envio_lookup (df : DataFrame) (c : string) :
  c ≠ "SHIPPING_METHOD "%string → c ≠ "SHIPPING_METHOD"%string →
  columns (con_envio df) !! c = columns df !! c.
Proof.
  intros H1 H2.
  destruct (con_envio_cases df) as [[_ ->]|[(_ & s & _ & ->)|(_ & _ & ->)]];
    try done.
  simpl. rewrite lookup_insert_ne by done. by rewrite lookup_delete_ne.
Qed.

Lemma con_envio_shipping (df : DataFrame) :
  columns (con_envio df) !! "SHIPPING_METHOD "
  = match columns df !! "SHIPPING_METHOD " with
    | Some s => Some s
    | None => columns df !! "SHIPPING_METHOD"
    end.
Proof.
  destruct (con_envio_cases df)
    as [[[s Hs] ->]|[(H1 & s & H2 & ->)|(H1 & H2 & ->)]].
  - by rewrite Hs.
  - simpl. by rewrite lookup_insert_eq, H1, H2.
  - by rewrite H1, H2.
Qed.

Lemma con_envio_wf (df : DataFrame) : wf df → wf (con_envio df).
Proof.
  intros Hwf.
  destruct (con_envio_cases df) as [[_ ->]|[(_ & s & Hs & ->)|(_ & _ & ->)]];
    try done.
  intros c t. simpl.
  destruct (decide (c = "SHIPPING_METHOD "%string)) as [->|Hne].
  - rewrite lookup_insert_eq. intros [= <-]. by apply (Hwf _ _ Hs).
  - rewrite lookup_insert_ne by done.
    intros Ht%lookup_delete_Some. by apply (Hwf c), Ht.
Qed.

Lemma validate_ml_eq (df : DataFrame) :
  validate_excel_structure df "ml"
  = (con_envio df,
     bool_decide (filter (λ col, has_column (con_envio df) col = false)
                    required_cols_ml = [])).
Proof. reflexivity. Qed.

Lemma validate_ml_valid (df : DataFrame) :
  (validate_excel_structure df "ml").2 = true
  ↔ Forall (λ c, is_Some (columns (con_envio df) !! c)) required_cols_ml.
Proof. rewrite validate_ml_eq. cbn [snd]. apply missing_cols_nil. Qed.

End Validate.

(** X5. The check of the columns accepts a sheet of listings exactly
    when it has the nine fixed columns and a shipping column under either
    of its two spellings; the frame it hands on has the shipping column
    under the label with the blank, and its other columns and its rows
    are those of the sheet. A sheet of products is accepted exactly when
    it has its five columns, and is handed on as it is; any other kind of
    file is refused. *)
Theorem validate_excel_structure_columnas (df : DataFrame) :
  ((validate_excel_structure df "ml").2 = true
   ↔ Forall (λ c, is_Some (columns df !! c)) fijas_ml
     ∧ (is_Some (columns df !! "SHIPPING_METHOD ")
        ∨ is_Some (columns df !! "SHIPPING_METHOD")))
  ∧ (let df' := (validate_excel_structure df "ml").1 in
     nrows df' = nrows df
     ∧ columns df' !! "SHIPPING_METHOD "
       = match columns df !! "SHIPPING_METHOD " with
         | Some s => Some s
         | None => columns df !! "SHIPPING_METHOD"
         end
     ∧ ∀ c, c ≠ "SHIPPING_METHOD "%string → c ≠ "SHIPPING_METHOD"%string →
            columns df' !! c = columns df !! c)
  ∧ validate_excel_structure df "odoo"
    = (df, bool_decide (Forall (λ c, is_Some (columns df !! c))
                          required_cols_odoo))
  ∧ (∀ file_type : string,
       file_type ≠ "ml"%string → file_type ≠ "odoo"%string →
       validate_excel_structure df file_type = (df, false)).
Proof.
  split; [|split; [|split]].
  - rewrite validate_ml_valid.
    change required_cols_ml with (fijas_ml ++ ["SHIPPING_METHOD "%string]).
    rewrite Forall_app, Forall_singleton, con_envio_shipping.
    assert (Forall (λ c, is_Some (columns (con_envio df) !! c)) fijas_ml
            ↔ Forall (λ c, is_Some (columns df !! c)) fijas_ml) as ->.
    { assert (Forall (λ c, c ≠ "SHIPPING_METHOD "%string
                           ∧ c ≠ "SHIPPING_METHOD"%string) fijas_ml) as Hne
        by (repeat constructor; done).
      rewrite Forall_forall in Hne. rewrite !Forall_forall.
      split; intros H c Hc; specialize (H c Hc);
        destruct (Hne c Hc) as [H1 H2];
        by rewrite con_envio_lookup in * by done. }
    destruct (columns df !! "SHIPPING_METHOD ") as [s|].
    + split; [intros [? _]; split; [done|left; eauto]|intros [? _]; eauto].
    + split; [intros [? ?]; split; [done|by right]|].
      intros [? [[? ?]|?]]; done.
  - split; [apply con_envio_nrows|]. split; [apply con_envio_shipping|].
    apply con_envio_lookup.
  - unfold validate_excel_structure. cbn [String.eqb Ascii.eqb Bool.eqb].
    f_equal. apply bool_decide_ext.
    rewrite <- missing_cols_nil. by rewrite bool_decide_eq_true.
  - intros t H1 H2. unfold validate_excel_structure.
    rewrite (proj2 (String.eqb_neq _ _) H1), (proj2 (String.eqb_neq _ _) H2).
    done.
Qed.

(** ** More on the solver *)

Section SolverBounds.
Local Open Scope Q_scope.

(** The solver on rationals whose percentages leave a positive share. *)
Lemma solver_values (t pc pf pr cf : Q) :
  pc + pf + pr < 1 →
  ∃ p c f r n,
    calcular_precio_publicacion_ml (Finite t) (Finite pc) (Finite pf)
      (Finite pr) (Finite cf)
    = {| precio_publicacion := Finite p; cargo_por_vender := Finite c;
         costo_por_ofrecer_cuotas := Finite f; retenciones := Finite r;
         recibis := Finite n; denominador_invalido := false |}
    ∧ p == (t + cf) / (1 - (pc + pf + pr))
    ∧ c == p * pc + cf ∧ f == p * pf ∧ r == p * pr
    ∧ n == p - (c + f + r).
Proof.
  intros Hlt. unfold calcular_precio_publicacion_ml.
  destruct (or_zero_finite t) as (t' & -> & Ht).
  destruct (or_zero_finite pc) as (pc' & -> & Hpc).
  destruct (or_zero_finite pf) as (pf' & -> & Hpf).
  destruct (or_zero_finite pr) as (pr' & -> & Hpr).
  destruct (or_zero_finite cf) as (cf' & -> & Hcf).
  cbn [fadd fsub fneg fleb f0 f1].
  rewrite (proj2 (Qleb_false _ _)) by lra.
  cbn [fdiv]. rewrite Qzero_false by lra.
  cbn [fmul fadd fsub fneg].
  eexists _, _, _, _, _. split; [reflexivity|].
  rewrite Ht, Hcf, Hpc, Hpf, Hpr. unfold Qminus.
  repeat split; reflexivity.
Qed.


Lemma solver_nan_pct (t pc pf pr cf : pyfloat) :
  pc = NaN ∨ pf = NaN ∨ pr = NaN →
  let s := calcular_precio_publicacion_ml t pc pf pr cf in
  denominador_invalido s = false ∧ precio_publicacion s = NaN
  ∧ cargo_por_vender s = NaN ∧ costo_por_ofrecer_cuotas s = NaN
  ∧ retenciones s = NaN ∧ recibis s = NaN.
Proof.
  intros H. unfold calcular_precio_publicacion_ml.
  assert (fadd (fadd (or_zero pc) (or_zero pf)) (or_zero pr) = NaN) as ->.
  { destruct H as [->|[->| ->]]; cbn [or_zero truthy feqb negb].
    - done.
    - by destruct (or_zero pc).
    - by destruct (fadd (or_zero pc) (or_zero pf)). }
  cbn [fsub fneg fadd f1 fleb].
  assert (∀ x, fdiv x NaN = NaN) as Hdiv by (by intros [| |]).
  rewrite Hdiv. cbn [fmul fadd fsub fneg]. done.
Qed.

(** With numbers for percentages, the test of the denominator passes
    exactly when they add up to less than one. *)
Lemma solver_valido (t pc pf pr cf : Q) :
  denominador_invalido
    (calcular_precio_publicacion_ml (Finite t) (Finite pc) (Finite pf)
       (Finite pr) (Finite cf)) = false →
  pc + pf + pr < 1.
Proof.
  unfold calcular_precio_publicacion_ml.
  destruct (or_zero_finite t) as (t' & -> & Ht).
  destruct (or_zero_finite pc) as (pc' & -> & Hpc).
  destruct (or_zero_finite pf) as (pf' & -> & Hpf).
  destruct (or_zero_finite pr) as (pr' & -> & Hpr).
  destruct (or_zero_finite cf) as (cf' & -> & Hcf).
  cbn [fadd fsub fneg fleb f0 f1].
  destruct (Qleb _ _) eqn:E; [done|]. intros _.
  apply Qleb_false in E. rewrite <- Hpc, <- Hpf, <- Hpr. lra.
Qed.

End SolverBounds.

(** X6. Bounds of the solver: with a net target, percentages and a fixed
    charge that are not negative, when the solver accepts the percentages
    and its price is finite, the price is at least the net target plus
    the fixed charge, the commission charge is at least the fixed charge,
    and the other two charges are not negative. *)
Theorem solver_cotas (t pc pf pr cf p : Q) :
  (0 <= t)%Q → (0 <= pc)%Q → (0 <= pf)%Q → (0 <= pr)%Q → (0 <= cf)%Q →
  let s := calcular_precio_publicacion_ml (Finite t) (Finite pc) (Finite pf)
             (Finite pr) (Finite cf) in
  denominador_invalido s = false → precio_publicacion s = Finite p →
  fleb (fadd (Finite t) (Finite cf)) (precio_publicacion s) = true
  ∧ fleb (Finite cf) (cargo_por_vender s) = true
  ∧ nonneg (costo_por_ofrecer_cuotas s) ∧ nonneg (retenciones s).
Proof.
  intros Ht Hpc Hpf Hpr Hcf s Hval _. subst s.
  pose proof (solver_valido _ _ _ _ _ Hval) as Hlt.
  destruct (solver_values t pc pf pr cf Hlt)
    as (p' & c & f & r & n & -> & Hp & Hc & Hf & Hr & _).
  cbn.
  assert (p' * (1 - (pc + pf + pr)) == t + cf)%Q as Hd
    by (rewrite Hp; field; lra).
  assert (0 <= p')%Q as Hp0.
  { rewrite Hp. apply Qle_shift_div_l; lra. }
  pose proof (Qmult_le_0_compat _ _ Hp0 Hpc).
  pose proof (Qmult_le_0_compat _ _ Hp0 Hpf).
  pose proof (Qmult_le_0_compat _ _ Hp0 Hpr).
  unfold nonneg. cbn. rewrite !Qleb_iff. repeat split; lra.
Qed.

Lemma solver_cotas_witness :
  let s := calcular_precio_publicacion_ml (Finite 12513.10) (Finite 0.145)
             (Finite 0.04) (Finite 0.01) (Finite 2190) in
  fleb (fadd (Finite 12513.10) (Finite 2190)) (precio_publicacion s) = true
  ∧ fleb (Finite 2190) (cargo_por_vender s) = true
  ∧ nonneg (costo_por_ofrecer_cuotas s) ∧ nonneg (retenciones s).
Proof.
  eapply (solver_cotas 12513.10 0.145 0.04 0.01 2190);
    first [ unfold Qle; simpl; lia | vm_compute; reflexivity ].
Defined.

(** X7. A percentage that is NaN escapes the test of the denominator:
    the solver does not report a failure, and its five amounts are NaN. *)
Theorem solver_nan (t pc pf pr cf : pyfloat) :
  pc = NaN ∨ pf = NaN ∨ pr = NaN →
  let s := calcular_precio_publicacion_ml t pc pf pr cf in
  denominador_invalido s = false ∧ precio_publicacion s = NaN
  ∧ cargo_por_vender s = NaN ∧ costo_por_ofrecer_cuotas s = NaN
  ∧ retenciones s = NaN ∧ recibis s = NaN.
Proof. apply solver_nan_pct. Qed.

Lemma solver_nan_witness :
  let s := calcular_precio_publicacion_ml (Finite 18500) (Finite 0.145) NaN
             f0 (Finite 1095) in
  denominador_invalido s = false ∧ precio_publicacion s = NaN
  ∧ cargo_por_vender s = NaN ∧ costo_por_ofrecer_cuotas s = NaN
  ∧ retenciones s = NaN ∧ recibis s = NaN.
Proof.
  apply (solver_nan (Finite 18500) (Finite 0.145) NaN f0 (Finite 1095)).
  right. left. reflexivity.
Defined.

(** X8. The price grows with the net target: with the same percentages,
    adding up to less than one, and the same fixed charge, a net target
    that is not lower gives a price that is not lower. *)
Theorem solver_monotono (t t' pc pf pr cf : Q) :
  (pc + pf + pr < 1)%Q → (t <= t')%Q →
  ∃ p p',
    precio_publicacion
      (calcular_precio_publicacion_ml (Finite t) (Finite pc) (Finite pf)
         (Finite pr) (Finite cf)) = Finite p
    ∧ precio_publicacion
        (calcular_precio_publicacion_ml (Finite t') (Finite pc) (Finite pf)
           (Finite pr) (Finite cf)) = Finite p'
    ∧ (p <= p')%Q.
Proof.
  intros Hlt Hle.
  destruct (solver_values t pc pf pr cf Hlt) as (p & ? & ? & ? & ? & -> & Hp & _).
  destruct (solver_values t' pc pf pr cf Hlt)
    as (p' & ? & ? & ? & ? & -> & Hp' & _).
  exists p, p'. split; [done|]. split; [done|].
  rewrite Hp, Hp'. unfold Qdiv. apply Qmult_le_compat_r; [lra|].
  apply Qinv_le_0_compat. lra.
Qed.

Lemma solver_monotono_witness :
  ∃ p p',
    precio_publicacion
      (calcular_precio_publicacion_ml (Finite 18500) (Finite 0.145)
         (Finite 0.04) (Finite 0) (Finite 1095)) = Finite p
    ∧ precio_publicacion
        (calcular_precio_publicacion_ml (Finite 18650) (Finite 0.145)
           (Finite 0.04) (Finite 0) (Finite 1095)) = Finite p'
    ∧ (p <= p')%Q.
Proof.
  apply (solver_monotono 18500 18650 0.145 0.04 0 1095);
    unfold Qle, Qlt; simpl; lia.
Defined.

(** ** The two parts of a fee *)

Section FeeParts.
Context `{RT : Runtime}.

Lemma search_pct_percent (text g : pystr) :
  search_pct text = Some g → chr_percent ∈ text.
Proof.
  induction text as [|x r IH]; cbn [search_pct].
  - done.
  - destruct (match_pct_here (x :: r)) as [g'|] eqn:E.
    + intros _. unfold match_pct_here in E.
      destruct (span in_number_class (x :: r)) as [run rest] eqn:Es.
      apply span_spec in Es as [-> _].
      destruct run; [done|].
      destruct (lstrip_by isspace rest) as [|c l] eqn:El; [done|].
      destruct (N.eqb_spec c chr_percent) as [->|]; [|done].
      apply elem_of_app. right. apply (elem_of_lstrip_by isspace).
      rewrite El. by left.
    + intros H. right. by apply IH.
Qed.

Lemma search_fixed_dollar (text g : pystr) :
  search_fixed text = Some g → chr_dollar ∈ text.
Proof.
  induction text as [|x r IH]; cbn [search_fixed].
  - done.
  - destruct (match_fixed_here (x :: r)) as [g'|] eqn:E.
    + intros _. unfold match_fixed_here in E.
      destruct (N.eqb_spec x chr_dollar) as [->|]; [by left|done].
    + intros H. right. by apply IH.
Qed.

Lemma parse_fee_combo_parts (text : cell) :
  (chr_percent ∉ py_str text → (parse_fee_combo text).1 = f0)
  ∧ (chr_dollar ∉ py_str text → (parse_fee_combo text).2 = f0).
Proof.
  unfold parse_fee_combo.
  destruct (isna text); [done|].
  pose proof (elem_of_strip_by isspace (py_str text)) as Hsub.
  fold (strip (py_str text)) in Hsub.
  destruct (strip (py_str text)) as [|c0 r0]; [done|].
  cbv beta iota zeta. revert Hsub. generalize (c0 :: r0). intros t Hsub.
  cbn [fst snd]. split; intros Hno.
  - destruct (search_pct t) as [g|] eqn:E; [|done].
    apply search_pct_percent in E. exfalso. by apply Hno, Hsub.
  - destruct (search_fixed t) as [g|] eqn:E; [|done].
    apply search_fixed_dollar in E. exfalso. by apply Hno, Hsub.
Qed.

End FeeParts.

(** X9. The two parts of a fee are read apart: a text without a percent
    sign has a percentage of zero, and a text without a currency sign has
    a fixed charge of zero. *)
Theorem parse_fee_combo_partes `{RT : Runtime} (text : cell) :
  (chr_percent ∉ py_str text → (parse_fee_combo text).1 = f0)
  ∧ (chr_dollar ∉ py_str text → (parse_fee_combo text).2 = f0).
Proof. apply parse_fee_combo_parts. Qed.

Lemma parse_fee_combo_partes_witness :
  (parse_fee_combo (RT := Latin1.runtime) (Str (ustr "$1095.00"))).1 = f0
  ∧ (parse_fee_combo (RT := Latin1.runtime) (Str (ustr "14.50%"))).2 = f0.
Proof.
  split.
  - apply (parse_fee_combo_partes (RT := Latin1.runtime)
             (Str (ustr "$1095.00"))).
    apply (bool_decide_unpack _). by vm_compute.
  - apply (parse_fee_combo_partes (RT := Latin1.runtime)
             (Str (ustr "14.50%"))).
    apply (bool_decide_unpack _). by vm_compute.
Defined.

(** ** The reading of the listings *)

Section LeerML.
Context `{RT : Runtime}.

(** The sheet that [leer_ml] goes on with: the sheet as read at first when
    its columns are there and it holds no formula, the copy with values
    otherwise, when its columns are there. *)
Definition fuente_ml (df df_valores : DataFrame) : option DataFrame :=
  let needs_conversion :=
    if negb (validate_excel_structure df "ml").2 then true
    else df_contains_formulas (con_envio df) formula_columns in
  if needs_conversion then
    if (validate_excel_structure df_valores "ml").2
    then Some (con_envio df_valores) else None
  else Some (con_envio df).

(** The columns that [leer_ml] parses, on the cleaned frame. *)
Definition parsear_ml (df_clean : DataFrame) : option DataFrame :=
  fee ← columns df_clean !! "FEE_PER_SALE_MARKETPLACE_V2";
  financing ← columns df_clean !! "COST_OF_FINANCING_MARKETPLACE";
  price ← columns df_clean !! "PRICE";
  quantity ← columns df_clean !! "QUANTITY";
  match fee with
  | [] => None
  | _ =>
    Some (set_column "QUANTITY" (Num <$> fillna0 (to_numeric quantity))
            (set_column "PRICE" (Num ∘ parse_money <$> price)
               (set_column "financing_pct" (Num ∘ parse_pct <$> financing)
                  (set_column "fee_fixed"
                     (Num ∘ snd <$> (parse_fee_combo <$> fee))
                     (set_column "fee_pct"
                        (Num ∘ fst <$> (parse_fee_combo <$> fee))
                        df_clean)))))
  end.

Lemma leer_ml_eq (df df_valores : DataFrame) :
  leer_ml df df_valores
  = (src ← fuente_ml df df_valores;
     df_clean ← clean_ml_data src;
     parsear_ml df_clean).
Proof.
  unfold leer_ml, fuente_ml, con_envio.
  destruct (validate_excel_structure df "ml") as [d1 v1].
  destruct (validate_excel_structure df_valores "ml") as [d2 v2].
  cbn [fst snd].
  destruct (if (if negb v1 then true else _) then _ else Some d1) as [src|];
    [|done].
  cbn [mbind option_bind].
  destruct (clean_ml_data src) as [dc|]; [|done].
  cbn [mbind option_bind]. unfold parsear_ml.
  destruct (columns dc !! "FEE_PER_SALE_MARKETPLACE_V2") as [fee|]; [|done].
  cbn [mbind option_bind].
  destruct fee as [|x fee].
  { cbn. by repeat destruct (columns dc !! _). }
  cbn [fmap list_fmap]. cbn [columns set_column].
  rewrite !lookup_insert_ne by done.
  destruct (columns dc !! "COST_OF_FINANCING_MARKETPLACE"); [|done].
  cbn [mbind option_bind]. rewrite !lookup_insert_ne by done.
  destruct (columns dc !! "PRICE"); [|done].
  cbn [mbind option_bind]. rewrite !lookup_insert_ne by done.
  destruct (columns dc !! "QUANTITY"); [|done].
  done.
Qed.


Lemma fuente_ml_cases (df df_valores src : DataFrame) :
  fuente_ml df df_valores = Some src →
  (src = con_envio df ∨ src = con_envio df_valores)
  ∧ Forall (λ c, is_Some (columns src !! c)) required_cols_ml.
Proof.
  unfold fuente_ml.
  destruct ((validate_excel_structure df "ml").2) eqn:E1; cbn [negb].
  - destruct (df_contains_formulas _ _).
    + destruct ((validate_excel_structure df_valores "ml").2) eqn:E2; [|done].
      intros [= <-]. split; [by right|]. by apply validate_ml_valid.
    + intros [= <-]. split; [by left|]. by apply validate_ml_valid.
  - destruct ((validate_excel_structure df_valores "ml").2) eqn:E2; [|done].
    intros [= <-]. split; [by right|]. by apply validate_ml_valid.
Qed.

Lemma fuente_ml_wf (df df_valores src : DataFrame) :
  wf df → wf df_valores → fuente_ml df df_valores = Some src → wf src.
Proof.
  intros H1 H2 [[-> | ->] _]%fuente_ml_cases; by apply con_envio_wf.
Qed.

Lemma fuente_ml_sin_formulas (df v1 v2 : DataFrame) :
  (validate_excel_structure df "ml").2 = true →
  df_contains_formulas (con_envio df) formula_columns = false →
  fuente_ml df v1 = fuente_ml df v2.
Proof. intros H1 H2. unfold fuente_ml. by rewrite H1, H2. Qed.

Lemma fuente_ml_valores (df v : DataFrame) :
  (validate_excel_structure df "ml").2 = false
  ∨ df_contains_formulas (con_envio df) formula_columns = true →
  fuente_ml df v = fuente_ml v v.
Proof.
  intros H. unfold fuente_ml.
  assert ((if negb (validate_excel_structure df "ml").2 then true
           else df_contains_formulas (con_envio df) formula_columns) = true)
    as ->.
  { destruct H as [-> | ->]; [done|]. by destruct (negb _). }
  destruct ((validate_excel_structure v "ml").2); cbn [negb]; [|done].
  by destruct (df_contains_formulas (con_envio v) formula_columns).
Qed.

Lemma parsear_ml_inv (dc d : DataFrame) :
  parsear_ml dc = Some d →
  ∃ fee financing price quantity,
    columns dc !! "FEE_PER_SALE_MARKETPLACE_V2" = Some fee
    ∧ columns dc !! "COST_OF_FINANCING_MARKETPLACE" = Some financing
    ∧ columns dc !! "PRICE" = Some price
    ∧ columns dc !! "QUANTITY" = Some quantity
    ∧ fee ≠ []
    ∧ d = set_column "QUANTITY" (Num <$> fillna0 (to_numeric quantity))
            (set_column "PRICE" (Num ∘ parse_money <$> price)
               (set_column "financing_pct" (Num ∘ parse_pct <$> financing)
                  (set_column "fee_fixed"
                     (Num ∘ snd <$> (parse_fee_combo <$> fee))
                     (set_column "fee_pct"
                        (Num ∘ fst <$> (parse_fee_combo <$> fee)) dc)))).
Proof.
  unfold parsear_ml. intros H.
  bind_inv H fee. bind_inv H financing. bind_inv H price.
  bind_inv H quantity. destruct fee as [|x fee]; [done|].
  injection H as <-. by eexists _, _, _, _.
Qed.

Lemma parsear_ml_wf (dc d : DataFrame) :
  wf dc → parsear_ml dc = Some d →
  wf d ∧ nrows d = nrows dc ∧ (1 ≤ nrows d)%nat.
Proof.
  intros Hwf (fee & fin & pr & qt & Hfee & Hfin & Hpr & Hqt & Hne & ->)
    %parsear_ml_inv.
  pose proof (Hwf _ _ Hfee) as L1. pose proof (Hwf _ _ Hfin) as L2.
  pose proof (Hwf _ _ Hpr) as L3. pose proof (Hwf _ _ Hqt) as L4.
  split; [|split; [done|]].
  - intros c s. cbn [columns set_column nrows].
    rewrite !lookup_insert_Some.
    intros [[_ <-]|[_ [[_ <-]|[_ [[_ <-]|[_ [[_ <-]|[_ [[_ <-]|[_ H]]]]]]]]]];
      unfold fillna0, to_numeric; rewrite ?length_fmap; try done.
    by apply (Hwf c).
  - cbn [nrows set_column]. rewrite <- L1. destruct fee; [done|]. simpl. lia.
Qed.

(** The cells that [leer_ml] derives in a row, from the texts of the
    row. *)
Lemma parsear_ml_celdas (dc d : DataFrame) (i : nat) :
  wf dc → parsear_ml dc = Some d → (i < nrows d)%nat →
  ∃ fee fin pr qt,
    celda d "FEE_PER_SALE_MARKETPLACE_V2" i = Some fee
    ∧ celda d "COST_OF_FINANCING_MARKETPLACE" i = Some fin
    ∧ celda dc "PRICE" i = Some pr
    ∧ celda dc "QUANTITY" i = Some qt
    ∧ celda d "fee_pct" i = Some (Num (parse_fee_combo fee).1)
    ∧ celda d "fee_fixed" i = Some (Num (parse_fee_combo fee).2)
    ∧ celda d "financing_pct" i = Some (Num (parse_pct fin))
    ∧ celda d "PRICE" i = Some (Num (parse_money pr))
    ∧ celda d "QUANTITY" i = Some (Num (fillna0_float (to_numeric_cell qt))).
Proof.
  intros Hwf Hd Hi.
  pose proof Hd as (fee & fin & pr & qt & Hfee & Hfin & Hpr & Hqt & Hne & ->)
    %parsear_ml_inv.
  cbn [nrows set_column] in Hi.
  destruct (lookup_lt_is_Some_2 fee i) as [x1 H1];
    [by rewrite (Hwf _ _ Hfee)|].
  destruct (lookup_lt_is_Some_2 fin i) as [x2 H2];
    [by rewrite (Hwf _ _ Hfin)|].
  destruct (lookup_lt_is_Some_2 pr i) as [x3 H3]; [by rewrite (Hwf _ _ Hpr)|].
  destruct (lookup_lt_is_Some_2 qt i) as [x4 H4]; [by rewrite (Hwf _ _ Hqt)|].
  exists x1, x2, x3, x4. unfold celda. cbn [columns set_column].
  rewrite ?lookup_insert_eq, ?lookup_insert_ne by done.
  rewrite ?lookup_insert_eq, ?lookup_insert_ne by done.
  rewrite ?lookup_insert_eq, ?lookup_insert_ne by done.
  rewrite ?lookup_insert_eq, ?lookup_insert_ne by done.
  rewrite ?lookup_insert_eq, ?lookup_insert_ne by done.
  rewrite Hfee, Hfin, Hpr, Hqt. cbn [mbind option_bind].
  unfold fillna0, to_numeric.
  rewrite !list_lookup_fmap, H1, H2, H3, H4. done.
Qed.


Lemma leer_ml_inv (ml ml_valores d : DataFrame) :
  wf ml → wf ml_valores → leer_ml ml ml_valores = Some d →
  ∃ src dc,
    fuente_ml ml ml_valores = Some src ∧ wf src
    ∧ clean_ml_data src = Some dc ∧ wf dc
    ∧ parsear_ml dc = Some d.
Proof.
  intros H1 H2 H. rewrite leer_ml_eq in H.
  bind_inv H src. bind_inv H dc. exists src, dc.
  pose proof (fuente_ml_wf _ _ _ H1 H2 Heqo) as Hsrc.
  repeat split; try done. by apply (clean_ml_data_wf src).
Qed.

Lemma parsear_ml_otras (dc d : DataFrame) (c : string) :
  parsear_ml dc = Some d →
  bool_decide (c ∈ ["QUANTITY"; "PRICE"; "financing_pct"; "fee_fixed";
                    "fee_pct"]%string) = false →
  columns d !! c = columns dc !! c.
Proof.
  intros (fee & fin & pr & qt & _ & _ & _ & _ & _ & ->)%parsear_ml_inv
    Hc%bool_decide_eq_false.
  cbn [columns set_column].
  rewrite !lookup_insert_ne; [done|..]; intros <-; apply Hc; set_solver.
Qed.

Lemma leer_ml_props (ml ml_valores d : DataFrame) :
  wf ml → wf ml_valores → leer_ml ml ml_valores = Some d →
  wf d ∧ (1 ≤ nrows d)%nat
  ∧ Forall (λ c, is_Some (columns d !! c))
      (required_cols_ml ++ ["fee_pct"; "fee_fixed"; "financing_pct"]%string)
  ∧ ∀ (i : nat) (x s : cell),
      celda d "ITEM_ID" i = Some x → celda d "SKU" i = Some s →
      isna x = false ∧ startswith (ustr "ML") (py_str x) = true
      ∧ isna s = false ∧ strip (py_str s) ≠ [].
Proof.
  intros H1 H2 H.
  destruct (leer_ml_inv _ _ _ H1 H2 H) as (src & dc & Hsrc & Hwsrc & Hdc & Hwdc & Hd).
  destruct (parsear_ml_wf _ _ Hwdc Hd) as (Hwf & Hn & Hpos).
  split; [done|]. split; [done|]. split.
  - apply fuente_ml_cases in Hsrc as [_ Hcols].
    destruct (clean_ml_data_inv _ _ Hwsrc Hdc) as (a & b & _ & _ & _ & _ & Hc).
    assert (∀ c, is_Some (columns src !! c) → is_Some (columns dc !! c)) as Hpres.
    { intros c [s Hs]. rewrite Hc, lookup_fmap, Hs. by eexists. }
    apply parsear_ml_inv in Hd as (? & ? & ? & ? & _ & _ & _ & _ & _ & ->).
    apply Forall_app. split.
    + eapply Forall_impl; [exact Hcols|]. intros c Hc'%Hpres.
      cbn [columns set_column]. rewrite !lookup_insert_is_Some'. eauto 10.
    + repeat constructor; cbn [columns set_column];
        rewrite !lookup_insert_is_Some'; eauto 10.
  - intros i x s Hx Hs. apply fila_valida_spec.
    apply (clean_ml_data_rows src dc i); try done.
    + unfold celda in *. by rewrite <- (parsear_ml_otras dc d "ITEM_ID" Hd).
    + unfold celda in *. by rewrite <- (parsear_ml_otras dc d "SKU" Hd).
Qed.

End LeerML.

(** A sheet of listings whose first price is a formula. *)
Module EjemploFormulas.

Definition ml : DataFrame :=
  set_column "PRICE" [Ejemplo.txt "=F2*1.1"; Ejemplo.txt "1000.00"] Ejemplo.ml.

End EjemploFormulas.

(** X10. Which sheet [leer_ml] reads: when the sheet read at first has
    its columns and no formula in the four columns that are checked, the
    copy with values is not looked at; when it lacks a column or holds a
    formula, the result is that of the copy with values alone. *)
Theorem leer_ml_fuente `{RT : Runtime} :
  (∀ df v1 v2 : DataFrame,
     (validate_excel_structure df "ml").2 = true →
     df_contains_formulas (validate_excel_structure df "ml").1 formula_columns
     = false →
     leer_ml df v1 = leer_ml df v2)
  ∧ (∀ df v : DataFrame,
       (validate_excel_structure df "ml").2 = false
       ∨ df_contains_formulas (validate_excel_structure df "ml").1
           formula_columns = true →
       leer_ml df v = leer_ml v v).
Proof.
  split.
  - intros df v1 v2 H1 H2. rewrite !leer_ml_eq.
    by rewrite (fuente_ml_sin_formulas df v1 v2).
  - intros df v H. rewrite !leer_ml_eq. by rewrite (fuente_ml_valores df v).
Qed.

Lemma leer_ml_fuente_witness :
  leer_ml (RT := Latin1.runtime) Ejemplo.ml EjemploFormulas.ml
  = leer_ml (RT := Latin1.runtime) Ejemplo.ml Ejemplo.odoo
  ∧ leer_ml (RT := Latin1.runtime) EjemploFormulas.ml Ejemplo.ml
    = leer_ml (RT := Latin1.runtime) Ejemplo.ml Ejemplo.ml.
Proof.
  split.
  - apply (proj1 (leer_ml_fuente (RT := Latin1.runtime))); by vm_compute.
  - apply (proj2 (leer_ml_fuente (RT := Latin1.runtime))).
    right. by vm_compute.
Defined.

(** X11. What [leer_ml] returns is never empty: its frame is well formed
    and has a row at least (a sheet without a valid row is an error); it
    has the ten columns of the sheet and the three parsed columns; and
    every row has an item identifier that starts with "ML" and a SKU that
    is not blank. *)
Theorem leer_ml_filas `{RT : Runtime} (ml ml_valores d : DataFrame) :
  wf ml → wf ml_valores → leer_ml ml ml_valores = Some d →
  wf d ∧ (1 ≤ nrows d)%nat
  ∧ Forall (λ c, is_Some (columns d !! c))
      (required_cols_ml ++ ["fee_pct"; "fee_fixed"; "financing_pct"]%string)
  ∧ ∀ (i : nat) (x s : cell),
      celda d "ITEM_ID" i = Some x → celda d "SKU" i = Some s →
      isna x = false ∧ startswith (ustr "ML") (py_str x) = true
      ∧ isna s = false ∧ strip (py_str s) ≠ [].
Proof. apply leer_ml_props. Qed.

Lemma leer_ml_filas_witness :
  ∃ d, leer_ml (RT := Latin1.runtime) Ejemplo.ml Ejemplo.ml = Some d
       ∧ wf d ∧ (1 ≤ nrows d)%nat.
Proof.
  destruct (leer_ml (RT := Latin1.runtime) Ejemplo.ml Ejemplo.ml) as [d|] eqn:E;
    [|by vm_compute in E].
  exists d. split; [reflexivity|].
  assert (wf Ejemplo.ml) as Hwf by (apply wf_bool; by vm_compute).
  destruct (leer_ml_filas (RT := Latin1.runtime) Ejemplo.ml Ejemplo.ml d
              Hwf Hwf E) as (H1 & H2 & _).
  split; [exact H1|exact H2].
Defined.

(** X12. The columns that [leer_ml] derives: on every row of its result,
    [fee_pct] and [fee_fixed] are the two parts read from the fee text of
    the row, and neither is negative; [financing_pct] is the percentage
    read from the financing text of the row; the price is a number; and
    the quantity is a number that is not missing. *)
Theorem leer_ml_derivadas `{RT : Runtime} (ml ml_valores d : DataFrame)
    (i : nat) :
  wf ml → wf ml_valores → leer_ml ml ml_valores = Some d →
  (i < nrows d)%nat →
  ∃ fee fin : cell,
    celda d "FEE_PER_SALE_MARKETPLACE_V2" i = Some fee
    ∧ celda d "COST_OF_FINANCING_MARKETPLACE" i = Some fin
    ∧ celda d "fee_pct" i = Some (Num (parse_fee_combo fee).1)
    ∧ celda d "fee_fixed" i = Some (Num (parse_fee_combo fee).2)
    ∧ nonneg (parse_fee_combo fee).1 ∧ nonneg (parse_fee_combo fee).2
    ∧ celda d "financing_pct" i = Some (Num (parse_pct fin))
    ∧ (∃ precio, celda d "PRICE" i = Some (Num precio))
    ∧ (∃ cantidad, celda d "QUANTITY" i = Some (Num cantidad)
                   ∧ isnan cantidad = false).
Proof.
  intros H1 H2 H Hi.
  destruct (leer_ml_inv _ _ _ H1 H2 H) as (src & dc & _ & _ & _ & Hwdc & Hd).
  destruct (parsear_ml_celdas dc d i Hwdc Hd Hi)
    as (fee & fin & pr & qt & E1 & E2 & _ & _ & E3 & E4 & E5 & E6 & E7).
  exists fee, fin. repeat split; try done.
  - apply parse_fee_combo_nonneg.
  - apply parse_fee_combo_nonneg.
  - by eexists.
  - eexists. split; [exact E7|].
    unfold fillna0_float. by destruct (to_numeric_cell qt) as [?|?|].
Qed.

Lemma leer_ml_derivadas_witness :
  ∃ d fee,
    leer_ml (RT := Latin1.runtime) Ejemplo.ml Ejemplo.ml = Some d
    ∧ celda d "FEE_PER_SALE_MARKETPLACE_V2" 0 = Some fee
    ∧ celda d "fee_pct" 0
      = Some (Num (parse_fee_combo (RT := Latin1.runtime) fee).1).
Proof.
  destruct (leer_ml (RT := Latin1.runtime) Ejemplo.ml Ejemplo.ml) as [d|] eqn:E;
    [|by vm_compute in E].
  assert (wf Ejemplo.ml) as Hwf by (apply wf_bool; by vm_compute).
  assert ((nrows <$> leer_ml (RT := Latin1.runtime) Ejemplo.ml Ejemplo.ml)
          = Some 2%nat) as Hn by (by vm_compute).
  rewrite E in Hn. injection Hn as Hn.
  destruct (leer_ml_derivadas (RT := Latin1.runtime) Ejemplo.ml Ejemplo.ml d
              0%nat Hwf Hwf E) as (fee & fin & E1 & _ & E3 & _); [lia|].
  exists d, fee. split; [reflexivity|]. split; [exact E1|exact E3].
Defined.

(** ** The reading of the products *)

Lemma select_fmap_filter {A} (f : A → bool) (s : list A) :
  select (f <$> s) s = filter (λ x, f x = true) s.
Proof.
  induction s as [|x s IH]; [done|]. cbn [fmap list_fmap].
  rewrite select_cons. fold (f <$> s). rewrite IH.
  destruct (f x) eqn:E.
  - by rewrite filter_cons_True.
  - rewrite filter_cons_False; [done|]. by rewrite E.
Qed.

(** A label is one of a list of labels that is written out. *)
Ltac en_lista := apply (bool_decide_unpack _); vm_compute; reflexivity.

Section LeerOdoo.
Context `{RT : Runtime}.

(** The columns that [leer_odoo] converts, on the rows with a code. *)
Definition convertir_odoo (dc : DataFrame) : option DataFrame :=
  precio ← columns dc !! "Precio Tarifa";
  cantidad ← columns dc !! "Cantidad a mano";
  impuestos ← columns dc !! "Impuestos del cliente";
  tax_pct ← mapM extract_tax_percentage impuestos;
  Some (set_column "tax_pct" (Num <$> tax_pct)
          (set_column "Cantidad a mano" (Num <$> fillna0 (to_numeric cantidad))
             (set_column "Precio Tarifa" (Num <$> fillna0 (to_numeric precio))
                dc))).

Lemma leer_odoo_eq (df : DataFrame) :
  leer_odoo df
  = if bool_decide (Forall (λ c, is_Some (columns df !! c)) required_cols_odoo)
    then codigo ← columns df !! "Código Neored";
         convertir_odoo (filter_rows (negb ∘ isna <$> codigo) df)
    else None.
Proof.
  unfold leer_odoo, validate_excel_structure.
  cbn [String.eqb Ascii.eqb Bool.eqb].
  rewrite (bool_decide_ext _ _ (iff_trans (iff_sym (bool_decide_eq_true _))
                                  (missing_cols_nil df required_cols_odoo))).
  case_bool_decide; [|done]. cbn [negb].
  destruct (columns df !! "Código Neored") as [codigo|]; [|done].
  cbn [mbind option_bind]. unfold convertir_odoo.
  set (dc := filter_rows _ df).
  destruct (columns dc !! "Precio Tarifa"); [|done].
  cbn [mbind option_bind columns set_column].
  rewrite !lookup_insert_ne by done.
  destruct (columns dc !! "Cantidad a mano"); [|done].
  cbn [mbind option_bind columns set_column].
  rewrite !lookup_insert_ne by done.
  done.
Qed.

Lemma filter_rows_wf (mask : list bool) (df : DataFrame) :
  wf df → length mask = nrows df →
  wf (filter_rows mask df) ∧ nrows (filter_rows mask df) = cuenta mask.
Proof.
  intros Hwf Hlen.
  assert (nrows (filter_rows mask df) = cuenta mask) as Hn.
  { unfold filter_rows. cbn [nrows]. by rewrite <- Hlen, firstn_all. }
  split; [|done]. intros c s. rewrite Hn. cbn [columns filter_rows].
  rewrite lookup_fmap. intros (s' & Hs' & ->)%fmap_Some.
  apply select_length. rewrite Hlen. by apply (Hwf c).
Qed.

Lemma leer_odoo_presentes (df : DataFrame) :
  digits_apart →
  is_Some (leer_odoo df)
  ↔ Forall (λ c, is_Some (columns df !! c)) required_cols_odoo.
Proof.
  intros Hd. rewrite leer_odoo_eq. case_bool_decide as E.
  - split; [done|]. intros _.
    assert (∀ c, c ∈ required_cols_odoo → is_Some (columns df !! c)) as Hc
      by (by apply Forall_forall).
    destruct (Hc "Código Neored"%string) as [codigo ->]; [en_lista|].
    cbn [mbind option_bind]. unfold convertir_odoo.
    cbn [columns filter_rows]. rewrite !lookup_fmap.
    destruct (Hc "Precio Tarifa"%string) as [? ->]; [en_lista|].
    destruct (Hc "Cantidad a mano"%string) as [? ->]; [en_lista|].
    destruct (Hc "Impuestos del cliente"%string) as [imp ->]; [en_lista|].
    cbn [fmap option_fmap option_map mbind option_bind].
    destruct (proj2 (mapM_is_Some extract_tax_percentage
                       (select (negb ∘ isna <$> codigo) imp))) as [tax ->].
    { apply Forall_forall. intros t _. simpl.
      destruct (extract_tax_percentage_total t Hd) as (q & -> & _). eauto. }
    done.
  - split; [by intros [? ?]|done].
Qed.

Lemma leer_odoo_inv (df d : DataFrame) :
  wf df → leer_odoo df = Some d →
  ∃ codigo dc precio cantidad impuestos tax_pct,
    columns df !! "Código Neored" = Some codigo
    ∧ dc = filter_rows (negb ∘ isna <$> codigo) df
    ∧ wf dc ∧ (nrows dc ≤ nrows df)%nat
    ∧ columns dc !! "Código Neored" = Some (filter (λ x, isna x = false) codigo)
    ∧ columns dc !! "Precio Tarifa" = Some precio
    ∧ columns dc !! "Cantidad a mano" = Some cantidad
    ∧ columns dc !! "Impuestos del cliente" = Some impuestos
    ∧ Forall2 (λ x y, extract_tax_percentage x = Some y) impuestos tax_pct
    ∧ d = set_column "tax_pct" (Num <$> tax_pct)
            (set_column "Cantidad a mano"
               (Num <$> fillna0 (to_numeric cantidad))
               (set_column "Precio Tarifa"
                  (Num <$> fillna0 (to_numeric precio)) dc)).
Proof.
  intros Hwf H. rewrite leer_odoo_eq in H.
  case_bool_decide; [|done]. bind_inv H codigo.
  unfold convertir_odoo in H.
  bind_inv H precio. bind_inv H cantidad. bind_inv H impuestos.
  bind_inv H tax_pct. injection H as <-.
  eexists codigo, _, precio, cantidad, impuestos, tax_pct.
  split; [done|]. split; [done|].
  assert (length (negb ∘ isna <$> codigo) = nrows df) as Hlen
    by (rewrite length_fmap; by apply (Hwf "Código Neored"%string)).
  destruct (filter_rows_wf _ _ Hwf Hlen) as [Hwdc Hn].
  split; [done|]. split.
  { rewrite Hn, <- Hlen. apply cuenta_le. }
  split.
  { cbn [columns filter_rows]. rewrite lookup_fmap, Heqo.
    cbn. f_equal. rewrite select_fmap_filter. apply list_filter_iff.
    intros x. simpl. by destruct (isna x). }
  repeat split; try done. by apply mapM_Some.
Qed.

End LeerOdoo.

(** X13. [leer_odoo] succeeds exactly when the sheet has its five
    columns: no content of the cells makes it fail. *)
Theorem leer_odoo_columnas `{RT : Runtime} (df : DataFrame) :
  digits_apart →
  is_Some (leer_odoo df)
  ↔ Forall (λ c, is_Some (columns df !! c)) required_cols_odoo.
Proof. apply leer_odoo_presentes. Qed.

Lemma leer_odoo_columnas_witness :
  is_Some (leer_odoo (RT := Latin1.runtime) Ejemplo.odoo).
Proof.
  apply (leer_odoo_columnas (RT := Latin1.runtime) Ejemplo.odoo
           latin1_digits_apart).
  apply (bool_decide_unpack _). vm_compute. reflexivity.
Defined.

(** X14. What [leer_odoo] returns: a well-formed frame with no more rows
    than the sheet, where every row has a code that is not missing, a
    price and a stock that are numbers and are not missing, and a tax
    that is the number read from the tax text of the row, which is not
    negative. *)
Theorem leer_odoo_filas `{RT : Runtime} (df d : DataFrame) :
  digits_apart → wf df → leer_odoo df = Some d →
  wf d ∧ (nrows d ≤ nrows df)%nat
  ∧ ∀ i : nat, (i < nrows d)%nat →
      ∃ (codigo : cell) (precio cantidad : pyfloat) (impuestos : cell)
        (tax : pyfloat),
        celda d "Código Neored" i = Some codigo ∧ isna codigo = false
        ∧ celda d "Precio Tarifa" i = Some (Num precio)
        ∧ isnan precio = false
        ∧ celda d "Cantidad a mano" i = Some (Num cantidad)
        ∧ isnan cantidad = false
        ∧ celda d "Impuestos del cliente" i = Some impuestos
        ∧ extract_tax_percentage impuestos = Some tax
        ∧ nonneg tax
        ∧ celda d "tax_pct" i = Some (Num tax).
Proof.
  intros Hd Hwf H.
  destruct (leer_odoo_inv df d Hwf H)
    as (codigo & dc & precio & cantidad & impuestos & tax_pct & Hcod & _
        & Hwdc & Hn & Hc & Hp & Hq & Himp & Htax & ->).
  pose proof (Hwdc _ _ Hc) as L1. pose proof (Hwdc _ _ Hp) as L2.
  pose proof (Hwdc _ _ Hq) as L3. pose proof (Hwdc _ _ Himp) as L4.
  pose proof (Forall2_length _ _ _ Htax) as L5.
  split; [|split; [done|]].
  - intros c s. cbn [columns set_column nrows].
    rewrite !lookup_insert_Some.
    intros [[_ <-]|[_ [[_ <-]|[_ [[_ <-]|[_ Hs]]]]]];
      unfold fillna0, to_numeric; rewrite ?length_fmap; try done.
    + congruence.
    + by apply (Hwdc c).
  - intros i Hi. cbn [nrows set_column] in Hi.
    destruct (lookup_lt_is_Some_2 (filter (λ x, isna x = false) codigo) i)
      as [x1 H1]; [lia|].
    destruct (lookup_lt_is_Some_2 precio i) as [x2 H2]; [lia|].
    destruct (lookup_lt_is_Some_2 cantidad i) as [x3 H3]; [lia|].
    destruct (lookup_lt_is_Some_2 impuestos i) as [x4 H4]; [lia|].
    destruct (Forall2_lookup_l _ _ _ _ _ Htax H4) as (t & Ht & Hx4).
    destruct (extract_tax_percentage_total x4 Hd) as (q & Hq4 & Hq0).
    rewrite Hq4 in Hx4. injection Hx4 as <-.
    exists x1, (fillna0_float (to_numeric_cell x2)),
      (fillna0_float (to_numeric_cell x3)), x4, (Finite q).
    unfold celda. cbn [columns set_column].
    rewrite ?lookup_insert_eq, ?lookup_insert_ne by done.
    rewrite ?lookup_insert_eq, ?lookup_insert_ne by done.
    rewrite ?lookup_insert_eq, ?lookup_insert_ne by done.
    rewrite Hc, Himp. cbn [mbind option_bind].
    unfold fillna0, to_numeric. rewrite !list_lookup_fmap, H2, H3, Ht.
    assert (∀ x, isnan (fillna0_float x) = false) as Hnan
      by (by intros [?|?|]).
    repeat split; try done; try (by apply Qleb_iff).
    apply list_elem_of_lookup_2 in H1.
    by apply list_elem_of_filter in H1 as [? _].
Qed.

Lemma leer_odoo_filas_witness :
  ∃ d, leer_odoo (RT := Latin1.runtime) Ejemplo.odoo = Some d
       ∧ wf d ∧ (nrows d ≤ 1)%nat.
Proof.
  destruct (leer_odoo (RT := Latin1.runtime) Ejemplo.odoo) as [d|] eqn:E;
    [|by vm_compute in E].
  exists d. split; [reflexivity|].
  assert (wf Ejemplo.odoo) as Hwf by (apply wf_bool; by vm_compute).
  destruct (leer_odoo_filas (RT := Latin1.runtime) Ejemplo.odoo d
              latin1_digits_apart Hwf E) as (H1 & H2 & _).
  split; [exact H1|exact H2].
Defined.

(** ** The rows of the join *)

Section Pairs.

Lemma join_imap_length {A B} (g : nat → A → list B) (l : list A) :
  (∀ i x, g i x ≠ []) → (length l ≤ length (mjoin (imap g l)))%nat.
Proof.
  revert g. induction l as [|x l IH]; intros g Hg; [simpl; lia|].
  change (mjoin (imap g (x :: l)))
    with (g 0%nat x ++ mjoin (imap (g ∘ S) l)).
  rewrite length_app.
  specialize (IH (g ∘ S) (λ i y, Hg (S i) y)).
  specialize (Hg 0%nat x). destruct (g 0%nat x); [done|].
  cbn [length]. lia.
Qed.

Lemma join_imap_singletons {A B} (g : nat → A → list B) (h : nat → A → B)
    (l : list A) :
  (∀ i x, x ∈ l → g i x = [h i x]) → mjoin (imap g l) = imap h l.
Proof.
  revert g h. induction l as [|x l IH]; intros g h Hg; [done|].
  change (mjoin (imap g (x :: l)))
    with (g 0%nat x ++ mjoin (imap (g ∘ S) l)).
  rewrite (Hg 0%nat x) by left. cbn [imap app]. f_equal.
  apply IH. intros i y Hy. apply Hg. by right.
Qed.

(** The row of the result that a listing gets from its matches. *)
Definition filas_de (rk : Series) (i : nat) (k : cell)
    : list (nat * option nat) :=
  match matches k rk with
  | [] => [(i, None)]
  | js => (λ j, (i, Some j)) <$> js
  end.

Lemma merge_pairs_eq (lk rk : Series) :
  merge_pairs lk rk = mjoin (imap (filas_de rk) lk).
Proof. reflexivity. Qed.

Lemma filas_de_nonempty rk i k : filas_de rk i k ≠ [].
Proof. unfold filas_de. by destruct (matches k rk). Qed.

Lemma merge_pairs_length (lk rk : Series) :
  (length lk ≤ length (merge_pairs lk rk))%nat.
Proof.
  rewrite merge_pairs_eq. apply join_imap_length. apply filas_de_nonempty.
Qed.

Lemma merge_pairs_unique (lk rk : Series) :
  (∀ k, k ∈ lk → (length (matches k rk) ≤ 1)%nat) →
  merge_pairs lk rk = imap (λ i k, (i, head (matches k rk))) lk.
Proof.
  intros H. rewrite merge_pairs_eq. apply join_imap_singletons.
  intros i k Hk. specialize (H k Hk). unfold filas_de.
  destruct (matches k rk) as [|j [|j' js]]; simpl in *; [done|done|lia].
Qed.

Lemma matches_elem (k : cell) (rk : Series) (j : nat) :
  j ∈ matches k rk ↔ ∃ x, rk !! j = Some x ∧ key_eqb k x = true.
Proof.
  unfold matches. rewrite list_elem_of_fmap. split.
  - intros ([j' x] & -> & H). apply list_elem_of_filter in H as [HP H].
    apply elem_of_lookup_imap in H as (j'' & x' & [= <- <-] & Hj).
    exists x. done.
  - intros (x & Hx & HP). exists (j, x). split; [done|].
    apply list_elem_of_filter. split; [done|].
    apply elem_of_lookup_imap. by exists j, x.
Qed.

(** A row of the join pairs a listing with a product whose code is its
    SKU, or with none when no product has it. *)
Lemma merge_pairs_elem (lk rk : Series) (i : nat) (o : option nat) :
  (i, o) ∈ merge_pairs lk rk →
  ∃ k, lk !! i = Some k
       ∧ match o with
         | Some j => ∃ x, rk !! j = Some x ∧ key_eqb k x = true
         | None => ∀ x, x ∈ rk → key_eqb k x = false
         end.
Proof.
  rewrite merge_pairs_eq. intros (l & Hin & Hl)%list_elem_of_join.
  apply elem_of_lookup_imap in Hl as (i' & k & -> & Hk).
  unfold filas_de in Hin.
  destruct (matches k rk) as [|j0 js] eqn:E.
  - apply list_elem_of_singleton in Hin as [= -> ->].
    exists k. split; [done|]. intros x Hx.
    destruct (key_eqb k x) eqn:Ek; [|done].
    apply list_elem_of_lookup in Hx as [j Hj].
    assert (j ∈ matches k rk) as Hm by (apply matches_elem; eauto).
    rewrite E in Hm. by apply not_elem_of_nil in Hm.
  - apply list_elem_of_fmap in Hin as (j & [= -> ->] & Hj).
    exists k. split; [done|]. apply matches_elem. by rewrite E.
Qed.

End Pairs.

Section Unir.

Lemma merge_pairs_total (lk rk : Series) (i : nat) (k : cell) :
  lk !! i = Some k → ∃ o, (i, o) ∈ merge_pairs lk rk.
Proof.
  intros Hk. rewrite merge_pairs_eq.
  destruct (filas_de rk i k) as [|[i' o] l] eqn:E;
    [by apply filas_de_nonempty in E|].
  assert (i' = i) as ->.
  { unfold filas_de in E. destruct (matches k rk); by injection E. }
  exists o. apply list_elem_of_join. exists ((i, o) :: l). split; [by left|].
  apply elem_of_lookup_imap. by exists i, k.
Qed.

Lemma unir_y_validar_keys (df_ml df_odoo out : DataFrame) :
  unir_y_validar df_ml df_odoo = Some out →
  ∃ lk rk m,
    columns df_ml !! "SKU" = Some lk
    ∧ columns df_odoo !! "Código Neored" = Some rk
    ∧ merge_left df_ml df_odoo "SKU" "Código Neored" "_ml" "_odoo" = Some m
    ∧ nrows out = length (merge_pairs lk rk)
    ∧ (∀ c, c ≠ "Notas/Flags"%string → columns out !! c = columns m !! c)
    ∧ is_Some (columns m !! "Código Neored")
    ∧ is_Some (columns m !! "Precio Tarifa")
    ∧ is_Some (columns m !! "Cantidad a mano").
Proof.
  intros (m & codigo & precio & cantidad & Hm & Hc & Hp & Hq & ->)
    %unir_y_validar_inv.
  pose proof Hm as Hm'. unfold merge_left in Hm'.
  destruct (columns df_ml !! "SKU") as [lk|] eqn:Elk; [|done].
  destruct (columns df_odoo !! "Código Neored") as [rk|] eqn:Erk; [|done].
  exists lk, rk, m. repeat split; try done; eauto.
  - cbn [nrows set_column]. by apply (merge_left_nrows df_ml df_odoo "SKU" "Código Neored" "_ml" "_odoo" m).
  - intros c Hne. cbn [columns set_column]. by rewrite lookup_insert_ne.
Qed.

Lemma unir_y_validar_lookup (df_ml df_odoo out : DataFrame) (lk rk : Series)
    (c : string) :
  unir_y_validar df_ml df_odoo = Some out →
  columns df_ml !! "SKU" = Some lk →
  columns df_odoo !! "Código Neored" = Some rk →
  c ≠ "Notas/Flags"%string →
  ends_with "_ml" c = false → ends_with "_odoo" c = false →
  columns out !! c =
    match columns df_ml !! c, columns df_odoo !! c with
    | Some s, None => Some (take_left (merge_pairs lk rk) s)
    | None, Some s => Some (take_right (merge_pairs lk rk) s)
    | _, _ => None
    end.
Proof.
  intros H Hlk Hrk Hne H1 H2.
  destruct (unir_y_validar_keys _ _ _ H)
    as (lk' & rk' & m & Hlk' & Hrk' & Hm & _ & Hcols & _).
  rewrite Hcols by done.
  by apply (merge_left_lookup df_ml df_odoo "SKU" "Código Neored" "_ml" "_odoo").
Qed.

End Unir.

(** X15. The join keeps every listing: the result is well formed, has a
    row at least for every row of the listings, and as many rows as the
    listings when no SKU is the code of two products. *)
Theorem unir_y_validar_filas (df_ml df_odoo out : DataFrame)
    (lk rk : Series) :
  wf df_ml → unir_y_validar df_ml df_odoo = Some out →
  columns df_ml !! "SKU" = Some lk →
  columns df_odoo !! "Código Neored" = Some rk →
  wf out
  ∧ nrows out = length (merge_pairs lk rk)
  ∧ (nrows df_ml ≤ nrows out)%nat
  ∧ (∀ i : nat, (i < nrows df_ml)%nat →
       ∃ (p : nat) (o : option nat), merge_pairs lk rk !! p = Some (i, o))
  ∧ ((∀ k, k ∈ lk → (length (matches k rk) ≤ 1)%nat) →
     nrows out = nrows df_ml
     ∧ ∀ p : nat, (p < nrows out)%nat →
         ∃ o : option nat, merge_pairs lk rk !! p = Some (p, o)).
Proof.
  intros Hwf H Hlk Hrk.
  destruct (unir_y_validar_keys _ _ _ H)
    as (lk' & rk' & m & Hlk' & Hrk' & Hm & Hn & _).
  assert (lk' = lk) as -> by congruence. assert (rk' = rk) as -> by congruence.
  pose proof (Hwf _ _ Hlk) as Hlen.
  split; [by apply (unir_y_validar_wf df_ml df_odoo)|]. split; [done|].
  split; [rewrite Hn, <- Hlen; apply merge_pairs_length|]. split.
  - intros i Hi.
    destruct (lookup_lt_is_Some_2 lk i) as [k Hk]; [lia|].
    destruct (merge_pairs_total lk rk i k Hk) as [o Ho].
    apply list_elem_of_lookup in Ho as [p Hp]. eauto.
  - intros Huniq. rewrite Hn, (merge_pairs_unique _ _ Huniq).
    rewrite length_imap. split; [done|]. intros p Hp.
    destruct (lookup_lt_is_Some_2 lk p) as [k Hk]; [lia|].
    rewrite list_lookup_imap, Hk. by eexists.
Qed.

Lemma unir_y_validar_filas_witness :
  ∃ out, unir_y_validar Ejemplo.ml Ejemplo.odoo = Some out
         ∧ wf out ∧ (2 ≤ nrows out)%nat.
Proof.
  destruct (unir_y_validar Ejemplo.ml Ejemplo.odoo) as [out|] eqn:E;
    [|vm_compute in E; discriminate E].
  exists out. split; [reflexivity|].
  assert (wf Ejemplo.ml) as Hwf by (apply wf_bool; by vm_compute).
  destruct (unir_y_validar_filas Ejemplo.ml Ejemplo.odoo out
              [Ejemplo.txt "LED7012795"; Ejemplo.txt "NOEXISTE123"]
              [Ejemplo.txt "LED7012795"] Hwf E)
    as (H1 & _ & H3 & _); [vm_compute; reflexivity..|].
  split; [exact H1|exact H3].
Defined.

(** X16. What the join needs: a result means that the listings have the
    column [SKU] and no column named as the code of the products, that
    the products have the column of the code, and that the price and the
    stock each come from one of the two frames only; a column of that
    name in both frames gets a suffix in the join and is not found. *)
Theorem unir_y_validar_requisitos (df_ml df_odoo out : DataFrame) :
  unir_y_validar df_ml df_odoo = Some out →
  is_Some (columns df_ml !! "SKU")
  ∧ is_Some (columns df_odoo !! "Código Neored")
  ∧ columns df_ml !! "Código Neored" = None
  ∧ Forall (λ c, (is_Some (columns df_ml !! c) ∧ columns df_odoo !! c = None)
                 ∨ (columns df_ml !! c = None ∧ is_Some (columns df_odoo !! c)))
      ["Precio Tarifa"; "Cantidad a mano"]%string.
Proof.
  intros H.
  destruct (unir_y_validar_keys _ _ _ H)
    as (lk & rk & m & Hlk & Hrk & Hm & _ & _ & H1 & H2 & H3).
  pose proof (λ c, merge_left_lookup df_ml df_odoo "SKU" "Código Neored"
                     "_ml" "_odoo" m lk rk c Hm Hlk Hrk) as Hc.
  rewrite Hc in H1, H2, H3 by done.
  split; [eauto|]. split; [eauto|]. split.
  - rewrite Hrk in H1. destruct (columns df_ml !! "Código Neored"); [|done].
    by destruct H1.
  - assert (∀ c, is_Some (match columns df_ml !! c, columns df_odoo !! c with
                          | Some s, None =>
                            Some (take_left (merge_pairs lk rk) s)
                          | None, Some s =>
                            Some (take_right (merge_pairs lk rk) s)
                          | _, _ => None
                          end) →
                 (is_Some (columns df_ml !! c) ∧ columns df_odoo !! c = None)
                 ∨ (columns df_ml !! c = None
                    ∧ is_Some (columns df_odoo !! c))) as Huno.
    { intros c Hs.
      destruct (columns df_ml !! c), (columns df_odoo !! c);
        try (by destruct Hs).
      - left. split; [by eexists|done].
      - right. split; [done|by eexists]. }
    constructor; [by apply Huno|]. constructor; [by apply Huno|]. constructor.
Qed.

Lemma unir_y_validar_requisitos_witness :
  is_Some (columns Ejemplo.ml !! "SKU")
  ∧ columns Ejemplo.ml !! "Código Neored" = None.
Proof.
  destruct (unir_y_validar Ejemplo.ml Ejemplo.odoo) as [out|] eqn:E;
    [|vm_compute in E; discriminate E].
  destruct (unir_y_validar_requisitos Ejemplo.ml Ejemplo.odoo out E)
    as (H1 & _ & H3 & _).
  split; [exact H1|exact H3].
Defined.

(** X17. The cells of the join: a row of the result pairs a listing with
    a product whose code is the SKU of the listing, or with no product
    when no code is that SKU; a column that only the listings have holds
    the cell of the listing, and a column that only the products have
    holds the cell of the product, or a missing value without a
    product. *)
Theorem unir_y_validar_celdas (df_ml df_odoo out : DataFrame)
    (lk rk : Series) (p i : nat) (o : option nat) :
  unir_y_validar df_ml df_odoo = Some out →
  columns df_ml !! "SKU" = Some lk →
  columns df_odoo !! "Código Neored" = Some rk →
  merge_pairs lk rk !! p = Some (i, o) →
  (∃ k, lk !! i = Some k
        ∧ match o with
          | Some j => ∃ x, rk !! j = Some x ∧ key_eqb k x = true
          | None => ∀ x, x ∈ rk → key_eqb k x = false
          end)
  ∧ ∀ (c : string) (s : Series),
      c ≠ "Notas/Flags"%string →
      ends_with "_ml" c = false → ends_with "_odoo" c = false →
      (columns df_ml !! c = Some s → columns df_odoo !! c = None →
       celda out c p = Some (default na (s !! i)))
      ∧ (columns df_ml !! c = None → columns df_odoo !! c = Some s →
         celda out c p
         = Some (match o with
                 | Some j => default na (s !! j)
                 | None => na
                 end)).
Proof.
  intros H Hlk Hrk Hp. split.
  - apply merge_pairs_elem. by eapply list_elem_of_lookup_2.
  - intros c s Hne H1 H2. unfold celda.
    rewrite (unir_y_validar_lookup df_ml df_odoo out lk rk c) by done.
    split; intros -> ->; cbn [mbind option_bind].
    + unfold take_left. by rewrite list_lookup_fmap, Hp.
    + unfold take_right. by rewrite list_lookup_fmap, Hp.
Qed.

Lemma unir_y_validar_celdas_witness :
  ∃ out, unir_y_validar Ejemplo.ml Ejemplo.odoo = Some out
         ∧ celda out "TITLE" 0
           = Some (Ejemplo.txt "Lampara Sodio 250w E40 Osram")
         ∧ celda out "Nombre" 0
           = Some (Ejemplo.txt "Lámpara Sodio 250W E40 Osram").
Proof.
  destruct (unir_y_validar Ejemplo.ml Ejemplo.odoo) as [out|] eqn:E;
    [|vm_compute in E; discriminate E].
  exists out. split; [reflexivity|].
  destruct (unir_y_validar_celdas Ejemplo.ml Ejemplo.odoo out
              [Ejemplo.txt "LED7012795"; Ejemplo.txt "NOEXISTE123"]
              [Ejemplo.txt "LED7012795"] 0%nat 0%nat (Some 0%nat) E)
    as [_ Hc]; [vm_compute; reflexivity..|].
  clear E. split.
  - apply (proj1 (Hc "TITLE"%string
                    [Ejemplo.txt "Lampara Sodio 250w E40 Osram";
                     Ejemplo.txt "Producto sin match en Odoo"]
                    ltac:(discriminate) eq_refl eq_refl));
      vm_compute; reflexivity.
  - apply (proj2 (Hc "Nombre"%string
                    [Ejemplo.txt "Lámpara Sodio 250W E40 Osram"]
                    ltac:(discriminate) eq_refl eq_refl));
      vm_compute; reflexivity.
Defined.

(** ** More on the pricing of a frame *)

Section CalcularMas.
Context `{RT : Runtime}.

Lemma Qzero_proper (x y : Q) : (x == y)%Q → Qzero x = Qzero y.
Proof.
  intros H. apply Bool.eq_true_iff_eq. rewrite !Qzero_iff. by rewrite H.
Qed.

Lemma Qneg_proper (x y : Q) : (x == y)%Q → Qneg x = Qneg y.
Proof.
  intros H. apply Bool.eq_true_iff_eq. rewrite !Qneg_iff. by rewrite H.
Qed.

#[export] Instance fmul_proper : Proper (feq ==> feq ==> feq) fmul.
Proof.
  intros [q|s|] [r|t|] H1 [q'|s'|] [r'|t'|] H2; simpl in *; subst; try done.
  - by rewrite H1, H2.
  - rewrite (Qzero_proper _ _ H1), (Qneg_proper _ _ H1).
    by destruct (Qzero r).
  - rewrite (Qzero_proper _ _ H2), (Qneg_proper _ _ H2).
    by destruct (Qzero r').
Qed.

Definition columnas_de_calculo : list string :=
  ["Precio Tarifa"; "tax_pct"; "fee_pct"; "fee_fixed"; "financing_pct"]%string.

Lemma columna_numerica_Some (df : DataFrame) (c : string) :
  is_Some (columns df !! c) → is_Some (columna_numerica df c).
Proof. intros [s Hs]. unfold columna_numerica. rewrite Hs. by eexists. Qed.

Lemma calcular_importes_Some (df : DataFrame) (incluir_impuestos : bool)
    (tipo : option pystr) (valor : pyfloat) :
  Forall (λ c, is_Some (columns df !! c)) columnas_de_calculo →
  is_Some (calcular_importes df incluir_impuestos tipo valor).
Proof.
  intros Hcols. rewrite Forall_forall in Hcols.
  destruct (columna_numerica_Some df "Precio Tarifa") as [pt Hpt];
    [apply Hcols; en_lista|].
  destruct (columna_numerica_Some df "tax_pct") as [tx Htx];
    [apply Hcols; en_lista|].
  destruct (columna_numerica_Some df "fee_pct") as [fp Hfp];
    [apply Hcols; en_lista|].
  destruct (columna_numerica_Some df "fee_fixed") as [ff Hff];
    [apply Hcols; en_lista|].
  destruct (columna_numerica_Some df "financing_pct") as [fn Hfn];
    [apply Hcols; en_lista|].
  unfold calcular_importes.
  set (df0 := if has_column df "Notas/Flags" then df
              else set_column "Notas/Flags" (replicate (nrows df) (Str [])) df).
  assert (is_Some (columns df0 !! "Notas/Flags")) as [notas Hnotas].
  { subst df0. unfold has_column. case_bool_decide as E; [done|].
    simpl. rewrite lookup_insert_eq. by eexists. }
  assert (misma_salvo df df0) as Hdf0.
  { subst df0. destruct (has_column df "Notas/Flags"); [done|].
    by apply misma_salvo_set. }
  clearbody df0.
  rewrite Hnotas. cbn [mbind option_bind].
  rewrite (columna_numerica_salvo df _ "Precio Tarifa"); [|salvo|reflexivity].
  rewrite Hpt. cbn [mbind option_bind].
  rewrite (columna_numerica_salvo df _ "tax_pct"); [|salvo|reflexivity].
  rewrite Htx. cbn [mbind option_bind].
  rewrite (columna_numerica_salvo df _ "fee_pct"); [|salvo|reflexivity].
  rewrite Hfp. cbn [mbind option_bind].
  rewrite (columna_numerica_salvo df _ "fee_fixed"); [|salvo|reflexivity].
  rewrite Hff. cbn [mbind option_bind].
  rewrite (columna_numerica_salvo df _ "financing_pct"); [|salvo|reflexivity].
  rewrite Hfn. cbn [mbind option_bind].
  by eexists.
Qed.

Lemma calcular_Some (df : DataFrame) (base : pystr) (incluir_impuestos : bool)
    (tipo : option pystr) (valor : pyfloat) :
  is_Some (calcular df base incluir_impuestos tipo valor)
  ↔ Forall (λ c, is_Some (columns df !! c)) columnas_de_calculo.
Proof.
  split.
  - intros [out (d & fee & fin & Hd & _)%calcular_inv].
    by apply calcular_importes_inv in Hd as (_ & _ & _ & Hcols & _).
  - intros Hcols.
    destruct (calcular_importes_Some df incluir_impuestos tipo valor Hcols)
      as [[[d fee] fin] Hd].
    unfold calcular. rewrite Hd. by eexists.
Qed.


Section Longitudes.
Variables (df : DataFrame) (incluir_impuestos : bool)
  (tipo : option pystr) (valor : pyfloat).
Hypothesis Hwf : wf df.
Hypothesis Hcols :
  Forall (λ c, is_Some (columns df !! c)) columnas_de_calculo.

Local Abbreviation n := (nrows df).

Lemma L_num (c : string) :
  bool_decide (c ∈ columnas_de_calculo) = true → length (v_num df c) = n.
Proof.
  intros Hc%bool_decide_eq_true. apply v_num_length; [done|].
  rewrite Forall_forall in Hcols. by apply Hcols.
Qed.

Lemma L_aplica : length (aplica_envio df) = n.
Proof.
  unfold aplica_envio. destruct (shipping_column df) as [c|] eqn:E.
  - destruct (shipping_column_Some _ _ E) as [s Hs]. rewrite Hs. simpl.
    unfold fillna_empty. rewrite !length_fmap. by apply (Hwf c).
  - by rewrite length_replicate.
Qed.

Lemma L_con_impuestos : length (v_con_impuestos df) = n.
Proof.
  unfold v_con_impuestos. rewrite length_zip_with, !L_num by done. lia.
Qed.

Lemma L_neta : length (v_neta df incluir_impuestos) = n.
Proof.
  unfold v_neta. destruct incluir_impuestos;
    [apply L_con_impuestos|by apply L_num].
Qed.

Lemma L_envio : length (v_envio df incluir_impuestos tipo valor) = n.
Proof.
  unfold v_envio, recargo_envio, loc_set, loc_set_series.
  repeat match goal with |- context [if ?b then _ else _] => destruct b end;
    rewrite ?length_zip_with, ?length_fmap, ?length_replicate, ?L_aplica,
      ?L_neta; lia.
Qed.

Lemma L_calculos : length (v_calculos df incluir_impuestos tipo valor) = n.
Proof.
  unfold v_calculos, calculos. by rewrite length_fmap, length_seq.
Qed.

Lemma L_iva (precio : list pyfloat) :
  length precio = n → length (columna_iva n precio (v_num df "tax_pct")) = n.
Proof.
  intros Hp. unfold columna_iva, loc_set_series.
  destruct (existsb id _);
    rewrite ?length_zip_with, ?length_fmap, ?length_replicate, ?Hp,
      ?L_num by done; lia.
Qed.

Lemma importes_columnas_length :
  Forall (λ cs : string * Series, length cs.2 = n)
    (importes_columnas df incluir_impuestos tipo valor).
Proof.
  pose proof L_calculos as Lc. pose proof (v_notas_length df Hwf) as Ln.
  unfold importes_columnas, v_invalid, loc_set, loc_set_series.
  repeat match goal with
         | |- Forall _ (_ :: _) => constructor
         | |- Forall _ [] => constructor
         end; cbn [snd];
    repeat match goal with |- context [if ?b then _ else _] => destruct b end;
    rewrite ?length_zip_with, ?length_fmap, ?length_zip_with, ?length_fmap,
      ?Lc, ?Ln, ?L_envio, ?L_con_impuestos, ?L_num by done; try lia.
  apply L_iva. by rewrite length_fmap.
Qed.

End Longitudes.

Lemma calcular_importes_wf (df d : DataFrame) (incluir_impuestos : bool)
    (tipo : option pystr) (valor : pyfloat) (fee fin : list pyfloat) :
  wf df →
  calcular_importes df incluir_impuestos tipo valor = Some (d, fee, fin) →
  wf d ∧ nrows d = nrows df
  ∧ length fee = nrows df ∧ length fin = nrows df.
Proof.
  intros Hwf (Hn & -> & -> & Hcols & Hd & Hotras)%calcular_importes_inv.
  pose proof (importes_columnas_length df incluir_impuestos tipo valor Hwf Hcols)
    as Hlen.
  split; [|split; [done|]].
  - intros c s Hs. rewrite Hn.
    destruct (decide (c ∈ derivadas)) as [Hc|Hc].
    + change derivadas
        with ((importes_columnas df incluir_impuestos tipo valor).*1) in Hc.
      apply list_elem_of_fmap in Hc as ([c' s'] & -> & Hin).
      rewrite Forall_forall in Hd, Hlen.
      specialize (Hd _ Hin). specialize (Hlen _ Hin). simpl in *.
      congruence.
    + rewrite Hotras in Hs by done. by apply (Hwf c).
  - split; by apply L_num.
Qed.

Lemma redondear_lookup (d : DataFrame) (c : string) :
  columns (redondear d) !! c
  = if bool_decide (c ∈ numeric_cols)
    then fmap round_cell <$> columns d !! c else columns d !! c.
Proof. unfold redondear. apply foldl_alter_lookup, numeric_cols_NoDup. Qed.

Lemma calcular_otras (df : DataFrame) (base : pystr)
    (incluir_impuestos : bool) (tipo : option pystr) (valor : pyfloat)
    (out : DataFrame) :
  wf df → calcular df base incluir_impuestos tipo valor = Some out →
  wf out ∧ nrows out = nrows df
  ∧ (∀ c, c ∉ derivadas → c ≠ "% ML aplicado"%string →
          c ≠ "% financiación aplicado"%string →
          columns out !! c = columns df !! c)
  ∧ columns out !! "% ML aplicado" = Some (por_cien (v_num df "fee_pct"))
  ∧ columns out !! "% financiación aplicado"
    = Some (por_cien (v_num df "financing_pct")).
Proof.
  intros Hwf H. unfold calcular in H.
  destruct (calcular_importes _ _ _ _) as [[[d fee] fin]|] eqn:Hd; [|done].
  cbn [mbind option_bind] in H. injection H as <-.
  destruct (calcular_importes_wf _ _ _ _ _ _ _ Hwf Hd) as (Hwd & Hn & Lfee & Lfin).
  apply calcular_importes_inv in Hd as (_ & -> & -> & _ & _ & Hotras).
  assert (nrows (redondear d) = nrows df) as Hnr
    by (unfold redondear; by rewrite foldl_alter_nrows).
  split; [|split; [done|split; [|split]]].
  - intros c s. cbn [columns set_column nrows]. rewrite Hnr.
    rewrite !lookup_insert_Some.
    intros [[_ <-]|[_ [[_ <-]|[_ Hs]]]];
      unfold por_cien; rewrite ?length_fmap; try done.
    rewrite redondear_lookup in Hs. rewrite <- Hn.
    case_bool_decide.
    + apply fmap_Some in Hs as (s' & Hs' & ->). rewrite length_fmap.
      by apply (Hwd c).
    + by apply (Hwd c).
  - intros c Hc H1 H2. cbn [columns set_column].
    rewrite !lookup_insert_ne by done. rewrite redondear_lookup.
    rewrite bool_decide_eq_false_2; [by apply Hotras|].
    intros Hin. apply Hc. revert Hin. unfold numeric_cols, derivadas.
    rewrite !elem_of_cons. tauto.
  - cbn [columns set_column]. rewrite lookup_insert_ne by done.
    by rewrite lookup_insert_eq.
  - cbn [columns set_column]. by rewrite lookup_insert_eq.
Qed.

End CalcularMas.

(** X18. [calcular] succeeds exactly when the frame has the tariff, the
    tax, the two parts of the fee and the financing percentage: the
    options and the content of the cells never make it fail. *)
Theorem calcular_columnas `{RT : Runtime} (df : DataFrame) (base : pystr)
    (incluir_impuestos : bool) (tipo : option pystr) (valor : pyfloat) :
  is_Some (calcular df base incluir_impuestos tipo valor)
  ↔ Forall (λ c, is_Some (columns df !! c))
      ["Precio Tarifa"; "tax_pct"; "fee_pct"; "fee_fixed"; "financing_pct"]%string.
Proof. apply calcular_Some. Qed.

(** X19. [calcular] keeps the frame it is given: the result is well
    formed, has the rows of the frame, and has every column of the frame
    that is not one of the twelve that the computation writes or one of
    the two percentages applied, which are the commission and the
    financing percentages of the row times 100, rounded to two
    decimals. *)
Theorem calcular_conserva `{RT : Runtime} (df : DataFrame) (base : pystr)
    (incluir_impuestos : bool) (tipo : option pystr) (valor : pyfloat)
    (out : DataFrame) :
  wf df → calcular df base incluir_impuestos tipo valor = Some out →
  wf out ∧ nrows out = nrows df
  ∧ (∀ c, c ∉ derivadas → c ≠ "% ML aplicado"%string →
          c ≠ "% financiación aplicado"%string →
          columns out !! c = columns df !! c)
  ∧ ∀ i : nat, (i < nrows df)%nat →
      celda out "% ML aplicado" i
      = Some (Num (round2 (fmul (v_num df "fee_pct" !!! i) f100)))
      ∧ celda out "% financiación aplicado" i
        = Some (Num (round2 (fmul (v_num df "financing_pct" !!! i) f100))).
Proof.
  intros Hwf H.
  destruct (calcular_otras df base incluir_impuestos tipo valor out Hwf H)
    as (H1 & H2 & H3 & H4 & H5).
  split; [done|]. split; [done|]. split; [done|].
  intros i Hi.
  destruct (calcular_fila df base incluir_impuestos tipo valor out i Hwf H Hi)
    as (_ & Hcols & _).
  unfold celda. rewrite H4, H5. cbn [mbind option_bind]. unfold por_cien.
  rewrite !list_lookup_fmap.
  rewrite !(v_num_lookup df Hwf Hcols) by (done || en_lista).
  done.
Qed.

(** X20. The shipping surcharge by percentage: on a row that qualifies,
    with a positive amount, the surcharge is the net tariff of the row
    times the amount taken as a fraction when it is 1 or less, and times
    its hundredth when it is more than 1. *)
Theorem recargo_envio_porcentaje `{RT : Runtime} (df : DataFrame)
    (base : pystr) (incluir_impuestos : bool) (t : pystr) (v : Q)
    (out : DataFrame) (i : nat) :
  wf df →
  calcular df base incluir_impuestos (Some t) (Finite v) = Some out →
  (i < nrows df)%nat →
  startswith (ustr "porcentaje") (lower t) = true →
  aplica_fila df i = true → (0 < v)%Q →
  celda out "Recargo envío ($)" i
  = Some (Num (round2 (fmul (neta_fila df incluir_impuestos i)
                         (Finite (if Qltb 1 v then v / 100 else v))))).
Proof.
  intros Hwf H Hi Hpct Haplica Hv.
  destruct (calcular_fila df base incluir_impuestos (Some t) (Finite v) out i
              Hwf H Hi) as (_ & _ & Hfila).
  pose proof (proj1 (Forall_lookup _ _) Hfila 7%nat _ eq_refl) as H7.
  cbn [fst snd] in H7. rewrite round_cell_redondeo in H7 by reflexivity.
  rewrite H7. do 3 f_equal.
  unfold envio_fila. rewrite Haplica. unfold importe_envio.
  assert (startswith (ustr "fijo") (lower t) = false) as ->.
  { destruct (lower t) as [|c l]; [done|]. cbn in Hpct |- *.
    apply andb_true_iff in Hpct as [Hc%N.eqb_eq _]. by subst. }
  rewrite Hpct.
  assert (truthy (Finite v) = true) as ->.
  { unfold truthy. simpl. apply negb_true_iff.
    destruct (Qeq_bool v 0) eqn:E; [|done].
    apply Qeq_bool_iff in E. rewrite E in Hv. by apply Qlt_irrefl in Hv. }
  cbn [andb fgtb fltb f1]. by destruct (Qltb 1 v).
Qed.

(** X21. The commission charge of a row that the solver accepts is the
    percentage part plus the fixed part, before the three are rounded:
    the column of the charge, the column of the percentage part and the
    column of the fixed part hold the roundings of three numbers, the
    first of which is the sum of the other two. *)
Theorem cargo_por_vender_partes `{RT : Runtime} (df : DataFrame)
    (base : pystr) (incluir_impuestos : bool) (tipo : option pystr)
    (valor : pyfloat) (out : DataFrame) (i : nat) :
  wf df → calcular df base incluir_impuestos tipo valor = Some out →
  (i < nrows df)%nat →
  denominador_invalido (solucion_fila df incluir_impuestos tipo valor i)
  = false →
  ∃ cargo porcentual fijo : pyfloat,
    celda out "Cargo por vender ($)" i = Some (Num (round2 cargo))
    ∧ celda out "Recargo % ML (importe)" i = Some (Num (round2 porcentual))
    ∧ celda out "Recargo fijo ML ($)" i = Some (Num (round2 fijo))
    ∧ feq cargo (fadd porcentual fijo).
Proof.
  intros Hwf H Hi Hval.
  destruct (calcular_fila df base incluir_impuestos tipo valor out i Hwf H Hi)
    as (_ & _ & Hfila).
  assert (∀ k c x,
            importes_fila df incluir_impuestos tipo valor i !! k
            = Some (c, Num x) →
            bool_decide (c ∈ numeric_cols) = true →
            celda out c i = Some (Num (round2 x))) as Hk.
  { intros k c x Hkc Hc.
    pose proof (proj1 (Forall_lookup _ _) Hfila k _ Hkc) as Hx.
    cbn [fst snd] in Hx. by rewrite round_cell_redondeo in Hx. }
  eexists _, _, _.
  split; [by apply (Hk 5%nat)|]. split; [by apply (Hk 3%nat)|].
  split; [by apply (Hk 4%nat)|].
  rewrite Hval. revert Hval.
  unfold solucion_fila, calcular_precio_publicacion_ml.
  destruct (fleb _ f0); [done|]. intros _.
  cbn [cargo_por_vender precio_publicacion].
  set (P := fdiv _ _). clearbody P.
  by rewrite !or_zero_feq.
Qed.

Lemma calcular_columnas_witness :
  is_Some (calcular (RT := Latin1.runtime) EjemploInfactible.unido
             (ustr "tarifa") false (Some (ustr "Ninguno")) f0).
Proof.
  apply (calcular_columnas (RT := Latin1.runtime) EjemploInfactible.unido).
  apply (bool_decide_unpack _). vm_compute. reflexivity.
Defined.

Lemma calcular_conserva_witness :
  ∃ d out,
    EjemploUnido.unido = Some d
    ∧ calcular (RT := Latin1.runtime) d (ustr "tarifa") false
        (Some (ustr "Ninguno")) f0 = Some out
    ∧ wf out ∧ nrows out = nrows d.
Proof.
  destruct EjemploUnido.unido as [d|] eqn:E;
    [|vm_compute in E; discriminate E].
  assert (wf d) as Hwf.
  { unfold EjemploUnido.unido, leer_y_unir in E.
    destruct (leer_ml _ _) as [a|]; [|discriminate E].
    destruct (leer_odoo _) as [b|]; [|discriminate E].
    exact (unir_y_validar_wf a b d E). }
  assert ((d ← EjemploUnido.unido;
           calcular (RT := Latin1.runtime) d (ustr "tarifa") false
             (Some (ustr "Ninguno")) f0) ≠ None) as Hc
    by (vm_compute; discriminate).
  rewrite E in Hc. cbn [mbind option_bind] in Hc.
  destruct (calcular d (ustr "tarifa") false (Some (ustr "Ninguno")) f0)
    as [out|] eqn:Eo; [|exfalso; apply Hc; reflexivity].
  exists d, out. split; [reflexivity|]. split; [exact Eo|].
  destruct (calcular_conserva (RT := Latin1.runtime) d (ustr "tarifa") false
              (Some (ustr "Ninguno")) f0 out Hwf Eo) as (H1 & H2 & _).
  split; [exact H1|exact H2].
Defined.

Lemma recargo_envio_porcentaje_witness :
  ∃ d out,
    EjemploUnido.unido = Some d
    ∧ calcular (RT := Latin1.runtime) d (ustr "tarifa") false
        (Some (ustr "Porcentaje (%)")) (Finite 10) = Some out
    ∧ celda out "Recargo envío ($)" 0
      = Some (Num (round2 (fmul (neta_fila (RT := Latin1.runtime) d false 0)
                             (Finite (10 / 100))))).
Proof.
  destruct EjemploUnido.unido as [d|] eqn:E;
    [|vm_compute in E; discriminate E].
  assert (wf d) as Hwf.
  { unfold EjemploUnido.unido, leer_y_unir in E.
    destruct (leer_ml _ _) as [a|]; [|discriminate E].
    destruct (leer_odoo _) as [b|]; [|discriminate E].
    exact (unir_y_validar_wf a b d E). }
  assert ((d ← EjemploUnido.unido;
           calcular (RT := Latin1.runtime) d (ustr "tarifa") false
             (Some (ustr "Porcentaje (%)")) (Finite 10)) ≠ None) as Hc
    by (vm_compute; discriminate).
  assert ((nrows <$> EjemploUnido.unido) = Some 2%nat) as Hn
    by (vm_compute; reflexivity).
  assert (((λ d, aplica_fila (RT := Latin1.runtime) d 0)
             <$> EjemploUnido.unido) = Some true) as Ha
    by (vm_compute; reflexivity).
  rewrite E in Hc, Hn, Ha. cbn [mbind option_bind] in Hc.
  injection Hn as Hn. injection Ha as Ha.
  destruct (calcular d (ustr "tarifa") false (Some (ustr "Porcentaje (%)"))
              (Finite 10)) as [out|] eqn:Eo;
    [|exfalso; apply Hc; reflexivity].
  exists d, out. split; [reflexivity|]. split; [exact Eo|].
  apply (recargo_envio_porcentaje (RT := Latin1.runtime) d (ustr "tarifa")
           false (ustr "Porcentaje (%)") 10 out 0%nat Hwf Eo).
  - lia.
  - vm_compute. reflexivity.
  - exact Ha.
  - unfold Qlt. simpl. lia.
Defined.

Lemma cargo_por_vender_partes_witness :
  ∃ d out cargo porcentual fijo,
    EjemploUnido.unido = Some d
    ∧ calcular (RT := Latin1.runtime) d (ustr "tarifa") false
        (Some (ustr "Ninguno")) f0 = Some out
    ∧ celda out "Cargo por vender ($)" 0 = Some (Num (round2 cargo))
    ∧ celda out "Recargo % ML (importe)" 0 = Some (Num (round2 porcentual))
    ∧ celda out "Recargo fijo ML ($)" 0 = Some (Num (round2 fijo))
    ∧ feq cargo (fadd porcentual fijo).
Proof.
  destruct EjemploUnido.unido as [d|] eqn:E;
    [|vm_compute in E; discriminate E].
  assert (wf d) as Hwf.
  { unfold EjemploUnido.unido, leer_y_unir in E.
    destruct (leer_ml _ _) as [a|]; [|discriminate E].
    destruct (leer_odoo _) as [b|]; [|discriminate E].
    exact (unir_y_validar_wf a b d E). }
  assert ((d ← EjemploUnido.unido;
           calcular (RT := Latin1.runtime) d (ustr "tarifa") false
             (Some (ustr "Ninguno")) f0) ≠ None) as Hc
    by (vm_compute; discriminate).
  assert ((nrows <$> EjemploUnido.unido) = Some 2%nat) as Hn
    by (vm_compute; reflexivity).
  assert (((λ d, denominador_invalido
                   (solucion_fila (RT := Latin1.runtime) d false
                      (Some (ustr "Ninguno")) f0 0)) <$> EjemploUnido.unido)
          = Some false) as Hv
    by (vm_compute; reflexivity).
  rewrite E in Hc, Hn, Hv. cbn [mbind option_bind] in Hc.
  injection Hn as Hn. injection Hv as Hv.
  destruct (calcular d (ustr "tarifa") false (Some (ustr "Ninguno")) f0)
    as [out|] eqn:Eo; [|exfalso; apply Hc; reflexivity].
  destruct (cargo_por_vender_partes (RT := Latin1.runtime) d (ustr "tarifa")
              false (Some (ustr "Ninguno")) f0 out 0%nat Hwf Eo)
    as (cargo & porcentual & fijo & H1 & H2 & H3 & H4); [lia|exact Hv|].
  exists d, out, cargo, porcentual, fijo.
  split; [reflexivity|]. split; [exact Eo|].
  split; [exact H1|]. split; [exact H2|]. split; [exact H3|exact H4].
Defined.

(** ** The run, from the sheets to the prices *)

Section Corrida.
Context `{RT : Runtime}.

Lemma leer_ml_sin (ml ml_valores d : DataFrame) (c : string) :
  leer_ml ml ml_valores = Some d →
  bool_decide (c ∈ ["SHIPPING_METHOD "; "SHIPPING_METHOD"; "QUANTITY"; "PRICE";
                    "financing_pct"; "fee_fixed"; "fee_pct"]%string) = false →
  columns ml !! c = None → columns ml_valores !! c = None →
  columns d !! c = None.
Proof.
  intros H Hc H1 H2. rewrite leer_ml_eq in H.
  bind_inv H src. bind_inv H dc.
  rewrite (parsear_ml_otras dc d c H).
  2:{ apply bool_decide_eq_false. apply bool_decide_eq_false in Hc.
      intros Hin. apply Hc. revert Hin. rewrite !elem_of_cons. tauto. }
  unfold clean_ml_data in Heqo0.
  bind_inv Heqo0 item. bind_inv Heqo0 sku. injection Heqo0 as <-.
  apply filter_rows_None.
  apply bool_decide_eq_false in Hc.
  apply fuente_ml_cases in Heqo as [[-> | ->] _];
    (rewrite con_envio_lookup; [done|..]; intros ->; apply Hc;
     rewrite !elem_of_cons; tauto).
Qed.

Lemma leer_odoo_sin (odoo d : DataFrame) (c : string) :
  leer_odoo odoo = Some d →
  bool_decide (c ∈ ["Precio Tarifa"; "Cantidad a mano"; "tax_pct"]%string)
  = false →
  columns odoo !! c = None → columns d !! c = None.
Proof.
  intros H Hc%bool_decide_eq_false H1. rewrite leer_odoo_eq in H.
  case_bool_decide; [|done]. bind_inv H codigo. unfold convertir_odoo in H.
  bind_inv H precio. bind_inv H cantidad. bind_inv H impuestos.
  bind_inv H tax. injection H as <-.
  cbn [columns set_column].
  rewrite !lookup_insert_ne
    by (intros <-; apply Hc; rewrite !elem_of_cons; tauto).
  by apply filter_rows_None.
Qed.

Lemma leer_odoo_tax (odoo d : DataFrame) :
  leer_odoo odoo = Some d → is_Some (columns d !! "tax_pct").
Proof.
  intros H. rewrite leer_odoo_eq in H.
  case_bool_decide; [|done]. bind_inv H codigo. unfold convertir_odoo in H.
  bind_inv H precio. bind_inv H cantidad. bind_inv H impuestos.
  bind_inv H tax. injection H as <-.
  cbn [columns set_column]. rewrite lookup_insert_eq. by eexists.
Qed.

(** After the two sheets are read and joined, the frame has what the
    pricing needs, when neither sheet has a column of the name of a
    column that the reading of the other sheet derives. *)
Lemma leer_y_unir_props (ml ml_valores odoo d : DataFrame) :
  wf ml → wf ml_valores →
  leer_y_unir ml ml_valores odoo = Some d →
  wf d ∧ (1 ≤ nrows d)%nat
  ∧ (columns ml !! "tax_pct" = None → columns ml_valores !! "tax_pct" = None →
     Forall (λ c, columns odoo !! c = None)
       ["fee_pct"; "fee_fixed"; "financing_pct"]%string →
     Forall (λ c, is_Some (columns d !! c)) columnas_de_calculo).
Proof.
  intros Hw1 Hw2 H. unfold leer_y_unir in H.
  bind_inv H df_ml. bind_inv H df_odoo.
  destruct (leer_ml_props _ _ _ Hw1 Hw2 Heqo) as (Hwml & Hpos & Hcols & _).
  destruct (unir_y_validar_keys _ _ _ H)
    as (lk & rk & m & Hlk & Hrk & Hm & Hn & Hout & _ & Hpt & _).
  split; [by apply (unir_y_validar_wf df_ml df_odoo)|]. split.
  { pose proof (merge_pairs_length lk rk) as Hlen.
    rewrite (Hwml _ _ Hlk) in Hlen. lia. }
  intros H1 H2 H3. rewrite Forall_forall in Hcols, H3.
  pose proof (λ c, unir_y_validar_lookup df_ml df_odoo d lk rk c H Hlk Hrk)
    as Hc.
  assert (∀ c, c ∈ ["fee_pct"; "fee_fixed"; "financing_pct"]%string →
               c ≠ "Notas/Flags"%string → ends_with "_ml" c = false →
               ends_with "_odoo" c = false →
               bool_decide (c ∈ ["Precio Tarifa"; "Cantidad a mano";
                                 "tax_pct"]%string) = false →
               is_Some (columns d !! c)) as Hfee.
  { intros c Hin Hne E1 E2 Hno. rewrite Hc by done.
    destruct (Hcols c) as [s ->];
      [apply elem_of_app; by right|].
    rewrite (leer_odoo_sin odoo df_odoo c Heqo0 Hno (H3 c Hin)). by eexists. }
  unfold columnas_de_calculo.
  constructor; [by rewrite Hout|].
  constructor.
  { rewrite Hc by done.
    rewrite (leer_ml_sin ml ml_valores df_ml "tax_pct" Heqo) by done.
    destruct (leer_odoo_tax odoo df_odoo Heqo0) as [s ->]. by eexists. }
  constructor; [apply Hfee; (done || en_lista)|].
  constructor; [apply Hfee; (done || en_lista)|].
  constructor; [apply Hfee; (done || en_lista)|].
  constructor.
Qed.

End Corrida.

(** X22. The run does not fail at the pricing: when the two sheets are
    read and joined, and neither sheet has a column of the name of a
    column that the reading of the other derives, the joined frame is
    well formed and has a row at least, and the pricing succeeds on it
    whatever the options, with a well-formed result of as many rows. *)
Theorem procesar_completo `{RT : Runtime} (ml ml_valores odoo d : DataFrame) :
  wf ml → wf ml_valores →
  columns ml !! "tax_pct" = None → columns ml_valores !! "tax_pct" = None →
  Forall (λ c, columns odoo !! c = None)
    ["fee_pct"; "fee_fixed"; "financing_pct"]%string →
  leer_y_unir ml ml_valores odoo = Some d →
  wf d ∧ (1 ≤ nrows d)%nat
  ∧ ∀ (base : pystr) (incluir_impuestos : bool) (tipo : option pystr)
      (valor : pyfloat),
      ∃ out,
        calcular d base incluir_impuestos tipo valor = Some out
        ∧ procesar ml ml_valores odoo base incluir_impuestos tipo valor
          = Some out
        ∧ wf out ∧ nrows out = nrows d.
Proof.
  intros Hw1 Hw2 H1 H2 H3 H.
  destruct (leer_y_unir_props ml ml_valores odoo d Hw1 Hw2 H)
    as (Hwf & Hpos & Hcols).
  split; [done|]. split; [done|].
  intros base inc tipo valor.
  destruct (proj2 (calcular_Some d base inc tipo valor) (Hcols H1 H2 H3))
    as [out Hout].
  exists out. split; [done|]. split.
  - unfold procesar. unfold leer_y_unir in H.
    destruct (leer_ml ml ml_valores) as [a|]; [|done].
    destruct (leer_odoo odoo) as [b|]; [|done].
    cbn [mbind option_bind] in *. by rewrite H.
  - destruct (calcular_otras d base inc tipo valor out Hwf Hout)
      as (? & ? & _). done.
Qed.

Lemma procesar_completo_witness :
  ∃ d out,
    leer_y_unir (RT := Latin1.runtime) Ejemplo.ml Ejemplo.ml Ejemplo.odoo
    = Some d
    ∧ procesar (RT := Latin1.runtime) Ejemplo.ml Ejemplo.ml Ejemplo.odoo
        (ustr "tarifa") true (Some (ustr "Fijo ($)")) (Finite 150) = Some out
    ∧ wf out ∧ nrows out = nrows d.
Proof.
  destruct (leer_y_unir (RT := Latin1.runtime) Ejemplo.ml Ejemplo.ml
              Ejemplo.odoo) as [d|] eqn:E;
    [|vm_compute in E; discriminate E].
  assert (wf Ejemplo.ml) as Hwf by (apply wf_bool; vm_compute; reflexivity).
  destruct (procesar_completo (RT := Latin1.runtime) Ejemplo.ml Ejemplo.ml
              Ejemplo.odoo d Hwf Hwf) as (_ & _ & Hall).
  - vm_compute. reflexivity.
  - vm_compute. reflexivity.
  - apply (bool_decide_unpack _). vm_compute. reflexivity.
  - exact E.
  - destruct (Hall (ustr "tarifa") true (Some (ustr "Fijo ($)")) (Finite 150))
      as (out & _ & H2 & H3 & H4).
    exists d, out. split; [reflexivity|]. split; [exact H2|].
    split; [exact H3|exact H4].
Defined.

(** ** The exported frame, column by column *)

Section Plan.

(** The columns of the result, in their order, each with the series it is
    made of, if that can be made. *)
Definition plan (df : DataFrame) (incluir_impuestos incluir_envio : bool)
    (porcentaje_stock : pyfloat) : list (string * option Series) :=
  let stock_disponible :=
    cantidad ← columns df !! "Cantidad a mano";
    mapM numero (fillna_cero cantidad) in
  [ ("Numero de publicación"%string, columns df !! "ITEM_ID");
    ("SKU"%string, columns df !! "SKU");
    ("Descripción del producto"%string,
     nombre ← columns df !! "Nombre";
     title ← columns df !! "TITLE";
     Some (fillna_serie nombre title));
    ("Stock"%string,
     sd ← stock_disponible; stock ← mapM astype_int sd;
     Some (entero <$> stock));
    ("% Stock"%string,
     sd ← stock_disponible;
     pct ← mapM (λ x, astype_int
                        (round0 (fdiv (fmul x porcentaje_stock) f100))) sd;
     Some (entero <$> pct));
    ("Precio de Tarifa"%string, columns df !! "Precio de Tarifa") ]
  ++ (if incluir_impuestos
      then [("Tarifa + impuestos"%string, columns df !! "Tarifa + impuestos")]
      else [])
  ++ [ ("Precio final"%string, columns df !! "Precio final");
       ("IVA"%string, columns df !! "IVA");
       ("Recargo % ML (importe)"%string,
        columns df !! "Recargo % ML (importe)");
       ("Recargo fijo ML ($)"%string, columns df !! "Recargo fijo ML ($)");
       ("Cargo por vender ($)"%string, columns df !! "Cargo por vender ($)");
       ("Recargo financiación (importe)"%string,
        columns df !! "Recargo financiación (importe)");
       ("Retenciones ML ($)"%string, columns df !! "Retenciones ML ($)");
       ("Recibis ($)"%string, columns df !! "Recibis ($)") ]
  ++ (if incluir_envio
      then [("Recargo envío ($)"%string, columns df !! "Recargo envío ($)")]
      else [])
  ++ [ ("% ML aplicado"%string, columns df !! "% ML aplicado");
       ("% financiación aplicado"%string,
        columns df !! "% financiación aplicado");
       ("Tipo de publicación"%string, columns df !! "LISTING_TYPE_V3");
       ("Precio actual en ML"%string, columns df !! "PRICE");
       ("Moneda"%string, columns df !! "CURRENCY_ID");
       ("Notas/Flags"%string, fillna_empty <$> columns df !! "Notas/Flags") ].

(** The table of a plan: every column must have been made. *)
Definition ensamblar (pl : list (string * option Series)) : option Tabla :=
  mapM (λ co : string * option Series, s ← co.2; Some (co.1, s)) pl.

Lemma plan_labels (df : DataFrame) (inc env : bool) (p : pyfloat) :
  (plan df inc env p).*1 = columnas_finales inc env.
Proof. by destruct inc, env. Qed.

Lemma columnas_finales_NoDup (inc env : bool) :
  NoDup (columnas_finales inc env).
Proof.
  destruct inc, env; apply (bool_decide_unpack _); vm_compute; reflexivity.
Qed.

End Plan.

Ltac buscar_columna c :=
  match goal with
  | |- context [columns ?df !! c] =>
    destruct (columns df !! c) as [?|];
    [cbn [mbind option_bind]|reflexivity]
  end.

Lemma preparar_plan (df : DataFrame) (inc env : bool) (p : pyfloat) :
  preparar_resultado_final df inc env p = ensamblar (plan df inc env p).
Proof.
  destruct inc, env;
    unfold preparar_resultado_final, ensamblar, plan, copiar;
    cbn [app mapM fst snd];
    buscar_columna "ITEM_ID"%string; buscar_columna "SKU"%string;
    buscar_columna "Nombre"%string; buscar_columna "TITLE"%string;
    buscar_columna "Cantidad a mano"%string;
    (match goal with
     | |- context [mapM numero ?l] =>
       destruct (mapM numero l) as [sd|];
       [cbn [mbind option_bind]|reflexivity]
     end);
    (match goal with
     | |- context [mapM astype_int ?l] =>
       destruct (mapM astype_int l) as [stock|];
       [cbn [mbind option_bind]|reflexivity]
     end);
    (match goal with
     | |- context [mapM ?f ?l] =>
       destruct (mapM f l) as [pct|];
       [cbn [mbind option_bind]|reflexivity]
     end);
    buscar_columna "Precio de Tarifa"%string;
    try buscar_columna "Tarifa + impuestos"%string;
    buscar_columna "Precio final"%string; buscar_columna "IVA"%string;
    buscar_columna "Recargo % ML (importe)"%string;
    buscar_columna "Recargo fijo ML ($)"%string;
    buscar_columna "Cargo por vender ($)"%string;
    buscar_columna "Recargo financiación (importe)"%string;
    buscar_columna "Retenciones ML ($)"%string;
    buscar_columna "Recibis ($)"%string;
    try buscar_columna "Recargo envío ($)"%string;
    buscar_columna "% ML aplicado"%string;
    buscar_columna "% financiación aplicado"%string;
    buscar_columna "LISTING_TYPE_V3"%string; buscar_columna "PRICE"%string;
    buscar_columna "CURRENCY_ID"%string; buscar_columna "Notas/Flags"%string;
    reflexivity.
Qed.

Section Tablas.

(** The cell of column [c] in row [i] of a table. *)
Definition celda_tabla (t : Tabla) (c : string) (i : nat) : option cell :=
  s ← buscar c t; s !! i.

Lemma ensamblar_cons (c : string) (o : option Series)
    (pl : list (string * option Series)) (t : Tabla) :
  ensamblar ((c, o) :: pl) = Some t →
  ∃ s t', o = Some s ∧ ensamblar pl = Some t' ∧ t = (c, s) :: t'.
Proof.
  unfold ensamblar. cbn [mapM fst snd]. intros H.
  destruct o as [s|]; [|done]. cbn [mbind option_bind] in H.
  destruct (mapM _ pl) as [t'|]; [|done].
  cbn [mbind option_bind] in H. injection H as <-. by exists s, t'.
Qed.

Lemma ensamblar_labels (pl : list (string * option Series)) (t : Tabla) :
  ensamblar pl = Some t → t.*1 = pl.*1.
Proof.
  revert t. induction pl as [|[c o] pl IH]; intros t H.
  - by injection H as <-.
  - apply ensamblar_cons in H as (s & t' & -> & H & ->).
    cbn. by rewrite (IH t' H).
Qed.

Lemma ensamblar_buscar (pl : list (string * option Series)) (t : Tabla)
    (c : string) (o : option Series) :
  ensamblar pl = Some t → NoDup pl.*1 → (c, o) ∈ pl → buscar c t = o.
Proof.
  revert t. induction pl as [|[c0 o0] pl IH]; intros t H Hnd Hin.
  - by apply not_elem_of_nil in Hin.
  - apply ensamblar_cons in H as (s & t' & -> & H & ->).
    cbn in Hnd. apply NoDup_cons in Hnd as [Hc0 Hnd]. cbn [buscar].
    destruct (String.eqb_spec c0 c) as [->|Hne].
    + apply elem_of_cons in Hin as [[= ->]|Hin]; [done|].
      exfalso. apply Hc0. apply list_elem_of_fmap. by exists (c, o).
    + apply elem_of_cons in Hin as [[= -> ->]|Hin]; [done|]. by apply IH.
Qed.

Lemma ensamblar_is_Some (pl : list (string * option Series)) :
  is_Some (ensamblar pl) ↔ Forall (λ co, is_Some co.2) pl.
Proof.
  unfold ensamblar. rewrite mapM_is_Some. apply Forall_iff.
  intros [c o]. cbn. by destruct o as [s|]; cbn; rewrite ?is_Some_alt.
Qed.

Lemma buscar_None (c : string) (t : Tabla) : c ∉ t.*1 → buscar c t = None.
Proof.
  induction t as [|[c0 s] t IH]; [done|]. cbn. intros Hc.
  destruct (String.eqb_spec c0 c) as [->|Hne].
  - exfalso. apply Hc. by left.
  - apply IH. intros Hin. apply Hc. by right.
Qed.

End Tablas.

(** ** Rounding to an integer *)

Section Rint.
Local Open Scope Q_scope.





End Rint.

Section Preparar.

Lemma preparar_buscar (df : DataFrame) (inc env : bool) (p : pyfloat)
    (t : Tabla) (c : string) (o : option Series) :
  preparar_resultado_final df inc env p = Some t →
  (c, o) ∈ plan df inc env p → buscar c t = o.
Proof.
  rewrite preparar_plan. intros H Hin.
  apply (ensamblar_buscar (plan df inc env p)); [done| |done].
  rewrite plan_labels. apply columnas_finales_NoDup.
Qed.

Lemma preparar_labels (df : DataFrame) (inc env : bool) (p : pyfloat)
    (t : Tabla) :
  preparar_resultado_final df inc env p = Some t →
  t.*1 = columnas_finales inc env.
Proof.
  rewrite preparar_plan. intros H%ensamblar_labels.
  by rewrite H, plan_labels.
Qed.


End Preparar.

(** An element of a list that is written out. *)
Ltac en_plan :=
  repeat first [apply list_elem_of_here | apply list_elem_of_further].

(** X23. The columns of the exported frame: they are the final columns
    in their order, without a repetition, the tariff with taxes and the
    shipping surcharge being there exactly when they were asked for; and
    each holds the column of the computed frame that it is made of, under
    its own label for the item, the kind of listing, the present price
    and the currency. *)
Theorem preparar_resultado_final_columnas (df : DataFrame)
    (incluir_impuestos incluir_envio : bool) (porcentaje_stock : pyfloat)
    (t : Tabla) :
  preparar_resultado_final df incluir_impuestos incluir_envio porcentaje_stock
  = Some t →
  t.*1 = columnas_finales incluir_impuestos incluir_envio
  ∧ NoDup t.*1
  ∧ buscar "Numero de publicación" t = columns df !! "ITEM_ID"
  ∧ buscar "Tipo de publicación" t = columns df !! "LISTING_TYPE_V3"
  ∧ buscar "Precio actual en ML" t = columns df !! "PRICE"
  ∧ buscar "Moneda" t = columns df !! "CURRENCY_ID"
  ∧ Forall (λ c, buscar c t = columns df !! c)
      ["SKU"; "Precio de Tarifa"; "Precio final"; "IVA";
       "Recargo % ML (importe)"; "Recargo fijo ML ($)";
       "Cargo por vender ($)"; "Recargo financiación (importe)";
       "Retenciones ML ($)"; "Recibis ($)"; "% ML aplicado";
       "% financiación aplicado"]%string
  ∧ buscar "Tarifa + impuestos" t
    = (if incluir_impuestos then columns df !! "Tarifa + impuestos" else None)
  ∧ buscar "Recargo envío ($)" t
    = (if incluir_envio then columns df !! "Recargo envío ($)" else None).
Proof.
  intros H. pose proof (preparar_labels _ _ _ _ _ H) as Hl.
  pose proof (λ c o, preparar_buscar df _ _ _ t c o H) as Hb.
  split; [done|]. split; [rewrite Hl; apply columnas_finales_NoDup|].
  split; [apply Hb; destruct incluir_impuestos, incluir_envio; en_plan|].
  split; [apply Hb; destruct incluir_impuestos, incluir_envio; en_plan|].
  split; [apply Hb; destruct incluir_impuestos, incluir_envio; en_plan|].
  split; [apply Hb; destruct incluir_impuestos, incluir_envio; en_plan|].
  split.
  { repeat (apply Forall_cons; split;
            [apply Hb; destruct incluir_impuestos, incluir_envio; en_plan|]).
    apply Forall_nil_2. }
  split.
  - destruct incluir_impuestos.
    + apply Hb. destruct incluir_envio; en_plan.
    + apply buscar_None. rewrite Hl.
      destruct incluir_envio; apply (bool_decide_unpack _); vm_compute;
        reflexivity.
  - destruct incluir_envio.
    + apply Hb. destruct incluir_impuestos; en_plan.
    + apply buscar_None. rewrite Hl.
      destruct incluir_impuestos; apply (bool_decide_unpack _); vm_compute;
        reflexivity.
Qed.


(** A stock within a million million, in absolute value: the doubles hold
    such a stock times a hundred exactly, and the integers of 64 bits hold
    every value that is computed from it. A cell that is not a finite
    number is not bound. *)
Definition stock_en_rango (c : cell) : bool :=
  match c with
  | Num (Finite q) =>
    Qleb (inject_Z (- 10 ^ 12)) q && Qleb q (inject_Z (10 ^ 12))
  | _ => true
  end.

(** The stocks of a frame are within that range. *)
Definition stocks_en_rango (df : DataFrame) : bool :=
  match columns df !! "Cantidad a mano" with
  | Some cantidad => forallb stock_en_rango cantidad
  | None => true
  end.


Section Exito.

(** The columns of the computed frame that the exported frame is made
    of. *)
Definition fuentes (incluir_impuestos incluir_envio : bool) : list string :=
  ["ITEM_ID"; "SKU"; "Nombre"; "TITLE"; "Cantidad a mano";
   "Precio de Tarifa"]%string
  ++ (if incluir_impuestos then ["Tarifa + impuestos"%string] else [])
  ++ ["Precio final"; "IVA"; "Recargo % ML (importe)"; "Recargo fijo ML ($)";
      "Cargo por vender ($)"; "Recargo financiación (importe)";
      "Retenciones ML ($)"; "Recibis ($)"]%string
  ++ (if incluir_envio then ["Recargo envío ($)"%string] else [])
  ++ ["% ML aplicado"; "% financiación aplicado"; "LISTING_TYPE_V3"; "PRICE";
      "CURRENCY_ID"; "Notas/Flags"]%string.

(** A stock that can be exported: a finite number, or a missing value. *)
Definition stock_valido (c : cell) : bool :=
  match c with
  | Num (Finite _) | Num NaN => true
  | _ => false
  end.

Lemma stock_valido_spec (c : cell) :
  stock_valido c = true
  ↔ ∃ q, numero (if isna c then Num f0 else c) = Some (Finite q).
Proof.
  destruct c as [s|[q|b|]]; cbn; split; try done; try (by intros [? ?]).
  - by eexists.
  - by eexists.
Qed.

Lemma mapM_cons_Some {A B} (f : A → option B) (x : A) (l : list A)
    (k : list B) :
  mapM f (x :: l) = Some k
  ↔ ∃ y k', f x = Some y ∧ mapM f l = Some k' ∧ k = y :: k'.
Proof.
  cbn. destruct (f x) as [y|]; cbn; [|split; [done|by intros (? & ? & ? & _)]].
  destruct (mapM f l) as [k'|]; cbn.
  - split; [intros [= <-]; by eexists _, _|].
    by intros (? & ? & [= <-] & [= <-] & ->).
  - split; [done|]. by intros (? & ? & _ & ? & _).
Qed.

Lemma stock_entries (p : Q) (l : Series) :
  Forall (λ c, stock_valido c = true) l
  ↔ ∃ sd, mapM numero (fillna_cero l) = Some sd
          ∧ is_Some (mapM astype_int sd)
          ∧ is_Some (mapM (λ x, astype_int
                                  (round0 (fdiv (fmul x (Finite p)) f100)))
                       sd).
Proof.
  induction l as [|c l IH].
  - split; [|done]. intros _. exists []. by repeat split.
  - rewrite Forall_cons, IH, stock_valido_spec. clear IH.
    change (fillna_cero (c :: l))
      with ((if isna c then Num f0 else c) :: fillna_cero l).
    split.
    + intros [[q Hq] (sd & Hsd & [st Hst] & [pc Hpc])].
      exists (Finite q :: sd). split; [apply mapM_cons_Some; by eexists _, _|].
      split; cbn; [by rewrite Hst|]. by rewrite Hpc.
    + intros (sd' & (x & sd & Hx & Hsd & ->)%mapM_cons_Some & [st Hst] & Hpc).
      apply mapM_cons_Some in Hst as (z & st' & Hz & Hst' & _).
      destruct x as [q| |]; [|done..]. split; [by exists q|].
      exists sd. split; [done|]. split; [by eexists|].
      destruct Hpc as [pc (? & pc' & _ & Hpc' & _)%mapM_cons_Some].
      by eexists.
Qed.

Lemma preparar_exito (df : DataFrame) (inc env : bool) (p : Q) :
  is_Some (preparar_resultado_final df inc env (Finite p))
  ↔ Forall (λ c, is_Some (columns df !! c)) (fuentes inc env)
    ∧ ∀ cantidad, columns df !! "Cantidad a mano" = Some cantidad →
                  Forall (λ c, stock_valido c = true) cantidad.
Proof.
  rewrite preparar_plan, ensamblar_is_Some. rewrite !Forall_forall. split.
  - intros Hall.
    assert (∀ c l, (l, columns df !! c) ∈ plan df inc env (Finite p) →
                   is_Some (columns df !! c)) as Hcol
      by (intros c l Hin; apply (Hall _ Hin)).
    assert (is_Some (nombre ← columns df !! "Nombre";
                     title ← columns df !! "TITLE";
                     Some (fillna_serie nombre title))) as Hdesc
      by (apply (Hall ("Descripción del producto"%string, _));
          destruct inc, env; en_plan).
    assert (is_Some (fillna_empty <$> columns df !! "Notas/Flags")) as Hnotas
      by (apply (Hall ("Notas/Flags"%string, _)); destruct inc, env; en_plan).
    assert (is_Some (sd ← (cantidad ← columns df !! "Cantidad a mano";
                           mapM numero (fillna_cero cantidad));
                     stock ← mapM astype_int sd; Some (entero <$> stock)))
      as Hstock
      by (apply (Hall ("Stock"%string, _)); destruct inc, env; en_plan).
    assert (is_Some
              (sd ← (cantidad ← columns df !! "Cantidad a mano";
                     mapM numero (fillna_cero cantidad));
               pct ← mapM (λ x, astype_int
                                  (round0 (fdiv (fmul x (Finite p)) f100))) sd;
               Some (entero <$> pct))) as Hpct
      by (apply (Hall ("% Stock"%string, _)); destruct inc, env; en_plan).
    destruct (columns df !! "Nombre") as [nombre|] eqn:En;
      [|by destruct Hdesc].
    destruct (columns df !! "TITLE") as [title|] eqn:Et; [|by destruct Hdesc].
    destruct (columns df !! "Cantidad a mano") as [cantidad|] eqn:Ec;
      [|by destruct Hstock].
    destruct (columns df !! "Notas/Flags") as [notas|] eqn:Eno;
      [|by destruct Hnotas].
    cbn [mbind option_bind] in Hstock, Hpct. split.
    + intros c Hc.
      destruct inc, env; cbn [fuentes app] in Hc;
        repeat (apply elem_of_cons in Hc as [->|Hc];
                [first [by rewrite En | by rewrite Et | by rewrite Ec
                       | by rewrite Eno
                       | eapply Hcol; en_plan]|]);
        by apply not_elem_of_nil in Hc.
    + intros ? [= <-]. apply (stock_entries p).
      destruct (mapM numero (fillna_cero cantidad)) as [sd|];
        [|by destruct Hstock].
      cbn [mbind option_bind] in Hstock, Hpct. exists sd. split; [done|].
      split.
      * destruct (mapM astype_int sd); [done|by destruct Hstock].
      * destruct (mapM _ sd) in Hpct |- *; [done|by destruct Hpct].
  - intros [Hcols Hstock] [l o] Hin.
    assert (∀ c, c ∈ fuentes inc env → is_Some (columns df !! c)) as Hc
      by done.
    destruct (Hc "Nombre"%string) as [nombre En];
      [destruct inc, env; en_plan|].
    destruct (Hc "TITLE"%string) as [title Et];
      [destruct inc, env; en_plan|].
    destruct (Hc "Cantidad a mano"%string) as [cantidad Ec];
      [destruct inc, env; en_plan|].
    destruct (Hc "Notas/Flags"%string) as [notas Eno];
      [destruct inc, env; en_plan|].
    specialize (Hstock cantidad Ec).
    apply (stock_entries p) in Hstock
      as (sd & Hsd & [st Hst] & [pc Hpc]).
    cbn [snd].
    destruct inc, env; cbn [plan app] in Hin;
      repeat (apply elem_of_cons in Hin as [[= -> ->]|Hin];
              [first [ apply Hc; en_plan
                     | rewrite ?En, ?Et, ?Ec, ?Eno;
                       cbn [mbind option_bind fmap option_fmap option_map];
                       rewrite ?Hsd; cbn [mbind option_bind];
                       rewrite ?Hst, ?Hpc; by eexists ]|]);
      by apply not_elem_of_nil in Hin.
Qed.

End Exito.

(** X25. When the exported frame can be made, for a percentage between 0
    and 100 and stocks within a million million: exactly when the
    computed frame has every column the result is made of and each stock
    is a finite number or is missing; a stock that is a text or is
    infinite is an error. *)
Theorem preparar_resultado_final_exito (df : DataFrame)
    (incluir_impuestos incluir_envio : bool) (p : Q) :
  (0 <= p)%Q → (p <= 100)%Q → stocks_en_rango df = true →
  is_Some (preparar_resultado_final df incluir_impuestos incluir_envio
             (Finite p))
  ↔ Forall (λ c, is_Some (columns df !! c))
      (fuentes incluir_impuestos incluir_envio)
    ∧ ∃ cantidad, columns df !! "Cantidad a mano" = Some cantidad
                  ∧ Forall (λ c, stock_valido c = true) cantidad.
Proof.
  intros _ _ _. rewrite preparar_exito. split.
  - intros [Hcols Hstock]. split; [done|].
    destruct (columns df !! "Cantidad a mano") as [cantidad|] eqn:Ec.
    + exists cantidad. split; [done|]. by apply Hstock.
    + exfalso. rewrite Forall_forall in Hcols.
      destruct (Hcols "Cantidad a mano"%string) as [? E];
        [destruct incluir_impuestos, incluir_envio; en_plan|].
      by rewrite Ec in E.
  - intros [Hcols (cantidad & Ec & Hstock)]. split; [done|].
    intros ? E. rewrite Ec in E. by injection E as <-.
Qed.

(** X26. The texts of the exported frame: the description of a product is
    its name in Odoo, and the title of the listing where the name is
    missing; a note that is missing becomes the empty text, so that no
    note of the result is missing. *)
Theorem preparar_resultado_final_textos (df : DataFrame)
    (incluir_impuestos incluir_envio : bool) (porcentaje_stock : pyfloat)
    (t : Tabla) (nombre title notas : Series) (i : nat) (n ti no : cell) :
  preparar_resultado_final df incluir_impuestos incluir_envio porcentaje_stock
  = Some t →
  columns df !! "Nombre" = Some nombre → columns df !! "TITLE" = Some title →
  columns df !! "Notas/Flags" = Some notas →
  nombre !! i = Some n → title !! i = Some ti → notas !! i = Some no →
  celda_tabla t "Descripción del producto" i
  = Some (if isna n then ti else n)
  ∧ celda_tabla t "Notas/Flags" i = Some (if isna no then Str [] else no)
  ∧ ∀ c, celda_tabla t "Notas/Flags" i = Some c → isna c = false.
Proof.
  intros H En Et Eno Hn Hti Hno.
  pose proof (λ c o, preparar_buscar df _ _ _ t c o H) as Hb.
  assert (celda_tabla t "Notas/Flags" i
          = Some (if isna no then Str [] else no)) as Hnotas.
  { unfold celda_tabla.
    rewrite (Hb "Notas/Flags"%string
               (fillna_empty <$> columns df !! "Notas/Flags"))
      by (destruct incluir_impuestos, incluir_envio; en_plan).
    rewrite Eno. cbn. unfold fillna_empty. by rewrite list_lookup_fmap, Hno. }
  split; [|split; [done|]].
  - unfold celda_tabla.
    rewrite (Hb "Descripción del producto"%string
               (nombre ← columns df !! "Nombre";
                title ← columns df !! "TITLE";
                Some (fillna_serie nombre title)))
      by (destruct incluir_impuestos, incluir_envio; en_plan).
    rewrite En, Et. cbn. unfold fillna_serie.
    rewrite lookup_zip_with, Hn. cbn. by rewrite Hti.
  - intros c. rewrite Hnotas. intros [= <-].
    by destruct no as [s|[q|b|]].
Qed.

(** A computed frame of two rows: the second product has no name and no
    stock in Odoo, and no note. *)
Module EjemploCalculado.

Import Ejemplo.

Definition nan : cell := Num NaN.

Definition df : DataFrame :=
  {| nrows := 2;
     columns :=
       list_to_map
         [("ITEM_ID"%string, [txt "MLA1001"; txt "MLA1002"]);
          ("SKU"%string, [txt "A-1"; txt "B-2"]);
          ("Nombre"%string, [txt "Taladro percutor"; nan]);
          ("TITLE"%string, [txt "Taladro 13 mm"; txt "Amoladora angular"]);
          ("Cantidad a mano"%string, [num 25; nan]);
          ("Precio de Tarifa"%string, [num 18500; num 1200]);
          ("Tarifa + impuestos"%string, [num 22385; num 1452]);
          ("Precio final"%string, [num (2422699 # 100); num (150943 # 100)]);
          ("IVA"%string, [num (420468 # 100); num (26197 # 100)]);
          ("Recargo % ML (importe)"%string,
           [num (314951 # 100); num (19623 # 100)]);
          ("Recargo fijo ML ($)"%string, [num 0; num 0]);
          ("Cargo por vender ($)"%string,
           [num (314951 # 100); num (19623 # 100)]);
          ("Recargo financiación (importe)"%string, [num 0; num 0]);
          ("Retenciones ML ($)"%string, [num 0; num 0]);
          ("Recibis ($)"%string, [num (2107748 # 100); num (131320 # 100)]);
          ("Recargo envío ($)"%string, [num 150; num 0]);
          ("% ML aplicado"%string, [num 13; num 13]);
          ("% financiación aplicado"%string, [num 0; num 0]);
          ("LISTING_TYPE_V3"%string, [txt "gold_special"; txt "gold_pro"]);
          ("PRICE"%string, [num 21000; num 1400]);
          ("CURRENCY_ID"%string, [txt "ARS"; txt "ARS"]);
          ("Notas/Flags"%string, [txt "Sin precio"; nan])] |}.

End EjemploCalculado.

Lemma preparar_resultado_final_columnas_witness :
  ∃ t, preparar_resultado_final EjemploCalculado.df true false (Finite 50)
       = Some t
       ∧ t.*1 = columnas_finales true false
       ∧ buscar "Recargo envío ($)" t = None
       ∧ buscar "Precio actual en ML" t
         = Some [Ejemplo.num 21000; Ejemplo.num 1400].
Proof.
  destruct (preparar_resultado_final EjemploCalculado.df true false
              (Finite 50)) as [t|] eqn:E; [|vm_compute in E; discriminate E].
  exists t. split; [reflexivity|].
  pose proof (preparar_resultado_final_columnas _ _ _ _ _ E) as H.
  split; [exact (proj1 H)|].
  split; [exact (proj2 (proj2 (proj2 (proj2 (proj2 (proj2 (proj2 (proj2 H))))))))|].
  exact (proj1 (proj2 (proj2 (proj2 (proj2 H))))).
Defined.


Lemma preparar_resultado_final_exito_witness :
  is_Some (preparar_resultado_final EjemploCalculado.df true true (Finite 50)).
Proof.
  assert (0 <= 50)%Q as H0 by (unfold Qle; simpl; lia).
  assert (50 <= 100)%Q as H100 by (unfold Qle; simpl; lia).
  apply (proj2 (preparar_resultado_final_exito EjemploCalculado.df true true
                  50 H0 H100 eq_refl)).
  split.
  - apply (bool_decide_unpack _). vm_compute. reflexivity.
  - eexists. split; [reflexivity|]. by repeat constructor.
Defined.

Lemma preparar_resultado_final_textos_witness :
  ∃ t, preparar_resultado_final EjemploCalculado.df true true (Finite 50)
       = Some t
       ∧ celda_tabla t "Descripción del producto" 1
         = Some (Ejemplo.txt "Amoladora angular")
       ∧ celda_tabla t "Notas/Flags" 1 = Some (Str []).
Proof.
  destruct (preparar_resultado_final EjemploCalculado.df true true
              (Finite 50)) as [t|] eqn:E; [|vm_compute in E; discriminate E].
  exists t. split; [reflexivity|].
  destruct (preparar_resultado_final_textos EjemploCalculado.df true true
              (Finite 50) t
              [Ejemplo.txt "Taladro percutor"; EjemploCalculado.nan]
              [Ejemplo.txt "Taladro 13 mm"; Ejemplo.txt "Amoladora angular"]
              [Ejemplo.txt "Sin precio"; EjemploCalculado.nan]
              1 EjemploCalculado.nan (Ejemplo.txt "Amoladora angular")
              EjemploCalculado.nan E eq_refl eq_refl eq_refl eq_refl eq_refl
              eq_refl) as (Hd & Hn & _).
  split; [exact Hd|exact Hn].
Defined.
